(** * BC_Product_Exporter: the export pipeline of [app.py]

    A shallow embedding of the pipeline
    [fetch_products] -> [filter_products] -> [fetch_brand_map] -> [build_csv_rows]
    and of [get_bigcommerce_config], followed by theorems about it.

    Python values are a tagged union (None, bool, int, float, str, list,
    dict with string keys, as [json.loads] produces them).  Exceptions are
    an error result.  The HTTP endpoint is a sequence of responses and the
    requests that were issued are logged, so that a theorem can say which
    requests a run made.  The primitives of the Python runtime and of the
    [csv] module that the repository does not define (float formatting,
    [repr] of a string, the CSV dialect) are the fields of [Runtime]. *)

From Stdlib Require Import List String Ascii ZArith Bool Lia.
From Stdlib Require Import Numbers.DecimalString.
Import ListNotations.

Local Open Scope string_scope.
Local Open Scope list_scope.
Local Open Scope Z_scope.

(** ** The Python runtime *)

Class Runtime : Type := {
  (** binary floating-point numbers *)
  float : Type;
  (** [bool(f)], that is [f != 0.0] *)
  float_truthy : float -> bool;
  (** [str(f)] *)
  float_str : float -> string;
  (** [f == g] *)
  float_eqb : float -> float -> bool;
  (** [f == z] for an integer [z] *)
  float_eq_int : float -> Z -> bool;
  (** [repr(s)] for a string [s] *)
  str_repr : string -> string;
  (** one line of [csv.writer(buffer).writerow], from the cells as text *)
  csv_line : list string -> string
}.

(** Exceptions raised by the modelled code. *)
Inductive exn : Type :=
| AttributeError
| TypeError
| KeyError
| JSONDecodeError
| RuntimeError (msg : string).

Inductive result (A : Type) : Type :=
| Ok (a : A)
| Raise (e : exn).

Arguments Ok {A} a.
Arguments Raise {A} e.

Definition bind {A B : Type} (r : result A) (k : A -> result B) : result B :=
  match r with
  | Ok a => k a
  | Raise e => Raise e
  end.

(** How one round of a paging loop ends: the loop is left with a result or
    an exception, or goes round again with a new accumulator. *)
Inductive round (A : Type) : Type :=
| Stop (r : result A)
| Again (a : A).

Arguments Stop {A} r.
Arguments Again {A} a.

Declare Scope py_scope.
Delimit Scope py_scope with py.
Notation "x <- c ;; k" := (bind c (fun x => k))
  (at level 100, c at next level, right associativity) : py_scope.
Local Open Scope py_scope.

(** [[f(x) for x in xs]], stopping at the first exception. *)
Fixpoint for_each {A B : Type} (f : A -> result B) (xs : list A) : result (list B) :=
  match xs with
  | [] => Ok []
  | x :: rest =>
      y <- f x ;;
      ys <- for_each f rest ;;
      Ok (y :: ys)
  end.

(** ** Strings

    A string is a sequence of 8-bit characters; lower-casing is that of the
    ASCII letters, which is all that a comparison with an ASCII literal can
    see. *)

Definition Z_str (z : Z) : string := NilEmpty.string_of_int (Z.to_int z).

Definition lower_ascii (c : ascii) : ascii :=
  let n := nat_of_ascii c in
  if (Nat.leb 65 n && Nat.leb n 90)%bool then ascii_of_nat (n + 32) else c.

(** [s.lower()] *)
Fixpoint lower (s : string) : string :=
  match s with
  | EmptyString => EmptyString
  | String c rest => String (lower_ascii c) (lower rest)
  end.

(** [s.startswith(p)] *)
Definition startswith (s p : string) : bool := String.prefix p s.

(** [s.rstrip(c)] for a one-character [c]. *)
Fixpoint rstrip (c : ascii) (s : string) : string :=
  match s with
  | EmptyString => EmptyString
  | String a rest =>
      match rstrip c rest with
      | EmptyString => if Ascii.eqb a c then EmptyString else String a EmptyString
      | kept => String a kept
      end
  end.

(** [x in xs] for a collection of strings. *)
Definition str_in (x : string) (xs : list string) : bool :=
  existsb (String.eqb x) xs.

(** The characters of a string, as Python iterates over it. *)
Fixpoint chars (s : string) : list string :=
  match s with
  | EmptyString => []
  | String c rest => String c EmptyString :: chars rest
  end.

(** ** Dictionaries with string keys, in insertion order *)

Fixpoint lookup {V : Type} (key : string) (d : list (string * V)) : option V :=
  match d with
  | [] => None
  | (k, v) :: rest => if String.eqb k key then Some v else lookup key rest
  end.

(** [d[key] = v] *)
Fixpoint dict_set {V : Type} (key : string) (v : V) (d : list (string * V))
  : list (string * V) :=
  match d with
  | [] => [(key, v)]
  | (k, w) :: rest =>
      if String.eqb k key then (k, v) :: rest else (k, w) :: dict_set key v rest
  end.

(** [d[key]] *)
Definition subscript {V : Type} (d : list (string * V)) (key : string) : result V :=
  match lookup key d with
  | Some v => Ok v
  | None => Raise KeyError
  end.

Section Model.

Context {RT : Runtime}.

(** ** Values *)

#[warnings="-register-all"]
Inductive value : Type :=
| VNone
| VBool (b : bool)
| VInt (z : Z)
| VFloat (f : float)
| VStr (s : string)
| VList (l : list value)
| VDict (d : list (string * value)).

(** [bool(v)] *)
Definition truthy (v : value) : bool :=
  match v with
  | VNone => false
  | VBool b => b
  | VInt z => negb (z =? 0)
  | VFloat f => float_truthy f
  | VStr s => negb (String.eqb s "")
  | VList l => match l with [] => false | _ :: _ => true end
  | VDict d => match d with [] => false | _ :: _ => true end
  end.

(** [a or b] *)
Definition py_or (a b : value) : value := if truthy a then a else b.

(** [repr(v)] *)
Fixpoint py_repr (v : value) : string :=
  match v with
  | VNone => "None"
  | VBool true => "True"
  | VBool false => "False"
  | VInt z => Z_str z
  | VFloat f => float_str f
  | VStr s => str_repr s
  | VList l => ("[" ++ String.concat ", " (map py_repr l) ++ "]")%string
  | VDict d =>
      ("{" ++ String.concat ", "
                (map (fun kv => let '(k, x) := kv in str_repr k ++ ": " ++ py_repr x) d)
           ++ "}")%string
  end.

(** [str(v)] *)
Definition py_str (v : value) : string :=
  match v with
  | VStr s => s
  | _ => py_repr v
  end.

Definition is_dict (v : value) : bool :=
  match v with VDict _ => true | _ => false end.

(** [obj.get(key, default)]: only a dict has the method. *)
Definition py_get (obj : value) (key : string) (default : value) : result value :=
  match obj with
  | VDict d =>
      match lookup key d with
      | Some v => Ok v
      | None => Ok default
      end
  | _ => Raise AttributeError
  end.

(** [list(v)]: what a [for] loop or a generator runs over. *)
Definition py_iter (v : value) : result (list value) :=
  match v with
  | VList l => Ok l
  | VStr s => Ok (map VStr (chars s))
  | VDict d => Ok (map (fun kv => VStr (fst kv)) d)
  | _ => Raise TypeError
  end.

(** [sep.join(items)]: every item has to be a string. *)
Definition py_join (sep : string) (items : list value) : result value :=
  parts <- for_each (fun v => match v with
                              | VStr s => Ok s
                              | _ => Raise TypeError
                              end) items ;;
  Ok (VStr (String.concat sep parts)).

(** ** Dictionaries keyed by arbitrary hashable values (the brand map) *)

Definition hashable (v : value) : bool :=
  match v with
  | VList _ | VDict _ => false
  | _ => true
  end.

(** [a == b] on hashable values: numbers compare by value across bool, int
    and float; None and strings only equal themselves. *)
Definition key_eqb (a b : value) : bool :=
  match a, b with
  | VNone, VNone => true
  | VStr s, VStr t => String.eqb s t
  | VBool x, VBool y => Bool.eqb x y
  | VBool x, VInt z | VInt z, VBool x => (if x then 1 else 0) =? z
  | VInt x, VInt y => x =? y
  | VFloat f, VFloat g => float_eqb f g
  | VFloat f, VInt z | VInt z, VFloat f => float_eq_int f z
  | VFloat f, VBool x | VBool x, VFloat f => float_eq_int f (if x then 1 else 0)
  | _, _ => false
  end.

Fixpoint key_lookup (key : value) (d : list (value * value)) : option value :=
  match d with
  | [] => None
  | (k, v) :: rest => if key_eqb k key then Some v else key_lookup key rest
  end.

(** [d.get(key, default)] *)
Definition key_get (d : list (value * value)) (key default : value) : result value :=
  if hashable key then
    match key_lookup key d with
    | Some v => Ok v
    | None => Ok default
    end
  else Raise TypeError.

Fixpoint key_insert (key v : value) (d : list (value * value)) : list (value * value) :=
  match d with
  | [] => [(key, v)]
  | (k, w) :: rest =>
      if key_eqb k key then (k, v) :: rest else (k, w) :: key_insert key v rest
  end.

(** [d[key] = v] *)
Definition key_set (d : list (value * value)) (key v : value)
  : result (list (value * value)) :=
  if hashable key then Ok (key_insert key v d) else Raise TypeError.

(** ** [filter_products] *)

Definition unavailable_values : list string :=
  ["disabled"; "unavailable"; "no"; "false"; "0"].

(** The body of the [for] loop; [filtered] is the list built so far. *)
Fixpoint filter_loop (include_unavailable include_hidden : bool)
    (products filtered : list value) : result (list value) :=
  match products with
  | [] => Ok filtered
  | prod :: rest =>
      let prod := py_or prod (VDict []) in
      a <- py_get prod "availability" (VStr "") ;;
      let availability := lower (py_str a) in
      is_visible <- py_get prod "is_visible" (VBool true) ;;
      if (negb include_unavailable && str_in availability unavailable_values)%bool then
        filter_loop include_unavailable include_hidden rest filtered
      else if (negb include_hidden && negb (truthy is_visible))%bool then
        filter_loop include_unavailable include_hidden rest filtered
      else
        filter_loop include_unavailable include_hidden rest (filtered ++ [prod])
  end.

Definition filter_products (products : list value)
    (include_unavailable include_hidden : bool) : result (list value) :=
  filter_loop include_unavailable include_hidden products [].

(** ** [get_bigcommerce_config] *)

(** The process environment read by [os.getenv]. *)
Variable environ : string -> option string.

Definition getenv (name default : string) : string :=
  match environ name with
  | Some v => v
  | None => default
  end.

(** [for key, value in overrides.items(): if value: config[key] = value] *)
Definition apply_overrides (items config : list (string * string))
  : list (string * string) :=
  fold_left
    (fun config kv =>
       let '(key, v) := kv in
       if negb (String.eqb v "") then dict_set key v config else config)
    items config.

Definition get_bigcommerce_config (overrides : option (list (string * string)))
  : list (string * string) :=
  let config :=
    [ ("store_hash", getenv "BIGCOMMERCE_STORE_HASH" "");
      ("client_id", getenv "BIGCOMMERCE_CLIENT_ID" "");
      ("access_token", getenv "BIGCOMMERCE_ACCESS_TOKEN" "") ] in
  match overrides with
  | None | Some [] => config
  | Some items => apply_overrides items config
  end.

(** [[key for key, value in config.items() if not value]] *)
Definition missing_keys (config : list (string * string)) : list string :=
  map fst (filter (fun kv => String.eqb (snd kv) "") config).

Definition missing_message (missing : list string) : string :=
  ("Missing BigCommerce configuration: " ++ String.concat ", " missing ++ ". "
   ++ "Set BIGCOMMERCE_STORE_HASH, BIGCOMMERCE_CLIENT_ID, and BIGCOMMERCE_ACCESS_TOKEN.")%string.

(** ** HTTP *)

Record request : Type := {
  url : string;
  headers : list (string * string);
  params : list (string * value)
}.

(** [json] is [None] when the body does not parse. *)
Record response : Type := {
  status_code : Z;
  text : string;
  json : option value
}.

(** [served n] is the response the endpoint gives to the request that
    follows [n] earlier ones.  Every request is answered: timeouts and
    connection errors of the transport are outside the model. *)
Variable served : nat -> response.

(** A computation that issues requests: it reads and extends the log of the
    requests issued so far.  The result [None] is a loop that ran out of
    fuel. *)
Definition Http (A : Type) : Type :=
  list request -> option (result A) * list request.

Definition http_ret {A : Type} (a : A) : Http A :=
  fun log => (Some (Ok a), log).

Definition http_raise {A : Type} (e : exn) : Http A :=
  fun log => (Some (Raise e), log).

Definition http_lift {A : Type} (r : result A) : Http A :=
  fun log => (Some r, log).

Definition out_of_fuel {A : Type} : Http A :=
  fun log => (None, log).

Definition http_bind {A B : Type} (m : Http A) (k : A -> Http B) : Http B :=
  fun log =>
    match m log with
    | (Some (Ok a), log') => k a log'
    | (Some (Raise e), log') => (Some (Raise e), log')
    | (None, log') => (None, log')
    end.

Notation "x <~ c ;; k" := (http_bind c (fun x => k))
  (at level 100, c at next level, right associativity) : py_scope.

(** [requests.get(url, headers=..., params=..., timeout=30)] *)
Definition requests_get (req : request) : Http response :=
  fun log => (Some (Ok (served (List.length log))), log ++ [req]).

(** [response.json()] *)
Definition response_json (r : response) : result value :=
  match json r with
  | Some v => Ok v
  | None => Raise JSONDecodeError
  end.

Definition api_headers (config : list (string * string))
  : result (list (string * string)) :=
  client_id <- subscript config "client_id" ;;
  access_token <- subscript config "access_token" ;;
  Ok [ ("X-Auth-Client", client_id);
       ("X-Auth-Token", access_token);
       ("Accept", "application/json");
       ("Content-Type", "application/json") ].

(** [l[:n]] *)
Definition slice_to {A : Type} (l : list A) (n : Z) : list A :=
  if 0 <=? n then firstn (Z.to_nat n) l
  else firstn (Z.to_nat (Z.of_nat (List.length l) + n)) l.

(** ** [fetch_products] *)

Definition api_error_message (r : response) : string :=
  ("BigCommerce API error (" ++ Z_str (status_code r) ++ "): " ++ text r)%string.

(** The [while len(all_products) < max_items] loop.  An iteration that goes
    round again has added at least one product, so [max_items] rounds are
    enough: [fuel] bounds the rounds. *)
Fixpoint products_loop (fuel : nat) (endpoint : string)
    (hdrs : list (string * string)) (include_params : list string)
    (max_items page_size page : Z) (all_products : list value)
  : Http (list value) :=
  if Z.of_nat (List.length all_products) <? max_items then
    match fuel with
    | O => out_of_fuel
    | S fuel' =>
        let prms :=
          [ ("limit", VInt page_size);
            ("page", VInt page);
            ("include", VStr (String.concat "," include_params)) ] in
        response <~ requests_get {| url := endpoint; headers := hdrs; params := prms |} ;;
        if negb (status_code response =? 200) then
          http_raise (RuntimeError (api_error_message response))
        else
          payload <~ http_lift (response_json response) ;;
          data <~ http_lift (py_get payload "data" (VList [])) ;;
          if negb (truthy data) then http_ret all_products
          else
            items <~ http_lift (py_iter data) ;;
            let all_products := all_products ++ items in
            if Z.of_nat (List.length items) <? page_size then http_ret all_products
            else
              products_loop fuel' endpoint hdrs include_params
                max_items page_size (page + 1) all_products
    end
  else http_ret all_products.

Definition fetch_products (max_items page_size : Z) (include_variants : bool)
    (config_override : option (list (string * string))) : Http (list value) :=
  let config := get_bigcommerce_config config_override in
  let missing := missing_keys config in
  match missing with
  | _ :: _ => http_raise (RuntimeError (missing_message missing))
  | [] =>
      store_hash <~ http_lift (subscript config "store_hash") ;;
      let base_url := ("https://api.bigcommerce.com/stores/" ++ store_hash ++ "/v3")%string in
      let endpoint := (base_url ++ "/catalog/products")%string in
      hdrs <~ http_lift (api_headers config) ;;
      let include_params :=
        ["images"; "primary_image"; "custom_fields"]
        ++ (if include_variants then ["variants"; "options"; "modifiers"] else []) in
      all_products <~ products_loop (Z.to_nat max_items) endpoint hdrs include_params
                        max_items page_size 1 [] ;;
      http_ret (slice_to all_products max_items)
  end.

(** ** [fetch_brand_map] *)

Definition brand_error_message (r : response) : string :=
  ("BigCommerce brand API error (" ++ Z_str (status_code r) ++ "): " ++ text r)%string.

(** [for brand in data: brand_map[brand.get("id")] = brand.get("name", "")] *)
Fixpoint record_brands (data : list value) (brand_map : list (value * value))
  : result (list (value * value)) :=
  match data with
  | [] => Ok brand_map
  | brand :: rest =>
      name <- py_get brand "name" (VStr "") ;;
      id <- py_get brand "id" VNone ;;
      brand_map <- key_set brand_map id name ;;
      record_brands rest brand_map
  end.

(** The [while True] loop; it has no bound of its own, [fuel] is the number
    of rounds it is run for. *)
Fixpoint brands_loop (fuel : nat) (endpoint : string)
    (hdrs : list (string * string)) (page : Z) (brand_map : list (value * value))
  : Http (list (value * value)) :=
  match fuel with
  | O => out_of_fuel
  | S fuel' =>
      let prms := [ ("limit", VInt 250); ("page", VInt page) ] in
      response <~ requests_get {| url := endpoint; headers := hdrs; params := prms |} ;;
      if negb (status_code response =? 200) then
        http_raise (RuntimeError (brand_error_message response))
      else
        payload <~ http_lift (response_json response) ;;
        data <~ http_lift (py_get payload "data" (VList [])) ;;
        if negb (truthy data) then http_ret brand_map
        else
          items <~ http_lift (py_iter data) ;;
          brand_map <~ http_lift (record_brands items brand_map) ;;
          if Z.of_nat (List.length items) <? 250 then http_ret brand_map
          else brands_loop fuel' endpoint hdrs (page + 1) brand_map
  end.

Definition fetch_brand_map (fuel : nat)
    (config_override : option (list (string * string)))
  : Http (list (value * value)) :=
  let config := get_bigcommerce_config config_override in
  let missing := missing_keys config in
  match missing with
  | _ :: _ => http_raise (RuntimeError (missing_message missing))
  | [] =>
      store_hash <~ http_lift (subscript config "store_hash") ;;
      let base_url := ("https://api.bigcommerce.com/stores/" ++ store_hash ++ "/v3")%string in
      let endpoint := (base_url ++ "/catalog/brands")%string in
      hdrs <~ http_lift (api_headers config) ;;
      brands_loop fuel endpoint hdrs 1 []
  end.

(** ** [build_csv_rows] *)

(** Friendly labels of the fields the exporter supports. *)
Definition FIELD_OPTIONS : list (string * string) :=
  [
    ("id", "Product ID");
    ("name", "Name");
    ("sku", "SKU");
    ("price", "Price");
    ("sale_price", "Sale Price");
    ("retail_price", "Retail Price");
    ("map_price", "MAP Price");
    ("cost_price", "Cost Price");
    ("msrp", "MSRP");
    ("tax_class_id", "Tax Class ID");
    ("inventory_level", "Inventory");
    ("type", "Type");
    ("weight", "Weight");
    ("width", "Width");
    ("height", "Height");
    ("depth", "Depth");
    ("brand_id", "Brand ID");
    ("brand_name", "Brand Name");
    ("upc", "UPC");
    ("mpn", "MPN");
    ("gtin", "GTIN");
    ("bin_picking_number", "Bin Picking Number");
    ("categories", "Categories");
    ("category_ids", "Category IDs");
    ("primary_image_url", "Primary Image URL");
    ("thumbnail_url", "Thumbnail URL");
    ("image_urls", "Image URLs");
    ("is_visible", "Is Visible");
    ("is_featured", "Is Featured");
    ("is_free_shipping", "Is Free Shipping");
    ("availability", "Availability");
    ("availability_description", "Availability Description");
    ("condition", "Condition");
    ("description", "Description");
    ("warranty", "Warranty");
    ("search_keywords", "Search Keywords");
    ("custom_fields", "Custom Fields");
    ("date_created", "Date Created");
    ("date_modified", "Date Modified");
    ("date_last_imported", "Date Last Imported");
    ("total_sold", "Total Sold");
    ("reviews_rating_sum", "Reviews Rating Sum");
    ("reviews_count", "Reviews Count");
    ("variant_skus", "Variant SKUs");
    ("variant_prices", "Variant Prices");
    ("variants", "Variants (JSON)");
    ("custom_url", "Custom URL")
  ].

(** The nested function [apply_domain(domain, url_value)].  [url_value] is
    whatever was found under the custom-url attribute; only a string has
    [startswith]. *)
Definition apply_domain (domain : string) (url_value : value) : result value :=
  if String.eqb domain "" then Ok url_value
  else if negb (truthy url_value) then Ok (VStr "")
  else
    match url_value with
    | VStr s =>
        if (startswith s "http://" || startswith s "https://")%bool then Ok (VStr s)
        else
          let domain_clean := rstrip "/" domain in
          let path := if startswith s "/" then s else ("/" ++ s)%string in
          Ok (VStr (domain_clean ++ path)%string)
    | _ => Raise AttributeError
    end.

Definition is_none (v : value) : bool :=
  match v with VNone => true | _ => false end.

(** [", ".join(str(item) for item in items)] *)
Definition join_strs (sep : string) (items : list value) : result value :=
  py_join sep (map (fun item => VStr (py_str item)) items).

(** [raw_url] of the [custom_url] branch. *)
Definition custom_url_raw (product : value) : result value :=
  c <- py_get product "custom_url" VNone ;;
  let custom := py_or c (VDict []) in
  if is_dict custom then
    u <- py_get custom "url" (VStr "") ;;
    p <- py_get custom "path" (VStr "") ;;
    Ok (py_or (py_or u p) (VStr ""))
  else Ok (VStr (py_str custom)).

(** The [if]/[elif] chain that computes [value] for one field. *)
Definition extract (brand_map : list (value * value)) (custom_domain : string)
    (product primary_image : value) (field : string) : result value :=
  if String.eqb field "primary_image_url" then
    py_get primary_image "url_standard" (VStr "")
  else if String.eqb field "thumbnail_url" then
    py_get primary_image "url_thumbnail" (VStr "")
  else if String.eqb field "image_urls" then
    im <- py_get product "images" VNone ;;
    images <- py_iter (py_or im (VList [])) ;;
    urls <- for_each (fun img => py_get (py_or img (VDict [])) "url_standard" (VStr ""))
              (filter (fun img => negb (is_none img)) images) ;;
    py_join ", " urls
  else if String.eqb field "brand_name" then
    brand_id <- py_get product "brand_id" VNone ;;
    key_get brand_map brand_id (VStr "")
  else if String.eqb field "category_ids" then
    c <- py_get product "categories" VNone ;;
    categories <- py_iter (py_or c (VList [])) ;;
    join_strs ", " categories
  else if String.eqb field "custom_fields" then
    c <- py_get product "custom_fields" VNone ;;
    custom_fields <- py_iter (py_or c (VList [])) ;;
    parts <- for_each
               (fun cf =>
                  name <- py_get cf "name" (VStr "") ;;
                  cf_value <- py_get cf "value" (VStr "") ;;
                  Ok (if truthy name
                      then VStr (py_str name ++ ": " ++ py_str cf_value)%string
                      else cf_value))
               custom_fields ;;
    py_join "; " parts
  else if String.eqb field "variant_skus" then
    v <- py_get product "variants" VNone ;;
    variants <- py_iter (py_or v (VList [])) ;;
    skus <- for_each (fun variant => py_get variant "sku" (VStr ""))
              (filter truthy variants) ;;
    py_join ", " skus
  else if String.eqb field "variant_prices" then
    v <- py_get product "variants" VNone ;;
    variants <- py_iter (py_or v (VList [])) ;;
    prices <- for_each
                (fun variant =>
                   price <- py_get variant "price" (VStr "") ;;
                   Ok (VStr (py_str price)))
                (filter truthy variants) ;;
    py_join ", " prices
  else if String.eqb field "variants" then
    v <- py_get product "variants" VNone ;;
    Ok (VStr (py_str (py_or v (VList []))))
  else if String.eqb field "custom_url" then
    raw_url <- custom_url_raw product ;;
    apply_domain custom_domain raw_url
  else
    py_get product field (VStr "").

(** The body of [for field in fields]: the value appended to [row]. *)
Definition cell (brand_map : list (value * value)) (custom_domain : string)
    (product : value) (field : string) : result value :=
  pi <- py_get product "primary_image" VNone ;;
  let primary_image := py_or pi (VDict []) in
  v <- extract brand_map custom_domain product primary_image field ;;
  match v with
  | VList items => join_strs ", " items
  | VDict _ =>
      if String.eqb field "custom_url" then py_get v "url" (VStr "")
      else Ok (VStr (py_str v))
  | _ => Ok v
  end.

(** The row passed to [writer.writerow] for one product. *)
Definition product_row (brand_map : list (value * value)) (custom_domain : string)
    (fields : list string) (product : value) : result (list value) :=
  let product := py_or product (VDict []) in
  for_each (cell brand_map custom_domain product) fields.

(** [[FIELD_OPTIONS.get(field, field) for field in fields]] *)
Definition header_row (fields : list string) : list value :=
  map (fun field =>
         VStr (match lookup field FIELD_OPTIONS with
               | Some label => label
               | None => field
               end))
      fields.

(** Every row handed to the writer, the header first. *)
Definition csv_rows (products : list value) (fields : list string)
    (brand_map : list (value * value)) (custom_domain : string)
  : result (list (list value)) :=
  rows <- for_each (product_row brand_map custom_domain fields) products ;;
  Ok (header_row fields :: rows).

(** How the writer turns a cell into text: None is empty, a string is
    itself, anything else goes through [str]. *)
Definition csv_field (v : value) : string :=
  match v with
  | VNone => ""
  | _ => py_str v
  end.

Definition build_csv_rows (products : list value) (fields : list string)
    (brand_map : list (value * value)) (custom_domain : string) : result string :=
  rows <- csv_rows products fields brand_map custom_domain ;;
  Ok (String.concat "" (map (fun row => csv_line (map csv_field row)) rows)).

(** ** Vocabulary of the statements *)

(** The attribute [key] of a record, when it has one. *)
Definition attr (record : value) (key : string) : option value :=
  match record with
  | VDict d => lookup key d
  | _ => None
  end.

(** A product record as the listing returns it: a mapping, or null. *)
Definition is_record (v : value) : bool :=
  match v with
  | VNone | VDict _ => true
  | _ => false
  end.

(** A null record read as the empty record. *)
Definition or_empty (v : value) : value :=
  match v with
  | VNone => VDict []
  | _ => v
  end.

(** The lowercase string form of the availability attribute, the empty
    string when the record has none. *)
Definition availability_text (record : value) : string :=
  lower (py_str (match attr record "availability" with
                 | Some a => a
                 | None => VStr ""
                 end)).

(** The visibility attribute, true when the record has none. *)
Definition visibility (record : value) : value :=
  match attr record "is_visible" with
  | Some v => v
  | None => VBool true
  end.

(** When the filter drops a record. *)
Definition dropped (include_unavailable include_hidden : bool) (record : value) : bool :=
  (negb include_unavailable
   && str_in (availability_text record) ["disabled"; "unavailable"; "no"; "false"; "0"])
  || (negb include_hidden && negb (truthy (visibility record))).

(** The [page] parameter of each logged request. *)
Definition requested_pages (log : list request) : list (option value) :=
  map (fun r => lookup "page" (params r)) log.

(** Pages 1 to [n], each once and in order. *)
Definition page_numbers (n : nat) : list (option value) :=
  map (fun j => Some (VInt (Z.of_nat j + 1))) (seq 0 n).

(** The page of records a successful response carries: the list under
    [data] of its JSON object, empty when there is no [data]. *)
Definition page_of (r : response) : option (list value) :=
  if status_code r =? 200 then
    match json r with
    | Some (VDict d) =>
        match lookup "data" d with
        | Some (VList p) => Some p
        | Some _ => None
        | None => Some []
        end
    | _ => None
    end
  else None.

(** The records of the first [k] pages. *)
Definition received (pages : nat -> list value) (k : nat) : list value :=
  List.concat (map pages (seq 0 k)).

(** The last of the first [k] pages was empty, or had fewer records than
    [page_size]. *)
Definition last_page_short (pages : nat -> list value) (page_size : Z) (k : nat) : bool :=
  match k with
  | O => false
  | S j =>
      match pages j with
      | [] => true
      | _ :: _ => Z.of_nat (List.length (pages j)) <? page_size
      end
  end.

(** After [k] pages the fetch has a reason to stop: the running total has
    reached [max_items], or the last page was empty or short. *)
Definition stops (pages : nat -> list value) (max_items page_size : Z) (k : nat) : bool :=
  (max_items <=? Z.of_nat (List.length (received pages k)))
  || last_page_short pages page_size k.

(** ** The paging loops, one round at a time *)

(** One round of the loop of [fetch_products], after the response came. *)
Definition products_round (page_size : Z) (r : response) (all_products : list value)
  : round (list value) :=
  if negb (status_code r =? 200) then Stop (Raise (RuntimeError (api_error_message r)))
  else
    match response_json r with
    | Raise e => Stop (Raise e)
    | Ok payload =>
        match py_get payload "data" (VList []) with
        | Raise e => Stop (Raise e)
        | Ok data =>
            if negb (truthy data) then Stop (Ok all_products)
            else
              match py_iter data with
              | Raise e => Stop (Raise e)
              | Ok items =>
                  if Z.of_nat (List.length items) <? page_size
                  then Stop (Ok (all_products ++ items))
                  else Again (all_products ++ items)
              end
        end
    end.

(** One round of the loop of [fetch_brand_map], after the response came. *)
Definition brands_round (r : response) (brand_map : list (value * value))
  : round (list (value * value)) :=
  if negb (status_code r =? 200) then Stop (Raise (RuntimeError (brand_error_message r)))
  else
    match response_json r with
    | Raise e => Stop (Raise e)
    | Ok payload =>
        match py_get payload "data" (VList []) with
        | Raise e => Stop (Raise e)
        | Ok data =>
            if negb (truthy data) then Stop (Ok brand_map)
            else
              match py_iter data with
              | Raise e => Stop (Raise e)
              | Ok items =>
                  match record_brands items brand_map with
                  | Raise e => Stop (Raise e)
                  | Ok brand_map' =>
                      if Z.of_nat (List.length items) <? 250
                      then Stop (Ok brand_map')
                      else Again brand_map'
                  end
              end
        end
    end.

(** The request of [fetch_products] for page [page]. *)
Definition products_request (endpoint : string) (hdrs : list (string * string))
    (include_params : list string) (page_size page : Z) : request :=
  {| url := endpoint;
     headers := hdrs;
     params := [ ("limit", VInt page_size);
                 ("page", VInt page);
                 ("include", VStr (String.concat "," include_params)) ] |}.

(** The request of [fetch_brand_map] for page [page]. *)
Definition brands_request (endpoint : string) (hdrs : list (string * string))
    (page : Z) : request :=
  {| url := endpoint;
     headers := hdrs;
     params := [ ("limit", VInt 250); ("page", VInt page) ] |}.

(** The shape the two paging loops share: while [guard] holds, request the
    next page and let [rnd] decide on the response. *)
Fixpoint paging {A : Type} (guard : A -> bool) (rnd : response -> A -> round A)
    (req : Z -> request) (fuel : nat) (page : Z) (acc : A) (log : list request)
  : option (result A) * list request :=
  if guard acc then
    match fuel with
    | O => (None, log)
    | S fuel' =>
        let log' := log ++ [req page] in
        match rnd (served (List.length log)) acc with
        | Stop r => (Some r, log')
        | Again acc' => paging guard rnd req fuel' (page + 1) acc' log'
        end
    end
  else (Some (Ok acc), log).

(** Pages [page], [page + 1], ... for [n] requests. *)
Definition pages_from (page : Z) (n : nat) : list (option value) :=
  map (fun j => Some (VInt (page + Z.of_nat j))) (seq 0 n).

(** What a paging run hands back, with the slice [[:max_items]] applied to a
    returned list. *)
Definition sliced (max_items : Z) (run : option (result (list value)) * list request)
  : option (result (list value)) * list request :=
  match run with
  | (Some (Ok all_products), log) => (Some (Ok (slice_to all_products max_items)), log)
  | (Some (Raise e), log) => (Some (Raise e), log)
  | (None, log) => (None, log)
  end.

(** ** Vocabulary of the statements about cells *)

(** The product attribute that the extraction rule of a field reads. *)
Definition source_attribute (field : string) : string :=
  if String.eqb field "primary_image_url" then "primary_image"
  else if String.eqb field "thumbnail_url" then "primary_image"
  else if String.eqb field "image_urls" then "images"
  else if String.eqb field "brand_name" then "brand_id"
  else if String.eqb field "category_ids" then "categories"
  else if String.eqb field "variant_skus" then "variants"
  else if String.eqb field "variant_prices" then "variants"
  else field.

(** The cell of a field whose attribute the product lacks: empty, except
    that the stringified empty list of variants reads [[]]. *)
Definition blank_cell (field : string) : value :=
  VStr (if String.eqb field "variants" then "[]" else "").

(** The entry [key] of a mapping, the empty string when it has none. *)
Definition entry (m : list (string * value)) (key : string) : value :=
  match lookup key m with
  | Some v => v
  | None => VStr ""
  end.

(** The value extracted from the custom-url attribute: [url], then [path],
    of a mapping, the string form of any other value, and the empty string
    when there is nothing to take. *)
Definition extracted_url (record : value) : value :=
  match attr record "custom_url" with
  | None => VStr ""
  | Some (VDict m) =>
      if truthy (VDict m) && truthy (entry m "url") then entry m "url"
      else if truthy (VDict m) && truthy (entry m "path") then entry m "path"
      else VStr ""
  | Some c => if truthy c then VStr (py_str c) else VStr ""
  end.

(** The cell made from an extracted string [s] and a domain. *)
Definition prefixed (custom_domain s : string) : string :=
  if String.eqb custom_domain "" then s
  else if String.eqb s "" then ""
  else if startswith s "http://" || startswith s "https://" then s
  else (rstrip "/" custom_domain ++ (if startswith s "/" then s else "/" ++ s))%string.

(** A brand map whose keys are integer brand identifiers. *)
Definition int_keyed (brand_map : list (value * value)) : bool :=
  forallb (fun kv => match fst kv with VInt _ => true | _ => false end) brand_map.

(** The environment variable behind each required configuration key. *)
Definition env_var (key : string) : string :=
  if String.eqb key "store_hash" then "BIGCOMMERCE_STORE_HASH"
  else if String.eqb key "client_id" then "BIGCOMMERCE_CLIENT_ID"
  else "BIGCOMMERCE_ACCESS_TOKEN".

Definition required_keys : list string :=
  ["store_hash"; "client_id"; "access_token"].

(** What an override mapping provides for a key. *)
Definition override_value (overrides : option (list (string * string))) (key : string)
  : option string :=
  match overrides with
  | Some items => lookup key items
  | None => None
  end.

End Model.

(** ** A runtime to evaluate the model on examples

    No floats; [repr] and the CSV line are those of strings free of quotes,
    backslashes, commas and control characters. *)

Definition crlf : string :=
  String (ascii_of_nat 13) (String (ascii_of_nat 10) EmptyString).

Definition plain_runtime : Runtime :=
  {| float := Empty_set;
     float_truthy := fun f => match f with end;
     float_str := fun f => match f with end;
     float_eqb := fun f _ => match f with end;
     float_eq_int := fun f _ => match f with end;
     str_repr := fun s => ("'" ++ s ++ "'")%string;
     csv_line := fun cells => (String.concat "," cells ++ crlf)%string |}.

(** ** Inputs for the examples *)

Section Examples.

#[local] Existing Instance plain_runtime.

(** An environment that sets the three variables. *)
Definition full_environ (name : string) : option string :=
  if String.eqb name "BIGCOMMERCE_STORE_HASH" then Some "abc123"
  else if String.eqb name "BIGCOMMERCE_CLIENT_ID" then Some "client"
  else if String.eqb name "BIGCOMMERCE_ACCESS_TOKEN" then Some "token"
  else None.

(** An environment that only sets the client id. *)
Definition partial_environ (name : string) : option string :=
  if String.eqb name "BIGCOMMERCE_CLIENT_ID" then Some "client" else None.

Definition partial_overrides : list (string * string) :=
  [ ("store_hash", "s1"); ("client_id", "") ].

Definition hidden_product : value :=
  VDict [ ("id", VInt 1); ("is_visible", VBool false) ].

Definition disabled_product : value :=
  VDict [ ("id", VInt 2); ("availability", VStr "Disabled") ].

Definition normal_product : value :=
  VDict [ ("id", VInt 3); ("name", VStr "Widget"); ("brand_id", VInt 7);
          ("custom_url", VDict [ ("url", VStr "/widgets/1") ]) ].

Definition acme_brands : list (value * value) := [ (VInt 7, VStr "Acme") ].

Definition ok_response (page : list value) : response :=
  {| status_code := 200; text := "ok"; json := Some (VDict [ ("data", VList page) ]) |}.

Definition unavailable_response : response :=
  {| status_code := 503; text := "Service Unavailable"; json := None |}.

(** Two full pages of two records, then pages of one record. *)
Definition three_pages (j : nat) : list value :=
  match j with
  | O => [hidden_product; disabled_product]
  | S O => [normal_product; VNone]
  | _ => [normal_product]
  end.

Definition paged_endpoint (j : nat) : response := ok_response (three_pages j).

(** A full page, then the endpoint is down. *)
Definition failing_endpoint (j : nat) : response :=
  match j with
  | O => ok_response [hidden_product; disabled_product]
  | _ => unavailable_response
  end.

(** An endpoint that is down from the start. *)
Definition down_endpoint (j : nat) : response := unavailable_response.

End Examples.

(** * The request handlers

    The handlers of [/export], [/download], [/logout], [/api/save_creds]
    and [/api/load_creds].  A form or a query string is a list of named
    strings; of the session only the entry [bc_credentials] is used, absent
    or a mapping of strings.  [str.strip], the CSV reader, the identity
    token verifier and the document store are not the repository's: they
    are parameters. *)

(** [s.split(sep)] for a one-character separator. *)
Fixpoint split (sep : ascii) (s : string) : list string :=
  match s with
  | EmptyString => [EmptyString]
  | String c rest =>
      if Ascii.eqb c sep then EmptyString :: split sep rest
      else
        match split sep rest with
        | [] => [String c EmptyString]
        | word :: words => String c word :: words
        end
  end.

(** [[field for field in raw.split(",") if field]] *)
Definition parse_fields (raw : string) : list string :=
  filter (fun field => negb (String.eqb field "")) (split "," raw).

(** [c in s] for a character [c]. *)
Fixpoint contains (c : ascii) (s : string) : bool :=
  match s with
  | EmptyString => false
  | String a rest => Ascii.eqb a c || contains c rest
  end.

(** [form.get(key, default)] *)
Definition form_get (form : list (string * string)) (key default : string) : string :=
  match lookup key form with
  | Some v => v
  | None => default
  end.

(** [form.get(key) == expected] *)
Definition form_is (form : list (string * string)) (key expected : string) : bool :=
  match lookup key form with
  | Some v => String.eqb v expected
  | None => false
  end.

(** The dict [creds_override] as the handlers fill it from the request. *)
Definition request_credentials (store_hash client_id access_token : string)
  : list (string * string) :=
  let creds_override := [] in
  let creds_override :=
    if negb (String.eqb store_hash "")
    then dict_set "store_hash" store_hash creds_override else creds_override in
  let creds_override :=
    if negb (String.eqb client_id "")
    then dict_set "client_id" client_id creds_override else creds_override in
  if negb (String.eqb access_token "")
  then dict_set "access_token" access_token creds_override else creds_override.

(** [int(b)] *)
Definition int_of_bool (b : bool) : Z := if b then 1 else 0.

(** The keyword arguments given to the template [export.html]. *)
Record export_page : Type := {
  csv_content : string;
  fields_query : string;
  include_variants_arg : Z;
  include_unavailable_arg : Z;
  include_hidden_arg : Z;
  custom_domain_arg : string;
  store_hash_value : string;
  client_id_value : string;
  access_token_value : string;
  preview_rows : list (list string)
}.

(** What a handler of the export answers with. *)
Inductive reply : Type :=
| Redirect (endpoint : string)
| ExportPage (page : export_page)
| Attachment (content mimetype : string) (response_headers : list (string * string)).

(** A JSON answer with its status. *)
Record json_reply (V : Type) : Type := {
  reply_body : list (string * V);
  reply_status : Z
}.

Arguments reply_body {V} j.
Arguments reply_status {V} j.

Section Handlers.

Context {RT : Runtime}.
Variable environ : string -> option string.
Variable served : nat -> response.

(** [s.strip()] *)
Variable strip : string -> string.

(** [list(csv.reader(io.StringIO(text)))] *)
Variable csv_reader : string -> list (list string).

(** [export()]: the session afterwards, and the answer.  [fuel] is the
    number of rounds given to the loop of [fetch_brand_map]. *)
Definition export (fuel : nat) (form : list (string * string))
    (session : option (list (string * string)))
  : option (list (string * string)) * Http reply :=
  let ordered_fields_raw := form_get form "ordered_fields" "" in
  let include_variants := form_is form "include_variants" "on" in
  let include_unavailable := form_is form "include_unavailable" "on" in
  let include_hidden := form_is form "include_hidden" "on" in
  let custom_domain := strip (form_get form "custom_domain" "") in
  let store_hash := strip (form_get form "store_hash" "") in
  let client_id := strip (form_get form "client_id" "") in
  let access_token := strip (form_get form "access_token" "") in
  let fields := parse_fields ordered_fields_raw in
  match fields with
  | [] => (session, http_ret (Redirect "index"))
  | _ :: _ =>
      let creds_override := request_credentials store_hash client_id access_token in
      let '(session, creds_override) :=
        match creds_override with
        | _ :: _ => (Some creds_override, creds_override)
        | [] =>
            match session with
            | Some ((_ :: _) as saved) => (session, saved)
            | _ => (session, creds_override)
            end
        end in
      (session,
       http_bind
         (fetch_products environ served 2000 250 include_variants (Some creds_override))
         (fun products =>
       http_bind
         (http_lift (filter_products products include_unavailable include_hidden))
         (fun products =>
       http_bind (fetch_brand_map environ served fuel (Some creds_override))
         (fun brand_map =>
       http_bind
         (http_lift (build_csv_rows products fields brand_map custom_domain))
         (fun content =>
            http_ret
              (ExportPage
                 {| csv_content := content;
                    fields_query := String.concat "," fields;
                    include_variants_arg := int_of_bool include_variants;
                    include_unavailable_arg := int_of_bool include_unavailable;
                    include_hidden_arg := int_of_bool include_hidden;
                    custom_domain_arg := custom_domain;
                    store_hash_value := form_get creds_override "store_hash" "";
                    client_id_value := form_get creds_override "client_id" "";
                    access_token_value := form_get creds_override "access_token" "";
                    preview_rows := csv_reader content |}))))))
  end.


(** [a and b] *)
Definition py_and (a b : value) : value := if truthy a then b else a.

(** The collection [user_credentials] of the document store: its state,
    [document(uid).set(data)] and [document(uid).get()], the latter [None]
    for a document that does not exist. *)
Variable collection : Type.
Variable doc_set : collection -> value -> list (string * value) -> collection.
Variable doc_get : collection -> value -> option (list (string * value)).

(** [firebase_auth.verify_id_token]: the decoded claims, or the text of the
    exception it raises. *)
Variable verify_id_token : value -> string + list (string * value).

(** [_verify_id_token(id_token)] *)
Definition verified_uid (id_token : value) : string + value :=
  match verify_id_token id_token with
  | inl message => inl message
  | inr decoded =>
      inr (match lookup "uid" decoded with Some uid => uid | None => VStr "" end)
  end.

Definition json_error (message : string) (status : Z) : json_reply value :=
  {| reply_body := [ ("error", VStr message) ]; reply_status := status |}.

(** [save_creds()]: [payload] is what [request.get_json] gives, null for a
    body that is not JSON; [db] is the store's client, absent when there is
    none.  The answer and the store afterwards. *)
Definition save_creds (payload : value) (db : option collection)
  : result (json_reply value * option collection) :=
  let payload := py_or payload (VDict []) in
  id_token <- py_get payload "id_token" (VStr "") ;;
  store_hash <- py_get payload "store_hash" (VStr "") ;;
  client_id <- py_get payload "client_id" (VStr "") ;;
  access_token <- py_get payload "access_token" (VStr "") ;;
  if (negb (truthy id_token)
      || negb (truthy (py_and (py_and store_hash client_id) access_token)))%bool
  then Ok (json_error "Missing token or credentials" 400, db)
  else
    match db with
    | None => Ok (json_error "Firestore not available" 503, db)
    | Some users =>
        match verified_uid id_token with
        | inl message => Ok (json_error ("Invalid ID token: " ++ message) 401, db)
        | inr uid =>
            let users :=
              doc_set users uid
                [ ("store_hash", store_hash);
                  ("client_id", client_id);
                  ("access_token", access_token) ] in
            Ok ({| reply_body := [ ("status", VStr "saved") ]; reply_status := 200 |},
                Some users)
        end
    end.

(** [load_creds()] *)
Definition load_creds (payload : value) (db : option collection)
  : result (json_reply value) :=
  let payload := py_or payload (VDict []) in
  id_token <- py_get payload "id_token" (VStr "") ;;
  if negb (truthy id_token) then Ok (json_error "Missing token" 400)
  else
    match db with
    | None => Ok (json_error "Firestore not available" 503)
    | Some users =>
        match verified_uid id_token with
        | inl message => Ok (json_error ("Invalid ID token: " ++ message) 401)
        | inr uid =>
            match doc_get users uid with
            | None =>
                Ok {| reply_body := [ ("status", VStr "not_found") ];
                      reply_status := 200 |}
            | Some document =>
                let data := match document with [] => [] | _ :: _ => document end in
                Ok {| reply_body :=
                        [ ("status", VStr "found");
                          ("store_hash",
                           match lookup "store_hash" data with
                           | Some v => v | None => VStr "" end);
                          ("client_id",
                           match lookup "client_id" data with
                           | Some v => v | None => VStr "" end);
                          ("access_token",
                           match lookup "access_token" data with
                           | Some v => v | None => VStr "" end) ];
                      reply_status := 200 |}
            end
        end
    end.

(** [logout()]: the session afterwards, and the JSON answer. *)
Definition logout (session : option (list (string * string)))
  : option (list (string * string)) * json_reply value :=
  (None, {| reply_body := [ ("status", VStr "logged_out") ]; reply_status := 200 |}).

End Handlers.

(** ** Inputs for the examples of the handlers *)

Section HandlerExamples.

#[local] Existing Instance plain_runtime.

(** [strip] for spaces. *)
Fixpoint lstrip_spaces (s : string) : string :=
  match s with
  | String c rest => if Ascii.eqb c " " then lstrip_spaces rest else s
  | EmptyString => EmptyString
  end.

Definition strip_spaces (s : string) : string := rstrip " " (lstrip_spaces s).

(** A reader for text without quotes: lines end in CR LF, cells are
    separated by commas. *)
Definition plain_csv_reader (text : string) : list (list string) :=
  map (fun line => split "," (rstrip (ascii_of_nat 13) line))
    (filter (fun line => negb (String.eqb line "")) (split (ascii_of_nat 10) text)).

(** A store that holds one document. *)
Definition slot_set (c : option (list (string * value))) (uid : value)
    (document : list (string * value)) : option (list (string * value)) :=
  Some document.

Definition slot_get (c : option (list (string * value))) (uid : value)
  : option (list (string * value)) := c.

(** A verifier that knows one token. *)
Definition one_token (id_token : value) : string + list (string * value) :=
  match id_token with
  | VStr "good" => inr [ ("uid", VStr "u1") ]
  | _ => inl "bad token"
  end.

Definition save_payload : value :=
  VDict [ ("id_token", VStr "good"); ("store_hash", VStr "abc123");
          ("client_id", VStr "client"); ("access_token", VStr "token") ].

Definition load_payload_example : value := VDict [ ("id_token", VStr "good") ].

Definition export_form : list (string * string) :=
  [ ("ordered_fields", "id,,name,brand_name"); ("include_hidden", "on");
    ("custom_domain", " https://shop.example.com/ "); ("store_hash", " s1 ") ].


Definition saved_session : option (list (string * string)) :=
  Some [ ("store_hash", "old"); ("client_id", "oldclient"); ("access_token", "oldtoken") ].

Definition acme_listing : list value :=
  [ VDict [ ("id", VInt 7); ("name", VStr "Acme") ];
    VDict [ ("id", VInt 9); ("name", VStr "Bolt") ];
    VDict [ ("id", VInt 7); ("name", VStr "Acme Corp") ] ].

Definition orphan_listing : list value := [ VDict [ ("name", VStr "Orphan") ] ].

Definition rich_product : value :=
  VDict [ ("id", VInt 3); ("brand_id", VInt 7);
          ("categories", VList [VInt 18; VInt 23]);
          ("images", VList [ VDict [ ("url_standard", VStr "a.png") ]; VNone;
                             VDict [ ("id", VInt 2) ] ]);
          ("custom_fields",
           VList [ VDict [ ("name", VStr "Color"); ("value", VStr "Red") ];
                   VDict [ ("value", VStr "loose") ] ]) ].

Definition broken_product : value :=
  VDict [ ("custom_fields", VList [ VDict [ ("name", VStr "Color") ]; VNone ]) ].

(** A 200 whose body is not JSON. *)
Definition garbled_endpoint (j : nat) : response :=
  {| status_code := 200; text := "<html>"; json := None |}.

(** Pages of two products, for ever. *)
Definition full_pages (j : nat) : list value := [normal_product; normal_product].

Definition full_endpoint (j : nat) : response := ok_response (full_pages j).

(** One short page of brands. *)
Definition brand_pages (j : nat) : list value := acme_listing.

Definition brand_endpoint (j : nat) : response := ok_response (brand_pages j).

(** Pages of 250 brands, for ever. *)
Definition endless_pages (j : nat) : list value :=
  repeat (VDict [ ("id", VInt 1); ("name", VStr "Brand") ]) 250.

Definition endless_endpoint (j : nat) : response := ok_response (endless_pages j).

End HandlerExamples.

(** * Properties *)

Section Properties.

Context {RT : Runtime}.
Variable environ : string -> option string.
Variable served : nat -> response.

(** ** [filter_products] *)

Lemma py_or_record (r : value) :
  is_record r = true -> py_or r (VDict []) = or_empty r.
Proof.
  destruct r as [| | | | | |d]; simpl; try discriminate; intros _.
  - reflexivity.
  - destruct d; reflexivity.
Qed.

Lemma py_get_attr (r : value) (key : string) (default : value) :
  is_dict r = true ->
  py_get r key default = Ok (match attr r key with Some v => v | None => default end).
Proof.
  destruct r; simpl; try discriminate; intros _.
  destruct (lookup key d); reflexivity.
Qed.

Lemma or_empty_is_dict (r : value) :
  is_record r = true -> is_dict (or_empty r) = true.
Proof. destruct r; simpl; congruence. Qed.

(** One round of the loop on a mapping: it is kept or dropped as [dropped]
    says. *)
Lemma filter_loop_step (iu ih : bool) (r : value) (rest filtered : list value) :
  is_dict r = true -> py_or r (VDict []) = r ->
  filter_loop iu ih (r :: rest) filtered =
  filter_loop iu ih rest (if dropped iu ih r then filtered else filtered ++ [r]).
Proof.
  intros Hd Hor. cbn [filter_loop]. rewrite Hor.
  rewrite (py_get_attr r "availability" (VStr "") Hd).
  rewrite (py_get_attr r "is_visible" (VBool true) Hd).
  cbn [bind]. unfold dropped, unavailable_values.
  fold (availability_text r). fold (visibility r).
  destruct (negb iu && str_in (availability_text r) _)%bool; [reflexivity|].
  destruct (negb ih && negb (truthy (visibility r)))%bool; reflexivity.
Qed.

Lemma py_or_or_empty (r : value) :
  is_record r = true -> py_or (or_empty r) (VDict []) = or_empty r.
Proof.
  destruct r as [| | | | | |d]; simpl; try discriminate; intros _.
  - reflexivity.
  - destruct d; reflexivity.
Qed.

Lemma filter_loop_records (iu ih : bool) (products : list value) :
  Forall (fun r => is_record r = true) products ->
  forall filtered,
    filter_loop iu ih products filtered =
    Ok (filtered ++ filter (fun r => negb (dropped iu ih r)) (map or_empty products)).
Proof.
  induction 1 as [|r rest Hr _ IH]; intros filtered.
  - simpl. now rewrite app_nil_r.
  - assert (Hstep : filter_loop iu ih (r :: rest) filtered =
                    filter_loop iu ih (or_empty r :: rest) filtered).
    { cbn [filter_loop]. rewrite (py_or_record r Hr), (py_or_or_empty r Hr). reflexivity. }
    rewrite Hstep.
    rewrite (filter_loop_step iu ih (or_empty r) rest filtered
               (or_empty_is_dict r Hr) (py_or_or_empty r Hr)).
    rewrite IH. simpl.
    destruct (dropped iu ih (or_empty r)); simpl; [reflexivity|].
    now rewrite <- app_assoc.
Qed.

Lemma filter_products_records (products : list value) (iu ih : bool) :
  Forall (fun r => is_record r = true) products ->
  filter_products products iu ih =
  Ok (filter (fun r => negb (dropped iu ih r)) (map or_empty products)).
Proof.
  intros H. unfold filter_products.
  now rewrite (filter_loop_records iu ih products H []).
Qed.

(** C3.  On a sequence of product records, null ones included,
    [filter_products] does not fail: it reads every null record as the empty
    record and returns, in the order of the input, exactly the records that
    are not dropped, where a record is dropped when [include_unavailable] is
    off and the lowercase string form of its availability attribute (empty
    when absent) is one of disabled, unavailable, no, false, 0, or when
    [include_hidden] is off and its visibility attribute (true when absent)
    is false in Python's truth test [not is_visible]. *)
Theorem filter_products_spec (products : list value) (iu ih : bool) :
  Forall (fun r => is_record r = true) products ->
  filter_products products iu ih =
  Ok (filter (fun r => negb (dropped iu ih r)) (map or_empty products)).
Proof. exact (filter_products_records products iu ih). Qed.

Lemma py_or_idem (v e : value) :
  py_or e e = e -> py_or (py_or v e) e = py_or v e.
Proof.
  intros He. unfold py_or at 2 3. destruct (truthy v) eqn:Hv; [|exact He].
  unfold py_or. now rewrite Hv.
Qed.

(** The list built so far only prefixes what the rest of the loop adds. *)
Lemma filter_loop_shift (iu ih : bool) (products : list value) :
  forall filtered,
    filter_loop iu ih products filtered =
    (kept <- filter_loop iu ih products [] ;; Ok (filtered ++ kept)).
Proof.
  induction products as [|v rest IH]; intros filtered.
  - simpl. now rewrite app_nil_r.
  - cbn [filter_loop].
    destruct (py_get (py_or v (VDict [])) "availability" (VStr "")) as [a|e];
      cbn [bind]; [|reflexivity].
    destruct (py_get (py_or v (VDict [])) "is_visible" (VBool true)) as [w|e];
      cbn [bind]; [|reflexivity].
    destruct (negb iu && _)%bool; [apply IH|].
    destruct (negb ih && _)%bool; [apply IH|].
    rewrite (IH (filtered ++ [py_or v (VDict [])])), (IH ([] ++ [py_or v (VDict [])])).
    destruct (filter_loop iu ih rest []) as [kept|e]; cbn [bind]; [|reflexivity].
    now rewrite <- app_assoc.
Qed.

(** [filter_products] one record at a time. *)
Lemma filter_products_cons (iu ih : bool) (v : value) (rest : list value) :
  filter_products (v :: rest) iu ih =
  let prod := py_or v (VDict []) in
  if is_dict prod then
    kept <- filter_products rest iu ih ;;
    Ok (if dropped iu ih prod then kept else prod :: kept)
  else Raise AttributeError.
Proof.
  cbv zeta. unfold filter_products.
  destruct (is_dict (py_or v (VDict []))) eqn:Hd.
  - assert (Hhead : filter_loop iu ih (v :: rest) [] =
                    filter_loop iu ih (py_or v (VDict []) :: rest) []).
    { cbn [filter_loop]. now rewrite (py_or_idem v (VDict []) eq_refl). }
    rewrite Hhead.
    rewrite (filter_loop_step iu ih _ rest [] Hd (py_or_idem v (VDict []) eq_refl)).
    rewrite filter_loop_shift.
    destruct (filter_loop iu ih rest []) as [kept|e]; cbn [bind]; [|reflexivity].
    destruct (dropped iu ih (py_or v (VDict []))); reflexivity.
  - cbn [filter_loop].
    destruct (py_or v (VDict [])); try discriminate; reflexivity.
Qed.

Lemma filter_products_nil (iu ih : bool) : filter_products [] iu ih = Ok [].
Proof. reflexivity. Qed.

Lemma filter_products_app (iu ih : bool) (l1 l2 : list value) :
  filter_products (l1 ++ l2) iu ih =
  (o1 <- filter_products l1 iu ih ;;
   o2 <- filter_products l2 iu ih ;;
   Ok (o1 ++ o2)).
Proof.
  induction l1 as [|v l1 IH].
  - rewrite filter_products_nil. cbn [app bind].
    destruct (filter_products l2 iu ih); reflexivity.
  - rewrite <- app_comm_cons, !filter_products_cons. cbv zeta.
    destruct (is_dict (py_or v (VDict []))); [|reflexivity].
    rewrite IH.
    destruct (filter_products l1 iu ih) as [o1|e]; cbn [bind]; [|reflexivity].
    destruct (filter_products l2 iu ih) as [o2|e]; cbn [bind]; [|reflexivity].
    destruct (dropped iu ih (py_or v (VDict []))); reflexivity.
Qed.

(** Whatever the input, an output of the filter passes the filter unchanged. *)
Lemma filter_products_fixpoint (iu ih : bool) (products : list value) :
  forall out,
    filter_products products iu ih = Ok out ->
    filter_products out iu ih = Ok out.
Proof.
  induction products as [|v rest IH]; intros out.
  - rewrite filter_products_nil. intros [= <-]. reflexivity.
  - rewrite filter_products_cons. cbv zeta.
    destruct (is_dict (py_or v (VDict []))) eqn:Hd; [|discriminate].
    destruct (filter_products rest iu ih) as [kept|e]; cbn [bind]; [|discriminate].
    specialize (IH kept eq_refl).
    destruct (dropped iu ih (py_or v (VDict []))) eqn:Hdrop; intros [= <-].
    + exact IH.
    + rewrite filter_products_cons. cbv zeta.
      rewrite (py_or_idem v (VDict []) eq_refl), Hd, IH. cbn [bind].
      now rewrite Hdrop.
Qed.

(** C4.  On a sequence of product records [filter_products] returns a list,
    and filtering that list again with the same two flags returns it
    unchanged. *)
Theorem filter_products_idempotent (products : list value) (iu ih : bool) :
  Forall (fun r => is_record r = true) products ->
  exists out,
    filter_products products iu ih = Ok out /\
    filter_products out iu ih = Ok out.
Proof.
  intros H. eexists. split.
  - apply (filter_products_records products iu ih H).
  - apply (filter_products_fixpoint iu ih products).
    apply (filter_products_records products iu ih H).
Qed.

Lemma filter_products_dicts (iu ih : bool) (products : list value) :
  forall out,
    filter_products products iu ih = Ok out ->
    Forall (fun v => is_dict v = true) out.
Proof.
  induction products as [|v rest IH]; intros out.
  - rewrite filter_products_nil. intros [= <-]. constructor.
  - rewrite filter_products_cons. cbv zeta.
    destruct (is_dict (py_or v (VDict []))) eqn:Hd; [|discriminate].
    destruct (filter_products rest iu ih) as [kept|e]; cbn [bind]; [|discriminate].
    specialize (IH kept eq_refl).
    destruct (dropped iu ih (py_or v (VDict []))); intros [= <-].
    + exact IH.
    + now constructor.
Qed.

Lemma empty_record_kept (iu ih : bool) : dropped iu ih (VDict []) = false.
Proof. destruct iu, ih; reflexivity. Qed.

(** C10.  Whatever the input sequence and the flags, every element of a
    list returned by [filter_products] is a mapping, so none is null; and a
    null input record survives as the empty mapping, at its place between
    what is kept of the records before it and of the records after it.  On
    a sequence of records, null ones included, a list is returned. *)
Theorem filter_products_no_null (products : list value) (iu ih : bool) :
  (Forall (fun r => is_record r = true) products ->
   exists out, filter_products products iu ih = Ok out) /\
  forall out,
    filter_products products iu ih = Ok out ->
    Forall (fun v => is_dict v = true) out /\
    ~ In VNone out /\
    forall before after,
      products = before ++ VNone :: after ->
      exists kept_before kept_after,
        filter_products before iu ih = Ok kept_before /\
        filter_products after iu ih = Ok kept_after /\
        out = kept_before ++ VDict [] :: kept_after.
Proof.
  split.
  { intros H. eexists. apply (filter_products_records products iu ih H). }
  intros out Hout.
  pose proof (filter_products_dicts iu ih products out Hout) as Hd.
  split; [exact Hd|]. split.
  - intros Hin. rewrite Forall_forall in Hd. specialize (Hd _ Hin). discriminate.
  - intros before after ->.
    rewrite filter_products_app in Hout.
    destruct (filter_products before iu ih) as [kb|e]; cbn [bind] in Hout;
      [|discriminate].
    rewrite filter_products_cons in Hout. cbv zeta in Hout.
    change (py_or VNone (VDict [])) with (VDict []) in Hout.
    cbn [is_dict] in Hout. rewrite empty_record_kept in Hout.
    destruct (filter_products after iu ih) as [ka|e]; cbn [bind] in Hout;
      [|discriminate].
    injection Hout as <-. now exists kb, ka.
Qed.

(** ** [get_bigcommerce_config] and the configuration check *)

Lemma lookup_dict_set {V : Type} (key k : string) (v : V) (d : list (string * V)) :
  lookup key (dict_set k v d) = if String.eqb k key then Some v else lookup key d.
Proof.
  induction d as [|[k' w] rest IH]; [reflexivity|].
  cbn [dict_set]. destruct (String.eqb k' k) eqn:Hk'.
  - apply String.eqb_eq in Hk'. subst k'. cbn [lookup].
    destruct (String.eqb k key); reflexivity.
  - cbn [lookup]. rewrite IH.
    destruct (String.eqb k' key) eqn:Hkey; [|reflexivity].
    apply String.eqb_eq in Hkey. subst k'. now rewrite String.eqb_sym, Hk'.
Qed.

Lemma lookup_not_in {V : Type} (key : string) (d : list (string * V)) :
  ~ In key (map fst d) -> lookup key d = None.
Proof.
  induction d as [|[k w] rest IH]; [reflexivity|].
  cbn [map fst lookup]. intros Hnot.
  destruct (String.eqb k key) eqn:Hk.
  - apply String.eqb_eq in Hk. exfalso. apply Hnot. now left.
  - apply IH. intros Hin. apply Hnot. now right.
Qed.

Lemma apply_overrides_lookup (key : string) (items : list (string * string)) :
  NoDup (map fst items) ->
  forall config,
    lookup key (apply_overrides items config) =
    match lookup key items with
    | Some v => if String.eqb v "" then lookup key config else Some v
    | None => lookup key config
    end.
Proof.
  unfold apply_overrides.
  induction items as [|[k v] rest IH]; intros Hnd config; [reflexivity|].
  cbn [map fst] in Hnd. inversion Hnd as [|? ? Hnot Hrest]; subst.
  cbn [fold_left lookup]. rewrite (IH Hrest).
  destruct (String.eqb k key) eqn:Hk.
  - apply String.eqb_eq in Hk. subst k.
    rewrite (lookup_not_in key rest Hnot).
    destruct (String.eqb v ""); cbn [negb]; [reflexivity|].
    now rewrite lookup_dict_set, String.eqb_refl.
  - destruct (String.eqb v ""); cbn [negb]; [reflexivity|].
    now rewrite lookup_dict_set, Hk.
Qed.

Lemma get_bigcommerce_config_unfold (overrides : option (list (string * string))) :
  get_bigcommerce_config environ overrides =
  apply_overrides
    (match overrides with Some items => items | None => [] end)
    [ ("store_hash", getenv environ "BIGCOMMERCE_STORE_HASH" "");
      ("client_id", getenv environ "BIGCOMMERCE_CLIENT_ID" "");
      ("access_token", getenv environ "BIGCOMMERCE_ACCESS_TOKEN" "") ].
Proof. destruct overrides as [[|kv items]|]; reflexivity. Qed.

Lemma effective_config (overrides : option (list (string * string))) (key : string) :
  match overrides with Some items => NoDup (map fst items) | None => True end ->
  In key required_keys ->
  lookup key (get_bigcommerce_config environ overrides) =
  Some (match override_value overrides key with
        | Some v => if String.eqb v "" then getenv environ (env_var key) "" else v
        | None => getenv environ (env_var key) ""
        end).
Proof.
  intros Hnd Hkey. rewrite get_bigcommerce_config_unfold.
  rewrite apply_overrides_lookup.
  2:{ destruct overrides; [exact Hnd|constructor]. }
  assert (Hdef : lookup key
                   [ ("store_hash", getenv environ "BIGCOMMERCE_STORE_HASH" "");
                     ("client_id", getenv environ "BIGCOMMERCE_CLIENT_ID" "");
                     ("access_token", getenv environ "BIGCOMMERCE_ACCESS_TOKEN" "") ]
                 = Some (getenv environ (env_var key) "")).
  { cbn [required_keys In] in Hkey.
    destruct Hkey as [<-|[<-|[<-|[]]]]; reflexivity. }
  rewrite Hdef. unfold override_value.
  destruct overrides as [items|]; cbn [lookup]; [|reflexivity].
  destruct (lookup key items) as [v|]; [|reflexivity].
  destruct (String.eqb v ""); reflexivity.
Qed.

Lemma missing_keys_complete (config : list (string * string)) (key : string) :
  lookup key config = Some "" -> In key (missing_keys config).
Proof.
  unfold missing_keys.
  induction config as [|[k v] rest IH]; [discriminate|].
  cbn [lookup filter snd]. destruct (String.eqb k key) eqn:Hk.
  - apply String.eqb_eq in Hk. subst k. intros [= ->]. cbn. now left.
  - intros H. specialize (IH H).
    destruct (String.eqb v ""); [right|]; exact IH.
Qed.

(** C5.  The effective configuration gives each of the three required keys
    the override's value when the override provides a non-empty one and the
    environment default otherwise; and when a required key is empty in it,
    [fetch_products] raises the error whose message lists the missing keys,
    every empty required key among them, with the request log untouched: no
    request has been issued. *)
Theorem configuration_check (overrides : option (list (string * string)))
    (max_items page_size : Z) (include_variants : bool) (log : list request) :
  match overrides with Some items => NoDup (map fst items) | None => True end ->
  let config := get_bigcommerce_config environ overrides in
  (forall key,
      In key required_keys ->
      lookup key config =
      Some (match override_value overrides key with
            | Some v => if String.eqb v "" then getenv environ (env_var key) "" else v
            | None => getenv environ (env_var key) ""
            end)) /\
  ((exists key, In key required_keys /\ lookup key config = Some "") ->
   exists missing,
     fetch_products environ served max_items page_size include_variants overrides log =
     (Some (Raise (RuntimeError
        ("Missing BigCommerce configuration: " ++ String.concat ", " missing ++ ". "
         ++ "Set BIGCOMMERCE_STORE_HASH, BIGCOMMERCE_CLIENT_ID, and BIGCOMMERCE_ACCESS_TOKEN.")%string)),
      log) /\
     forall key,
       In key required_keys -> lookup key config = Some "" -> In key missing).
Proof.
  intros Hnd config. split.
  - intros key Hkey. now apply effective_config.
  - intros [key [_ Hempty]].
    exists (missing_keys config). split.
    + unfold fetch_products. fold config.
      pose proof (missing_keys_complete config key Hempty) as Hin.
      destruct (missing_keys config) as [|m ms]; [contradiction|reflexivity].
    + intros k _ Hk. now apply missing_keys_complete.
Qed.

(** ** The paging loops *)

Lemma products_loop_round (fuel : nat) (endpoint : string)
    (hdrs : list (string * string)) (inc : list string)
    (max_items page_size page : Z) (acc : list value) (log : list request) :
  products_loop served fuel endpoint hdrs inc max_items page_size page acc log =
  if Z.of_nat (List.length acc) <? max_items then
    match fuel with
    | O => (None, log)
    | S fuel' =>
        let log' := log ++ [products_request endpoint hdrs inc page_size page] in
        match products_round page_size (served (List.length log)) acc with
        | Stop r => (Some r, log')
        | Again acc' =>
            products_loop served fuel' endpoint hdrs inc max_items page_size
              (page + 1) acc' log'
        end
    end
  else (Some (Ok acc), log).
Proof.
  destruct fuel as [|fuel']; cbn [products_loop];
    destruct (Z.of_nat (List.length acc) <? max_items); try reflexivity.
  unfold http_bind, requests_get, products_round, products_request.
  cbv zeta.
  destruct (negb (status_code (served (List.length log)) =? 200)); [reflexivity|].
  unfold http_lift.
  destruct (response_json (served (List.length log))) as [payload|e]; [|reflexivity].
  destruct (py_get payload "data" (VList [])) as [data|e]; [|reflexivity].
  destruct (negb (truthy data)); [reflexivity|].
  destruct (py_iter data) as [items|e]; [|reflexivity].
  destruct (Z.of_nat (List.length items) <? page_size); reflexivity.
Qed.

Lemma brands_loop_round (fuel : nat) (endpoint : string)
    (hdrs : list (string * string)) (page : Z)
    (brand_map : list (value * value)) (log : list request) :
  brands_loop served fuel endpoint hdrs page brand_map log =
  match fuel with
  | O => (None, log)
  | S fuel' =>
      let log' := log ++ [brands_request endpoint hdrs page] in
      match brands_round (served (List.length log)) brand_map with
      | Stop r => (Some r, log')
      | Again brand_map' =>
          brands_loop served fuel' endpoint hdrs (page + 1) brand_map' log'
      end
  end.
Proof.
  destruct fuel as [|fuel']; cbn [brands_loop]; [reflexivity|].
  unfold http_bind, requests_get, brands_round, brands_request.
  cbv zeta.
  destruct (negb (status_code (served (List.length log)) =? 200)); [reflexivity|].
  unfold http_lift.
  destruct (response_json (served (List.length log))) as [payload|e]; [|reflexivity].
  destruct (py_get payload "data" (VList [])) as [data|e]; [|reflexivity].
  destruct (negb (truthy data)); [reflexivity|].
  destruct (py_iter data) as [items|e]; [|reflexivity].
  destruct (record_brands items brand_map) as [bm|e]; [|reflexivity].
  destruct (Z.of_nat (List.length items) <? 250); reflexivity.
Qed.

Lemma products_loop_paging (fuel : nat) (endpoint : string)
    (hdrs : list (string * string)) (inc : list string)
    (max_items page_size : Z) :
  forall page acc log,
    products_loop served fuel endpoint hdrs inc max_items page_size page acc log =
    paging served (fun acc => Z.of_nat (List.length acc) <? max_items)
      (products_round page_size) (products_request endpoint hdrs inc page_size)
      fuel page acc log.
Proof.
  induction fuel as [|fuel IH]; intros page acc log;
    rewrite products_loop_round; cbn [paging]; [reflexivity|].
  cbv zeta.
  destruct (Z.of_nat (List.length acc) <? max_items); [|reflexivity].
  destruct (products_round page_size (served (List.length log)) acc); [reflexivity|].
  apply IH.
Qed.

Lemma brands_loop_paging (fuel : nat) (endpoint : string)
    (hdrs : list (string * string)) :
  forall page brand_map log,
    brands_loop served fuel endpoint hdrs page brand_map log =
    paging served (fun _ => true) brands_round (brands_request endpoint hdrs)
      fuel page brand_map log.
Proof.
  induction fuel as [|fuel IH]; intros page brand_map log;
    rewrite brands_loop_round; cbn [paging]; [reflexivity|].
  cbv zeta.
  destruct (brands_round (served (List.length log)) brand_map); [reflexivity|].
  apply IH.
Qed.

Lemma pages_from_cons (page : Z) (n : nat) :
  pages_from page (S n) = Some (VInt page) :: pages_from (page + 1) n.
Proof.
  unfold pages_from. cbn [seq map]. rewrite Z.add_0_r. f_equal.
  rewrite <- seq_shift, map_map. apply map_ext. intros j.
  do 2 f_equal. lia.
Qed.

Lemma page_numbers_from (n : nat) : page_numbers n = pages_from 1 n.
Proof.
  unfold page_numbers, pages_from. apply map_ext. intros j. do 2 f_equal. lia.
Qed.

Section Paging.

Variable A : Type.
Variable guard : A -> bool.
Variable rnd : response -> A -> round A.
Variable req : Z -> request.
Variable message : response -> string.

Hypothesis req_page : forall page, lookup "page" (params (req page)) = Some (VInt page).

Hypothesis rnd_failure :
  forall r acc,
    status_code r <> 200 -> rnd r acc = Stop (Raise (RuntimeError (message r))).

(** The log of a run: the requests are for consecutive pages, and a
    response with a status other than 200 ends the run at once with the
    error made from that response. *)
Lemma paging_log (fuel : nat) :
  forall page acc log res log',
    paging served guard rnd req fuel page acc log = (res, log') ->
    exists ext,
      log' = log ++ ext /\
      requested_pages ext = pages_from page (List.length ext) /\
      forall k,
        (List.length log <= k < List.length log')%nat ->
        status_code (served k) <> 200 ->
        res = Some (Raise (RuntimeError (message (served k)))) /\
        List.length log' = S k.
Proof.
  induction fuel as [|fuel IH]; intros page acc log res log'; cbn [paging].
  - destruct (guard acc); intros [= <- <-]; exists [];
      rewrite app_nil_r; (split; [reflexivity|split; [reflexivity|]]);
      intros k Hk; lia.
  - cbv zeta. destruct (guard acc).
    2:{ intros [= <- <-]. exists []. rewrite app_nil_r.
        split; [reflexivity|split; [reflexivity|]]. intros k Hk. lia. }
    destruct (rnd (served (List.length log)) acc) as [r|acc'] eqn:Hrnd.
    + intros [= <- <-]. exists [req page].
      split; [reflexivity|]. split.
      * cbn. now rewrite req_page, Z.add_0_r.
      * intros k Hk Hstatus. rewrite length_app in Hk |- *. cbn in Hk |- *.
        assert (k = List.length log) by lia. subst k.
        rewrite (rnd_failure _ acc Hstatus) in Hrnd.
        injection Hrnd as <-. split; [reflexivity|lia].
    + intros Hrun. destruct (IH _ _ _ _ _ Hrun) as [ext [-> [Hpages Hfail]]].
      exists (req page :: ext). split; [now rewrite <- app_assoc|]. split.
      * cbn [requested_pages map List.length]. rewrite pages_from_cons, req_page.
        f_equal. exact Hpages.
      * intros k Hk Hstatus.
        destruct (Nat.eq_dec k (List.length log)) as [->|Hne].
        -- rewrite (rnd_failure _ acc Hstatus) in Hrnd. discriminate.
        -- apply Hfail; [|exact Hstatus].
           repeat rewrite length_app in Hk. repeat rewrite length_app.
           cbn [List.length] in Hk |- *. lia.
Qed.

End Paging.

Lemma products_round_failure (page_size : Z) (r : response) (acc : list value) :
  status_code r <> 200 ->
  products_round page_size r acc = Stop (Raise (RuntimeError (api_error_message r))).
Proof.
  intros H. unfold products_round.
  destruct (status_code r =? 200) eqn:E; [|reflexivity].
  apply Z.eqb_eq in E. contradiction.
Qed.

Lemma brands_round_failure (r : response) (brand_map : list (value * value)) :
  status_code r <> 200 ->
  brands_round r brand_map = Stop (Raise (RuntimeError (brand_error_message r))).
Proof.
  intros H. unfold brands_round.
  destruct (status_code r =? 200) eqn:E; [|reflexivity].
  apply Z.eqb_eq in E. contradiction.
Qed.

Lemma apply_overrides_keeps (key : string) (items : list (string * string)) :
  forall config,
    lookup key config <> None ->
    lookup key (apply_overrides items config) <> None.
Proof.
  unfold apply_overrides.
  induction items as [|[k v] rest IH]; intros config H; [exact H|].
  cbn [fold_left]. apply IH.
  destruct (negb (String.eqb v "")); [|exact H].
  rewrite lookup_dict_set. destruct (String.eqb k key); [discriminate|exact H].
Qed.

Lemma config_has_key (overrides : option (list (string * string))) (key : string) :
  In key required_keys ->
  exists v, lookup key (get_bigcommerce_config environ overrides) = Some v.
Proof.
  intros Hkey. rewrite get_bigcommerce_config_unfold.
  match goal with
  | |- exists v, lookup key (apply_overrides ?items ?config) = Some v =>
      pose proof (apply_overrides_keeps key items config) as Hkeep
  end.
  destruct (lookup key (apply_overrides _ _)) as [v|].
  - now exists v.
  - exfalso. apply Hkeep; [|reflexivity].
    cbn [required_keys In] in Hkey.
    destruct Hkey as [<-|[<-|[<-|[]]]]; discriminate.
Qed.

Lemma fetch_products_complete_config (max_items page_size : Z) (include_variants : bool)
    (overrides : option (list (string * string))) :
  missing_keys (get_bigcommerce_config environ overrides) = [] ->
  exists endpoint hdrs inc,
    forall log,
      fetch_products environ served max_items page_size include_variants overrides log =
      sliced max_items
        (paging served (fun acc => Z.of_nat (List.length acc) <? max_items)
           (products_round page_size) (products_request endpoint hdrs inc page_size)
           (Z.to_nat max_items) 1 [] log).
Proof.
  intros Hmissing. unfold fetch_products. cbv zeta. rewrite Hmissing.
  destruct (config_has_key overrides "store_hash") as [sh Hsh]; [cbn; tauto|].
  destruct (config_has_key overrides "client_id") as [ci Hci]; [cbn; tauto|].
  destruct (config_has_key overrides "access_token") as [tok Htok]; [cbn; tauto|].
  unfold api_headers, subscript. rewrite Hsh, Hci, Htok. cbn [bind].
  exists (("https://api.bigcommerce.com/stores/" ++ sh ++ "/v3")
          ++ "/catalog/products")%string,
    [ ("X-Auth-Client", ci); ("X-Auth-Token", tok);
      ("Accept", "application/json"); ("Content-Type", "application/json") ],
    (["images"; "primary_image"; "custom_fields"]
     ++ (if include_variants then ["variants"; "options"; "modifiers"] else [])).
  intros log. rewrite <- products_loop_paging.
  unfold http_bind, http_lift, http_ret, sliced.
  destruct (products_loop _ _ _ _ _ _ _ _ _ _) as [[[a|e]|] l]; reflexivity.
Qed.

Lemma fetch_products_missing_config (max_items page_size : Z) (include_variants : bool)
    (overrides : option (list (string * string))) (log : list request) :
  missing_keys (get_bigcommerce_config environ overrides) <> [] ->
  exists msg,
    fetch_products environ served max_items page_size include_variants overrides log =
    (Some (Raise (RuntimeError msg)), log).
Proof.
  intros H. unfold fetch_products. cbv zeta.
  destruct (missing_keys _); [contradiction|]. eexists. reflexivity.
Qed.

Lemma fetch_brand_map_complete_config (fuel : nat)
    (overrides : option (list (string * string))) :
  missing_keys (get_bigcommerce_config environ overrides) = [] ->
  exists endpoint hdrs,
    forall log,
      fetch_brand_map environ served fuel overrides log =
      paging served (fun _ => true) brands_round (brands_request endpoint hdrs)
        fuel 1 [] log.
Proof.
  intros Hmissing. unfold fetch_brand_map. cbv zeta. rewrite Hmissing.
  destruct (config_has_key overrides "store_hash") as [sh Hsh]; [cbn; tauto|].
  destruct (config_has_key overrides "client_id") as [ci Hci]; [cbn; tauto|].
  destruct (config_has_key overrides "access_token") as [tok Htok]; [cbn; tauto|].
  unfold api_headers, subscript. rewrite Hsh, Hci, Htok. cbn [bind].
  exists (("https://api.bigcommerce.com/stores/" ++ sh ++ "/v3")
          ++ "/catalog/brands")%string,
    [ ("X-Auth-Client", ci); ("X-Auth-Token", tok);
      ("Accept", "application/json"); ("Content-Type", "application/json") ].
  intros log. rewrite <- brands_loop_paging. reflexivity.
Qed.

Lemma fetch_brand_map_missing_config (fuel : nat)
    (overrides : option (list (string * string))) (log : list request) :
  missing_keys (get_bigcommerce_config environ overrides) <> [] ->
  exists msg,
    fetch_brand_map environ served fuel overrides log =
    (Some (Raise (RuntimeError msg)), log).
Proof.
  intros H. unfold fetch_brand_map. cbv zeta.
  destruct (missing_keys _); [contradiction|]. eexists. reflexivity.
Qed.

(** C6.  When a page request that [fetch_products] issued is answered with
    a status other than 200, the call raises the error whose message carries
    that status code and the raw body of that response, so no list is
    returned, partial or not; that request is the last one of the run, and
    the run asked for pages 1, 2, ... once each, so the failed request was
    not repeated.  The same holds of [fetch_brand_map], run for any number
    of rounds, with its own message. *)
Theorem upstream_error_aborts (max_items page_size : Z) (include_variants : bool)
    (overrides : option (list (string * string))) (fuel k : nat) :
  status_code (served k) <> 200 ->
  (forall res log,
      fetch_products environ served max_items page_size include_variants overrides []
      = (res, log) ->
      (k < List.length log)%nat ->
      res = Some (Raise (RuntimeError
              ("BigCommerce API error (" ++ Z_str (status_code (served k)) ++ "): "
               ++ text (served k))%string)) /\
      List.length log = S k /\
      requested_pages log = page_numbers (S k)) /\
  (forall res log,
      fetch_brand_map environ served fuel overrides [] = (res, log) ->
      (k < List.length log)%nat ->
      res = Some (Raise (RuntimeError
              ("BigCommerce brand API error (" ++ Z_str (status_code (served k)) ++ "): "
               ++ text (served k))%string)) /\
      List.length log = S k /\
      requested_pages log = page_numbers (S k)).
Proof.
  intros Hstatus. split; intros res log Hrun Hk.
  - destruct (missing_keys (get_bigcommerce_config environ overrides)) eqn:Hmissing.
    + destruct (fetch_products_complete_config max_items page_size include_variants
                  overrides Hmissing) as [endpoint [hdrs [inc Heq]]].
      rewrite Heq in Hrun.
      destruct (paging _ _ _ _ _ _ _ _) as [res0 log0] eqn:Hpaging.
      destruct (paging_log _ _ (products_round page_size)
                  (products_request endpoint hdrs inc page_size) api_error_message
                  (fun page => eq_refl)
                  (fun r acc => products_round_failure page_size r acc)
                  _ _ _ _ _ _ Hpaging) as [ext [Hlog [Hpages Hfail]]].
      assert (log = log0) as ->.
      { unfold sliced in Hrun. destruct res0 as [[a|e]|]; now injection Hrun. }
      cbn [app] in Hlog. subst ext.
      destruct (Hfail k (conj (Nat.le_0_l k) Hk) Hstatus) as [Hres Hlen].
      subst res0. unfold sliced in Hrun. injection Hrun as <-.
      split; [reflexivity|]. split; [exact Hlen|].
      now rewrite Hpages, Hlen, page_numbers_from.
    + destruct (fetch_products_missing_config max_items page_size include_variants
                  overrides []) as [msg Hmsg]; [now rewrite Hmissing|].
      rewrite Hmsg in Hrun. injection Hrun as <- <-. cbn in Hk. lia.
  - destruct (missing_keys (get_bigcommerce_config environ overrides)) eqn:Hmissing.
    + destruct (fetch_brand_map_complete_config fuel overrides Hmissing)
        as [endpoint [hdrs Heq]].
      rewrite Heq in Hrun.
      destruct (paging_log _ _ brands_round (brands_request endpoint hdrs)
                  brand_error_message (fun page => eq_refl)
                  (fun r acc => brands_round_failure r acc)
                  _ _ _ _ _ _ Hrun) as [ext [Hlog [Hpages Hfail]]].
      cbn [app] in Hlog. subst ext.
      destruct (Hfail k (conj (Nat.le_0_l k) Hk) Hstatus) as [Hres Hlen].
      split; [exact Hres|]. split; [exact Hlen|].
      now rewrite Hpages, Hlen, page_numbers_from.
    + destruct (fetch_brand_map_missing_config fuel overrides []) as [msg Hmsg];
        [now rewrite Hmissing|].
      rewrite Hmsg in Hrun. injection Hrun as <- <-. cbn in Hk. lia.
Qed.

(** ** Pagination of [fetch_products] *)

Lemma py_iter_nonempty (data : value) (items : list value) :
  truthy data = true -> py_iter data = Ok items -> items <> [].
Proof.
  destruct data as [| | | |s|l|d]; cbn; try discriminate.
  - destruct s; cbn; [discriminate|]. intros _ [= <-]. discriminate.
  - destruct l; [discriminate|]. intros _ [= <-]. discriminate.
  - destruct d; [discriminate|]. intros _ [= <-]. discriminate.
Qed.

(** A round that goes round again has added at least one record. *)
Lemma products_round_again (page_size : Z) (r : response) (acc acc' : list value) :
  products_round page_size r acc = Again acc' ->
  (List.length acc < List.length acc')%nat.
Proof.
  unfold products_round.
  destruct (negb (status_code r =? 200)); [discriminate|].
  destruct (response_json r) as [payload|e]; [|discriminate].
  destruct (py_get payload "data" (VList [])) as [data|e]; [|discriminate].
  destruct (truthy data) eqn:Ht; cbn [negb]; [|discriminate].
  destruct (py_iter data) as [items|e] eqn:Hi; [|discriminate].
  destruct (Z.of_nat (List.length items) <? page_size); [discriminate|].
  intros [= <-]. rewrite length_app.
  pose proof (py_iter_nonempty data items Ht Hi).
  destruct items; [contradiction|cbn; lia].
Qed.

(** [max_items] rounds are enough for the loop of [fetch_products]. *)
Lemma products_paging_fuel (max_items page_size : Z) (req : Z -> request) (fuel : nat) :
  forall page acc log,
    (Z.to_nat max_items <= fuel + List.length acc)%nat ->
    fst (paging served (fun acc => Z.of_nat (List.length acc) <? max_items)
           (products_round page_size) req fuel page acc log) <> None.
Proof.
  induction fuel as [|fuel IH]; intros page acc log Hfuel; cbn [paging].
  - destruct (Z.of_nat (List.length acc) <? max_items) eqn:Hg; [|discriminate].
    apply Z.ltb_lt in Hg. lia.
  - cbv zeta.
    destruct (Z.of_nat (List.length acc) <? max_items) eqn:Hg; [|discriminate].
    destruct (products_round page_size (served (List.length log)) acc) as [r|acc'] eqn:Hr;
      [discriminate|].
    apply IH. apply products_round_again in Hr. lia.
Qed.

(** [fetch_products] always comes back, with a list or with an exception. *)
Lemma fetch_products_returns (max_items page_size : Z) (include_variants : bool)
    (overrides : option (list (string * string))) (log : list request) :
  fst (fetch_products environ served max_items page_size include_variants overrides log)
  <> None.
Proof.
  destruct (missing_keys (get_bigcommerce_config environ overrides)) eqn:Hmissing.
  - destruct (fetch_products_complete_config max_items page_size include_variants
                overrides Hmissing) as [endpoint [hdrs [inc Heq]]].
    rewrite Heq.
    pose proof (products_paging_fuel max_items page_size
                  (products_request endpoint hdrs inc page_size)
                  (Z.to_nat max_items) 1 [] log) as Hfuel.
    destruct (paging _ _ _ _ _ _ _ _) as [[[a|e]|] l]; cbn in *;
      try discriminate.
    apply Hfuel. lia.
  - destruct (fetch_products_missing_config max_items page_size include_variants
                overrides log) as [msg Hmsg]; [now rewrite Hmissing|].
    rewrite Hmsg. discriminate.
Qed.

Lemma products_round_page (page_size : Z) (r : response) (acc p : list value) :
  page_of r = Some p ->
  products_round page_size r acc =
  match p with
  | [] => Stop (Ok acc)
  | _ :: _ =>
      if Z.of_nat (List.length p) <? page_size then Stop (Ok (acc ++ p))
      else Again (acc ++ p)
  end.
Proof.
  unfold page_of, products_round, response_json.
  destruct (status_code r =? 200); [|discriminate]. cbn [negb].
  destruct (json r) as [[| | | | | |d]|]; try discriminate.
  cbn [py_get].
  destruct (lookup "data" d) as [[| | | | |l|]|]; try discriminate;
    intros [= <-].
  - destruct l; reflexivity.
  - reflexivity.
Qed.

Lemma received_succ (pages : nat -> list value) (k : nat) :
  received pages (S k) = received pages k ++ pages k.
Proof.
  unfold received. rewrite seq_S, map_app, concat_app. cbn.
  now rewrite app_nil_r.
Qed.

Section Pagination.

Variable pages : nat -> list value.
Variables max_items page_size : Z.
Variable req : Z -> request.

Hypothesis served_pages : forall j, page_of (served j) = Some (pages j).

(** From the state after [k] full pages, the loop stops after the first
    number of pages at which [stops] holds. *)
Lemma paging_stops (fuel : nat) :
  forall k log,
    List.length log = k ->
    last_page_short pages page_size k = false ->
    (Z.to_nat max_items <= fuel + List.length (received pages k))%nat ->
    exists n log',
      paging served (fun acc => Z.of_nat (List.length acc) <? max_items)
        (products_round page_size) req fuel (Z.of_nat k + 1) (received pages k) log
      = (Some (Ok (received pages n)), log') /\
      List.length log' = n /\
      (k <= n)%nat /\
      stops pages max_items page_size n = true /\
      forall j, (k <= j < n)%nat -> stops pages max_items page_size j = false.
Proof.
  induction fuel as [|fuel IH]; intros k log Hlen Hshort Hfuel.
  - exists k, log. cbn [paging].
    destruct (Z.of_nat (List.length (received pages k)) <? max_items) eqn:Hg.
    { apply Z.ltb_lt in Hg. lia. }
    split; [reflexivity|]. split; [exact Hlen|]. split; [lia|]. split.
    + unfold stops. apply Z.ltb_ge in Hg. apply Z.leb_le in Hg. now rewrite Hg.
    + intros j Hj. lia.
  - cbn [paging].
    destruct (Z.of_nat (List.length (received pages k)) <? max_items) eqn:Hg.
    2:{ exists k, log.
        split; [reflexivity|]. split; [exact Hlen|]. split; [lia|]. split.
        - unfold stops. apply Z.ltb_ge in Hg. apply Z.leb_le in Hg. now rewrite Hg.
        - intros j Hj. lia. }
    assert (Hk : stops pages max_items page_size k = false).
    { unfold stops. rewrite Hshort, orb_false_r.
      apply Z.ltb_lt in Hg. apply Z.leb_gt. exact Hg. }
    cbv zeta. rewrite Hlen.
    rewrite (products_round_page page_size (served k) _ (pages k) (served_pages k)).
    assert (Hone : forall j, (k <= j < S k)%nat ->
                             stops pages max_items page_size j = false).
    { intros j Hj. assert (j = k) by lia. now subst j. }
    destruct (pages k) as [|x p] eqn:Hp.
    + exists (S k), (log ++ [req (Z.of_nat k + 1)]).
      rewrite received_succ, Hp, app_nil_r.
      split; [reflexivity|]. split; [rewrite length_app; cbn; lia|].
      split; [lia|]. split; [|exact Hone].
      unfold stops, last_page_short. rewrite Hp. apply orb_true_r.
    + destruct (Z.of_nat (List.length (x :: p)) <? page_size) eqn:Hps.
      * exists (S k), (log ++ [req (Z.of_nat k + 1)]).
        rewrite received_succ, Hp.
        split; [reflexivity|]. split; [rewrite length_app; cbn; lia|].
        split; [lia|]. split; [|exact Hone].
        unfold stops, last_page_short. rewrite Hp, Hps. apply orb_true_r.
      * destruct (IH (S k) (log ++ [req (Z.of_nat k + 1)])) as [n [log' H]].
        -- rewrite length_app. cbn. lia.
        -- unfold last_page_short. rewrite Hp. exact Hps.
        -- rewrite received_succ, Hp, length_app. cbn [List.length]. lia.
        -- destruct H as [Hrun [Hlen' [Hle [Hstop Hbefore]]]].
           exists n, log'.
           rewrite received_succ, Hp in Hrun.
           replace (Z.of_nat (S k) + 1) with (Z.of_nat k + 1 + 1) in Hrun by lia.
           split; [exact Hrun|]. split; [exact Hlen'|]. split; [lia|].
           split; [exact Hstop|].
           intros j Hj. destruct (Nat.eq_dec j k) as [->|Hne]; [exact Hk|].
           apply Hbefore. lia.
Qed.

End Pagination.

(** C1.  With a complete configuration, [max_items >= 0], any [page_size]
    (so every [page_size > 0]) and an endpoint that serves the pages [pages 0], [pages 1], ...,
    [fetch_products] issues exactly [n] requests, for pages 1 to [n] in
    order, where [n] is the first number of pages after which the last page
    is empty, or has fewer than [page_size] records, or the running total
    has reached [max_items]; it returns the records of those [n] pages cut
    to the first [max_items], so never more than [max_items] records. *)
Theorem fetch_products_pagination (pages : nat -> list value)
    (max_items page_size : Z) (include_variants : bool)
    (overrides : option (list (string * string))) :
  0 <= max_items ->
  missing_keys (get_bigcommerce_config environ overrides) = [] ->
  (forall j, page_of (served j) = Some (pages j)) ->
  exists n log result,
    fetch_products environ served max_items page_size include_variants overrides []
    = (Some (Ok result), log) /\
    List.length log = n /\
    requested_pages log = page_numbers n /\
    stops pages max_items page_size n = true /\
    (forall j, (j < n)%nat -> stops pages max_items page_size j = false) /\
    result = firstn (Z.to_nat max_items) (received pages n) /\
    Z.of_nat (List.length result) <= max_items.
Proof.
  intros Hmax Hmissing Hpages.
  destruct (fetch_products_complete_config max_items page_size include_variants
              overrides Hmissing) as [endpoint [hdrs [inc Heq]]].
  destruct (paging_stops pages max_items page_size
              (products_request endpoint hdrs inc page_size) Hpages
              (Z.to_nat max_items) 0 [] eq_refl eq_refl)
    as [n [log [Hrun [Hlen [_ [Hstop Hbefore]]]]]]; [lia|].
  change (Z.of_nat 0 + 1) with 1 in Hrun. change (received pages 0) with (@nil value) in Hrun.
  exists n, log, (firstn (Z.to_nat max_items) (received pages n)).
  split.
  { rewrite Heq, Hrun. unfold sliced, slice_to.
    destruct (0 <=? max_items) eqn:E; [reflexivity|].
    apply Z.leb_gt in E. lia. }
  split; [exact Hlen|]. split.
  { destruct (paging_log _ _ (products_round page_size)
                (products_request endpoint hdrs inc page_size) api_error_message
                (fun page => eq_refl)
                (fun r acc => products_round_failure page_size r acc)
                _ _ _ _ _ _ Hrun) as [ext [Hlog [Hreq _]]].
    cbn [app] in Hlog. subst ext. now rewrite Hreq, Hlen, page_numbers_from. }
  split; [exact Hstop|]. split.
  { intros j Hj. apply Hbefore. lia. }
  split; [reflexivity|].
  rewrite length_firstn. lia.
Qed.

(** ** The header row *)

Lemma concat_empty_cons (x : string) (xs : list string) :
  String.concat "" (x :: xs) = (x ++ String.concat "" xs)%string.
Proof.
  destruct xs as [|y l]; [|reflexivity].
  cbn. induction x as [|c x IH]; [reflexivity|]. cbn. now rewrite <- IH.
Qed.

Lemma lookup_some_in {V : Type} (key : string) (v : V) (d : list (string * V)) :
  lookup key d = Some v -> In (key, v) d.
Proof.
  induction d as [|[k w] rest IH]; [discriminate|].
  cbn [lookup]. destruct (String.eqb k key) eqn:Hk.
  - apply String.eqb_eq in Hk. subst k. intros [= ->]. now left.
  - intros H. right. now apply IH.
Qed.

Lemma lookup_in_distinct {V : Type} (key : string) (v : V) (d : list (string * V)) :
  NoDup (map fst d) -> In (key, v) d -> lookup key d = Some v.
Proof.
  induction d as [|[k w] rest IH]; [contradiction|].
  cbn [map fst lookup]. intros Hnd Hin.
  inversion Hnd as [|? ? Hnot Hrest]; subst.
  destruct Hin as [[= -> ->]|Hin].
  - now rewrite String.eqb_refl.
  - destruct (String.eqb k key) eqn:Hk.
    + apply String.eqb_eq in Hk. subst k. exfalso. apply Hnot.
      change key with (fst (key, v)). now apply in_map.
    + now apply IH.
Qed.

Lemma FIELD_OPTIONS_distinct : NoDup (map fst FIELD_OPTIONS).
Proof.
  assert (H : nodup string_dec (map fst FIELD_OPTIONS) = map fst FIELD_OPTIONS)
    by (vm_compute; reflexivity).
  rewrite <- H. apply NoDup_nodup.
Qed.

Lemma header_row_length (fields : list string) :
  List.length (header_row fields) = List.length fields.
Proof. unfold header_row. apply length_map. Qed.

(** C8.  The text returned by [build_csv_rows] starts with the line of the
    header row, and the header row has one cell per requested field, in the
    order of the field list, duplicates included: the cell of a field is
    its friendly label in [FIELD_OPTIONS] when it has one and the field key
    itself otherwise.  With no product the text is that line alone. *)
Theorem header_row_labels (products : list value) (fields : list string)
    (brand_map : list (value * value)) (custom_domain : string) :
  (exists header,
      build_csv_rows [] fields brand_map custom_domain = Ok (csv_line header) /\
      List.length header = List.length fields) /\
  forall text,
    build_csv_rows products fields brand_map custom_domain = Ok text ->
    exists header body,
      text = (csv_line header ++ body)%string /\
      List.length header = List.length fields /\
      forall i field,
        nth_error fields i = Some field ->
        exists label,
          nth_error header i = Some label /\
          (forall registered,
              In (field, registered) FIELD_OPTIONS -> label = registered) /\
          ((forall registered, ~ In (field, registered) FIELD_OPTIONS) ->
           label = field).
Proof.
  split.
  { exists (map csv_field (header_row fields)). split; [reflexivity|].
    now rewrite length_map, header_row_length. }
  intros text. unfold build_csv_rows, csv_rows.
  destruct (for_each (product_row brand_map custom_domain fields) products)
    as [rows|e]; cbn [bind]; [|discriminate].
  intros [= <-].
  exists (map csv_field (header_row fields)),
    (String.concat "" (map (fun row => csv_line (map csv_field row)) rows)).
  split; [cbn [map]; apply concat_empty_cons|].
  split; [now rewrite length_map, header_row_length|].
  intros i field Hi. unfold header_row. rewrite map_map.
  rewrite nth_error_map, Hi. cbn [option_map csv_field py_str].
  eexists. split; [reflexivity|]. split.
  - intros registered Hin.
    now rewrite (lookup_in_distinct field registered FIELD_OPTIONS
                   FIELD_OPTIONS_distinct Hin).
  - intros Hnone. destruct (lookup field FIELD_OPTIONS) as [label|] eqn:Hl;
      [|reflexivity].
    exfalso. exact (Hnone label (lookup_some_in field label FIELD_OPTIONS Hl)).
Qed.

(** ** Cells of [build_csv_rows] *)

Lemma record_cases (product : value) :
  is_record product = true ->
  exists d, py_or product (VDict []) = VDict d /\ or_empty product = VDict d.
Proof.
  intros H. rewrite (py_or_record product H).
  destruct product; try discriminate; eexists; split; reflexivity.
Qed.

Lemma key_lookup_none (brand_map : list (value * value)) :
  int_keyed brand_map = true -> key_lookup VNone brand_map = None.
Proof.
  induction brand_map as [|[k v] rest IH]; [reflexivity|].
  cbn [int_keyed forallb fst]. intros H. apply andb_prop in H as [Hk Hrest].
  destruct k; try discriminate. cbn [key_lookup key_eqb]. now apply IH.
Qed.

Lemma custom_url_raw_extracted (d : list (string * value)) :
  custom_url_raw (VDict d) = Ok (extracted_url (VDict d)).
Proof.
  unfold custom_url_raw, extracted_url. cbn [py_get attr].
  destruct (lookup "custom_url" d) as [c|]; cbn [bind]; [|reflexivity].
  unfold py_or. destruct (truthy c) eqn:Ht.
  - destruct c as [|b|z|f|s|l|m]; cbn [is_dict]; try reflexivity.
    rewrite Ht. cbn [py_get andb]. unfold entry.
    destruct (lookup "url" m) as [u|]; destruct (lookup "path" m) as [q|];
      cbn [bind]; unfold py_or; cbn [truthy String.eqb negb];
      repeat match goal with
             | |- context [truthy ?v] => destruct (truthy v) eqn:?
             end; try reflexivity; try congruence.
  - cbn [is_dict py_get lookup bind]. unfold py_or. cbn [truthy String.eqb negb].
    destruct c as [| | | | | |m]; try reflexivity.
    destruct m; [reflexivity|discriminate].
Qed.

Lemma apply_domain_prefixed (custom_domain s : string) :
  apply_domain custom_domain (VStr s) = Ok (VStr (prefixed custom_domain s)).
Proof.
  unfold apply_domain, prefixed. cbn [truthy].
  destruct (String.eqb custom_domain ""); [reflexivity|].
  destruct (String.eqb s ""); cbn [negb]; [reflexivity|].
  destruct (startswith s "http://" || startswith s "https://")%bool; reflexivity.
Qed.

Lemma custom_url_cell_of_string (brand_map : list (value * value))
    (custom_domain : string) (d : list (string * value)) (s : string) :
  extracted_url (VDict d) = VStr s ->
  cell brand_map custom_domain (VDict d) "custom_url" =
  Ok (VStr (prefixed custom_domain s)).
Proof.
  intros Hs. unfold cell. cbn [py_get].
  assert (Hpi : exists pi, (match lookup "primary_image" d with
                            | Some v => Ok v
                            | None => Ok VNone
                            end) = Ok pi).
  { destruct (lookup "primary_image" d); eexists; reflexivity. }
  destruct Hpi as [pi ->]. cbn [bind].
  unfold extract. cbn [String.eqb Ascii.eqb Bool.eqb].
  rewrite custom_url_raw_extracted, Hs. cbn [bind].
  rewrite apply_domain_prefixed. reflexivity.
Qed.

Lemma startswith_nonempty (s p : string) :
  p <> "" -> startswith s p = true -> s <> "".
Proof.
  intros Hp Hs ->. unfold startswith in Hs. destruct p; [now apply Hp|discriminate].
Qed.

Lemma prefixed_absolute (custom_domain s : string) :
  startswith s "http://" = true \/ startswith s "https://" = true ->
  prefixed custom_domain s = s.
Proof.
  intros H. unfold prefixed.
  destruct (String.eqb custom_domain ""); [reflexivity|].
  destruct (String.eqb s "") eqn:Hs.
  - apply String.eqb_eq in Hs. subst s. destruct H as [H|H]; discriminate.
  - destruct H as [-> | ->]; [reflexivity|]. now rewrite orb_true_r.
Qed.

Lemma prefixed_relative (custom_domain s : string) :
  custom_domain <> "" -> s <> "" ->
  startswith s "http://" = false -> startswith s "https://" = false ->
  prefixed custom_domain s =
  (rstrip "/" custom_domain ++ (if startswith s "/" then s else "/" ++ s))%string.
Proof.
  intros Hd Hs H1 H2. unfold prefixed.
  apply String.eqb_neq in Hd. apply String.eqb_neq in Hs.
  now rewrite Hd, Hs, H1, H2.
Qed.

(** C7, as the code has it.  For a product record, the custom_url cell is
    made from the value extracted from the custom-url attribute: [url],
    then [path], of a mapping, and the string form of any other value.
    When the extracted value is a string: with an empty domain it is the
    cell; with a non-empty domain, a non-empty value that starts with
    neither http:// nor https:// gives the domain without its trailing
    slashes followed by the value, with a slash put before it if it has
    none; a value that starts with http:// or https:// is the cell
    unchanged, whatever the domain.  So /widgets/1 under
    https://shop.example.com/ gives https://shop.example.com/widgets/1 and
    https://cdn.example.com/x stays as it is. *)
Theorem custom_url_prefixing (brand_map : list (value * value))
    (custom_domain : string) (product : value) :
  is_record product = true ->
  custom_url_raw (py_or product (VDict [])) = Ok (extracted_url (or_empty product)) /\
  forall s,
    extracted_url (or_empty product) = VStr s ->
    let cell_text := cell brand_map custom_domain (py_or product (VDict [])) "custom_url" in
    (custom_domain = "" -> cell_text = Ok (VStr s)) /\
    (custom_domain <> "" -> s <> "" ->
     startswith s "http://" = false -> startswith s "https://" = false ->
     cell_text =
     Ok (VStr (rstrip "/" custom_domain
               ++ (if startswith s "/" then s else "/" ++ s))%string)) /\
    (startswith s "http://" = true \/ startswith s "https://" = true ->
     cell_text = Ok (VStr s)) /\
    (s = "/widgets/1" -> custom_domain = "https://shop.example.com/" ->
     cell_text = Ok (VStr "https://shop.example.com/widgets/1")) /\
    (s = "https://cdn.example.com/x" ->
     cell_text = Ok (VStr "https://cdn.example.com/x")).
Proof.
  intros Hrec. destruct (record_cases product Hrec) as [d [-> ->]].
  split; [apply custom_url_raw_extracted|].
  intros s Hs. cbv zeta.
  rewrite (custom_url_cell_of_string brand_map custom_domain d s Hs).
  split; [|split; [|split; [|split]]].
  - intros ->. reflexivity.
  - intros Hd Hne H1 H2. now rewrite prefixed_relative.
  - intros H. now rewrite prefixed_absolute.
  - intros -> ->. reflexivity.
  - intros ->. rewrite prefixed_absolute; [reflexivity|]. right. reflexivity.
Qed.

(** C9.  For a product record and any domain, the non-empty ones included:
    when the custom-url attribute is absent, or is a mapping whose [url]
    and [path] entries are each absent or empty, the extracted value is the
    empty string; and when the extracted value is the empty string, the
    custom_url cell is the empty string, not the domain. *)
Theorem empty_custom_url_cell (brand_map : list (value * value))
    (custom_domain : string) (product : value) :
  is_record product = true ->
  let record := or_empty product in
  ((attr record "custom_url" = None \/
    exists m, attr record "custom_url" = Some (VDict m) /\
              truthy (entry m "url") = false /\ truthy (entry m "path") = false) ->
   custom_url_raw (py_or product (VDict [])) = Ok (VStr "")) /\
  (custom_url_raw (py_or product (VDict [])) = Ok (VStr "") ->
   cell brand_map custom_domain (py_or product (VDict [])) "custom_url" = Ok (VStr "")).
Proof.
  intros Hrec. destruct (record_cases product Hrec) as [d [-> ->]]. cbv zeta.
  rewrite custom_url_raw_extracted. split.
  - intros [Habsent|[m [Hm [Hu Hp]]]]; unfold extracted_url.
    + now rewrite Habsent.
    + rewrite Hm, Hu, Hp. now rewrite !andb_false_r.
  - intros [= Hs].
    rewrite (custom_url_cell_of_string brand_map custom_domain d "" Hs).
    unfold prefixed. destruct (String.eqb custom_domain ""); reflexivity.
Qed.

Ltac known_field E :=
  apply String.eqb_eq in E; subst;
  cbn [String.eqb Ascii.eqb Bool.eqb andb] in *.

Lemma cell_of_missing_attribute (brand_map : list (value * value))
    (custom_domain : string) (d : list (string * value)) (field : string) :
  int_keyed brand_map = true ->
  lookup (source_attribute field) d = None ->
  cell brand_map custom_domain (VDict d) field = Ok (blank_cell field).
Proof.
  intros Hbm H.
  assert (Hpi : exists pi, py_get (VDict d) "primary_image" VNone = Ok pi).
  { cbn [py_get]. destruct (lookup "primary_image" d); eexists; reflexivity. }
  destruct Hpi as [pi Hpi].
  unfold cell. rewrite Hpi. cbn [bind].
  unfold extract, source_attribute, blank_cell in *.
  destruct (String.eqb field "primary_image_url") eqn:E1.
  { known_field E1. cbn [py_get] in Hpi. rewrite H in Hpi. injection Hpi as <-.
    reflexivity. }
  destruct (String.eqb field "thumbnail_url") eqn:E2.
  { known_field E2. cbn [py_get] in Hpi. rewrite H in Hpi. injection Hpi as <-.
    reflexivity. }
  destruct (String.eqb field "image_urls") eqn:E3.
  { known_field E3. cbn [py_get]. rewrite H. reflexivity. }
  destruct (String.eqb field "brand_name") eqn:E4.
  { known_field E4. cbn [py_get]. rewrite H. cbn [bind].
    unfold key_get. cbn [hashable]. now rewrite (key_lookup_none brand_map Hbm). }
  destruct (String.eqb field "category_ids") eqn:E5.
  { known_field E5. cbn [py_get]. rewrite H. reflexivity. }
  destruct (String.eqb field "custom_fields") eqn:E6.
  { known_field E6. cbn [py_get]. rewrite H. reflexivity. }
  destruct (String.eqb field "variant_skus") eqn:E7.
  { known_field E7. cbn [py_get]. rewrite H. reflexivity. }
  destruct (String.eqb field "variant_prices") eqn:E8.
  { known_field E8. cbn [py_get]. rewrite H. reflexivity. }
  destruct (String.eqb field "variants") eqn:E9.
  { known_field E9. cbn [py_get]. rewrite H. reflexivity. }
  destruct (String.eqb field "custom_url") eqn:E10.
  { known_field E10. rewrite custom_url_raw_extracted. unfold extracted_url.
    cbn [attr]. rewrite H. cbn [bind]. rewrite apply_domain_prefixed.
    unfold prefixed. destruct (String.eqb custom_domain ""); reflexivity. }
  cbn [py_get]. rewrite H. reflexivity.
Qed.

Lemma for_each_map {A B : Type} (f : A -> result B) (g : A -> B) (xs : list A) :
  (forall x, In x xs -> f x = Ok (g x)) ->
  for_each f xs = Ok (map g xs).
Proof.
  induction xs as [|x rest IH]; intros H; [reflexivity|].
  cbn [for_each map]. rewrite (H x (or_introl eq_refl)). cbn [bind].
  rewrite IH; [reflexivity|]. intros y Hy. apply H. now right.
Qed.

(** C2, as the code has it.  With a brand map keyed by integers, a product
    record (or a null one) that lacks the attribute a field's rule reads
    gets, without any failure, the empty string as its cell for that field,
    whichever field it is, with one exception: the cell of the field
    [variants] is the text of the empty list, an opening and a closing
    bracket.  When that is so of every product and every requested field,
    [build_csv_rows] writes the header and one such row per product. *)
Theorem missing_attribute_cell (brand_map : list (value * value))
    (custom_domain : string) :
  int_keyed brand_map = true ->
  (forall product field,
      is_record product = true ->
      attr (or_empty product) (source_attribute field) = None ->
      cell brand_map custom_domain (py_or product (VDict [])) field =
      Ok (VStr (if String.eqb field "variants" then "[]" else ""))) /\
  (forall products fields,
      Forall (fun p => is_record p = true) products ->
      (forall p f, In p products -> In f fields ->
                   attr (or_empty p) (source_attribute f) = None) ->
      csv_rows products fields brand_map custom_domain =
      Ok (header_row fields :: map (fun _ => map blank_cell fields) products)).
Proof.
  intros Hbm.
  assert (Hcell : forall product field,
             is_record product = true ->
             attr (or_empty product) (source_attribute field) = None ->
             cell brand_map custom_domain (py_or product (VDict [])) field =
             Ok (blank_cell field)).
  { intros product field Hrec Hattr.
    destruct (record_cases product Hrec) as [d [-> Hd]].
    rewrite Hd in Hattr. now apply cell_of_missing_attribute. }
  split; [exact Hcell|].
  intros products fields Hrecs Hlack. unfold csv_rows.
  rewrite (for_each_map (product_row brand_map custom_domain fields)
             (fun _ => map blank_cell fields)); [reflexivity|].
  intros p Hp. unfold product_row. apply for_each_map.
  intros f Hf. apply Hcell.
  - rewrite Forall_forall in Hrecs. now apply Hrecs.
  - now apply Hlack.
Qed.

End Properties.

(** * The theorems at concrete inputs *)

Section Witnesses.

#[local] Existing Instance plain_runtime.

Lemma fetch_products_pagination_witness :
  0 <= 10 /\
  missing_keys (get_bigcommerce_config full_environ None) = [] /\
  (forall j, page_of (paged_endpoint j) = Some (three_pages j)) /\
  exists n log result,
    fetch_products full_environ paged_endpoint 10 2 false None []
    = (Some (Ok result), log) /\
    List.length log = n /\
    requested_pages log = page_numbers n /\
    stops three_pages 10 2 n = true /\
    (forall j, (j < n)%nat -> stops three_pages 10 2 j = false) /\
    result = firstn (Z.to_nat 10) (received three_pages n) /\
    Z.of_nat (List.length result) <= 10.
Proof.
  assert (H1 : 0 <= 10) by lia.
  assert (H2 : missing_keys (get_bigcommerce_config full_environ None) = [])
    by reflexivity.
  assert (H3 : forall j, page_of (paged_endpoint j) = Some (three_pages j))
    by (intros j; reflexivity).
  split; [exact H1|]. split; [exact H2|]. split; [exact H3|].
  exact (fetch_products_pagination full_environ paged_endpoint three_pages
           10 2 false None H1 H2 H3).
Defined.

Lemma filter_products_spec_witness :
  Forall (fun r => is_record r = true)
    [hidden_product; VNone; disabled_product; normal_product] /\
  filter_products [hidden_product; VNone; disabled_product; normal_product] false false
  = Ok [VDict []; normal_product].
Proof.
  assert (H : Forall (fun r => is_record r = true)
                [hidden_product; VNone; disabled_product; normal_product])
    by (repeat constructor).
  split; [exact H|].
  exact (filter_products_spec
           [hidden_product; VNone; disabled_product; normal_product] false false H).
Defined.

Lemma filter_products_idempotent_witness :
  Forall (fun r => is_record r = true)
    [hidden_product; VNone; disabled_product; normal_product] /\
  exists out,
    filter_products [hidden_product; VNone; disabled_product; normal_product] true false
    = Ok out /\
    filter_products out true false = Ok out.
Proof.
  assert (H : Forall (fun r => is_record r = true)
                [hidden_product; VNone; disabled_product; normal_product])
    by (repeat constructor).
  split; [exact H|].
  exact (filter_products_idempotent
           [hidden_product; VNone; disabled_product; normal_product] true false H).
Defined.

Lemma filter_products_no_null_witness :
  filter_products [hidden_product; VNone; normal_product] false false
  = Ok [VDict []; normal_product] /\
  Forall (fun v => is_dict v = true) [VDict []; normal_product] /\
  ~ In VNone [VDict []; normal_product] /\
  exists kept_before kept_after,
    filter_products [hidden_product] false false = Ok kept_before /\
    filter_products [normal_product] false false = Ok kept_after /\
    [VDict []; normal_product] = kept_before ++ VDict [] :: kept_after.
Proof.
  assert (H : filter_products [hidden_product; VNone; normal_product] false false
              = Ok [VDict []; normal_product]) by reflexivity.
  split; [exact H|].
  destruct (proj2 (filter_products_no_null [hidden_product; VNone; normal_product]
                     false false) [VDict []; normal_product] H) as [Hd [Hn Hsplit]].
  split; [exact Hd|]. split; [exact Hn|].
  exact (Hsplit [hidden_product] [normal_product] eq_refl).
Defined.

Lemma configuration_check_witness :
  NoDup (map fst partial_overrides) /\
  lookup "store_hash" (get_bigcommerce_config partial_environ (Some partial_overrides))
  = Some "s1" /\
  lookup "client_id" (get_bigcommerce_config partial_environ (Some partial_overrides))
  = Some "client" /\
  exists missing,
    fetch_products partial_environ paged_endpoint 10 2 false (Some partial_overrides) []
    = (Some (Raise (RuntimeError
         ("Missing BigCommerce configuration: " ++ String.concat ", " missing ++ ". "
          ++ "Set BIGCOMMERCE_STORE_HASH, BIGCOMMERCE_CLIENT_ID, and BIGCOMMERCE_ACCESS_TOKEN.")%string)),
       []) /\
    In "access_token" missing.
Proof.
  assert (H : NoDup (map fst partial_overrides)).
  { repeat constructor; cbn; intuition discriminate. }
  split; [exact H|].
  destruct (configuration_check partial_environ paged_endpoint (Some partial_overrides)
              10 2 false [] H) as [Heff Hfail].
  split; [exact (Heff "store_hash" (or_introl eq_refl))|].
  split; [exact (Heff "client_id" (or_intror (or_introl eq_refl)))|].
  destruct (Hfail (ex_intro _ "access_token"
                     (conj (or_intror (or_intror (or_introl eq_refl))) eq_refl)))
    as [missing [Hrun Hin]].
  exists missing. split; [exact Hrun|].
  exact (Hin "access_token" (or_intror (or_intror (or_introl eq_refl))) eq_refl).
Defined.

Lemma upstream_error_aborts_witness :
  status_code (failing_endpoint 1) <> 200 /\
  status_code (down_endpoint 0) <> 200 /\
  fetch_products full_environ failing_endpoint 10 2 false None []
  = (Some (Raise (RuntimeError "BigCommerce API error (503): Service Unavailable")),
     snd (fetch_products full_environ failing_endpoint 10 2 false None [])) /\
  requested_pages (snd (fetch_products full_environ failing_endpoint 10 2 false None []))
  = [Some (VInt 1); Some (VInt 2)] /\
  fst (fetch_brand_map full_environ down_endpoint 5 None [])
  = Some (Raise (RuntimeError "BigCommerce brand API error (503): Service Unavailable")) /\
  requested_pages (snd (fetch_brand_map full_environ down_endpoint 5 None []))
  = [Some (VInt 1)].
Proof.
  assert (H : status_code (failing_endpoint 1) <> 200) by (cbn; lia).
  assert (H0 : status_code (down_endpoint 0) <> 200) by (cbn; lia).
  split; [exact H|]. split; [exact H0|].
  destruct (upstream_error_aborts full_environ failing_endpoint 10 2 false None 5 1 H)
    as [Hproducts _].
  destruct (upstream_error_aborts full_environ down_endpoint 10 2 false None 5 0 H0)
    as [_ Hbrands].
  destruct (Hproducts _ _ (surjective_pairing _) (le_n 2)) as [Hres [_ Hpages]].
  destruct (Hbrands _ _ (surjective_pairing _) (le_n 1)) as [Hres' [_ Hpages']].
  split; [|split; [exact Hpages|split; [exact Hres'|exact Hpages']]].
  rewrite (surjective_pairing (fetch_products _ _ _ _ _ _ _)) at 1.
  now rewrite Hres.
Defined.

Lemma custom_url_prefixing_witness :
  is_record normal_product = true /\
  custom_url_raw normal_product = Ok (VStr "/widgets/1") /\
  cell acme_brands "https://shop.example.com/" normal_product "custom_url"
  = Ok (VStr "https://shop.example.com/widgets/1").
Proof.
  assert (H : is_record normal_product = true) by reflexivity.
  split; [exact H|].
  destruct (custom_url_prefixing acme_brands "https://shop.example.com/"
              normal_product H) as [Hraw Hcell].
  split; [exact Hraw|].
  destruct (Hcell "/widgets/1" eq_refl) as [_ [_ [_ [Hexample _]]]].
  exact (Hexample eq_refl eq_refl).
Defined.

Lemma header_row_labels_witness :
  build_csv_rows [normal_product] ["sku"; "margin"; "sku"] acme_brands ""
  = Ok ("SKU,margin,SKU" ++ crlf ++ ",," ++ crlf)%string /\
  exists header body,
    ("SKU,margin,SKU" ++ crlf ++ ",," ++ crlf)%string = (csv_line header ++ body)%string /\
    List.length header = 3%nat /\
    forall i field,
      nth_error ["sku"; "margin"; "sku"] i = Some field ->
      exists label,
        nth_error header i = Some label /\
        (forall registered, In (field, registered) FIELD_OPTIONS -> label = registered) /\
        ((forall registered, ~ In (field, registered) FIELD_OPTIONS) -> label = field).
Proof.
  assert (H : build_csv_rows [normal_product] ["sku"; "margin"; "sku"] acme_brands ""
              = Ok ("SKU,margin,SKU" ++ crlf ++ ",," ++ crlf)%string) by reflexivity.
  split; [exact H|].
  exact (proj2 (header_row_labels [normal_product] ["sku"; "margin"; "sku"]
                  acme_brands "") _ H).
Defined.

Lemma empty_custom_url_cell_witness :
  is_record hidden_product = true /\
  attr hidden_product "custom_url" = None /\
  custom_url_raw hidden_product = Ok (VStr "") /\
  cell acme_brands "https://shop.example.com" hidden_product "custom_url" = Ok (VStr "").
Proof.
  assert (H : is_record hidden_product = true) by reflexivity.
  split; [exact H|]. split; [reflexivity|].
  destruct (empty_custom_url_cell acme_brands "https://shop.example.com"
              hidden_product H) as [Hraw Hcell].
  pose proof (Hraw (or_introl eq_refl)) as Hempty.
  split; [exact Hempty|exact (Hcell Hempty)].
Defined.

Lemma missing_attribute_cell_witness :
  int_keyed acme_brands = true /\
  cell acme_brands "https://shop.example.com" hidden_product "brand_name" = Ok (VStr "") /\
  cell acme_brands "https://shop.example.com" (VDict []) "variants" = Ok (VStr "[]") /\
  csv_rows [hidden_product; VNone] ["name"; "image_urls"; "variants"] acme_brands ""
  = Ok [ [VStr "Name"; VStr "Image URLs"; VStr "Variants (JSON)"];
         [VStr ""; VStr ""; VStr "[]"];
         [VStr ""; VStr ""; VStr "[]"] ].
Proof.
  assert (H : int_keyed acme_brands = true) by reflexivity.
  split; [exact H|].
  destruct (missing_attribute_cell acme_brands "https://shop.example.com" H)
    as [Hcell _].
  destruct (missing_attribute_cell acme_brands "" H) as [_ Hrows].
  split; [exact (Hcell hidden_product "brand_name" eq_refl eq_refl)|].
  split; [exact (Hcell VNone "variants" eq_refl eq_refl)|].
  apply (Hrows [hidden_product; VNone] ["name"; "image_urls"; "variants"]).
  - repeat constructor.
  - intros p f Hp Hf. cbn in Hp, Hf.
    destruct Hp as [<-|[<-|[]]]; destruct Hf as [<-|[<-|[<-|[]]]]; reflexivity.
Defined.

(** ** Where the claims as worded fail *)

(** C2 at the field [variants]: a product with no [variants] attribute gets
    the cell [[]], which is not the empty string. *)
Lemma missing_variants_cell_not_empty :
  is_record (VDict []) = true /\
  attr (VDict []) (source_attribute "variants") = None /\
  cell [] "" (py_or (VDict []) (VDict [])) "variants" = Ok (VStr "[]") /\
  cell [] "" (py_or (VDict []) (VDict [])) "variants" <> Ok (VStr "") /\
  build_csv_rows [VDict []] ["variants"] [] ""
  = Ok ("Variants (JSON)" ++ crlf ++ "[]" ++ crlf)%string.
Proof.
  split; [reflexivity|]. split; [reflexivity|]. split; [reflexivity|].
  split; [discriminate|reflexivity].
Qed.

(** C7 at an empty extracted value: with a non-empty domain the cell is
    empty, not the domain followed by a slash. *)
Lemma empty_path_not_prefixed :
  is_record (VDict []) = true /\
  custom_url_raw (py_or (VDict []) (VDict [])) = Ok (VStr "") /\
  startswith "" "http://" = false /\
  startswith "" "https://" = false /\
  cell [] "https://shop.example.com" (py_or (VDict []) (VDict [])) "custom_url"
  = Ok (VStr "") /\
  cell [] "https://shop.example.com" (py_or (VDict []) (VDict [])) "custom_url"
  <> Ok (VStr (rstrip "/" "https://shop.example.com"
               ++ (if startswith "" "/" then "" else "/" ++ ""))%string).
Proof.
  split; [reflexivity|]. split; [reflexivity|]. split; [reflexivity|].
  split; [reflexivity|]. split; [reflexivity|discriminate].
Qed.

End Witnesses.

(** * Further properties of the pipeline *)

Section Further.

Context {RT : Runtime}.
Variable environ : string -> option string.
Variable served : nat -> response.

(** ** [filter_products] *)

Lemma bind_ok {A : Type} (r : result A) : (x <- r ;; Ok x) = r.
Proof. destruct r; reflexivity. Qed.

Lemma py_or_truthy (v e : value) : truthy v = true -> py_or v e = v.
Proof. intros H. unfold py_or. now rewrite H. Qed.

Lemma py_or_falsy (v e : value) : truthy v = false -> py_or v e = e.
Proof. intros H. unfold py_or. now rewrite H. Qed.

(** X1.  [filter_products] raises AttributeError as soon as one element is
    truthy without being a mapping (a number, a non-empty string or list),
    whatever the flags and the other elements; when every element is a
    mapping or falsy (null, 0, false, an empty string or list), it returns
    the records that are not dropped, each falsy element read as the empty
    record. *)
Theorem filter_products_attribute_error (products : list value) (iu ih : bool) :
  (Exists (fun v => truthy v = true /\ is_dict v = false) products ->
   filter_products products iu ih = Raise AttributeError) /\
  (Forall (fun v => truthy v = false \/ is_dict v = true) products ->
   filter_products products iu ih =
   Ok (filter (fun r => negb (dropped iu ih r))
         (map (fun v => py_or v (VDict [])) products))).
Proof.
  split.
  - induction 1 as [v rest [Ht Hd]|v rest _ IH];
      rewrite filter_products_cons; cbv zeta.
    + now rewrite (py_or_truthy v _ Ht), Hd.
    + destruct (is_dict (py_or v (VDict []))); [|reflexivity].
      now rewrite IH.
  - induction 1 as [|v rest Hv _ IH]; [reflexivity|].
    rewrite filter_products_cons. cbv zeta.
    assert (Hd : is_dict (py_or v (VDict [])) = true).
    { destruct Hv as [Hf|Hd]; [now rewrite (py_or_falsy v _ Hf)|].
      unfold py_or. now destruct (truthy v). }
    rewrite Hd, IH. cbn [bind map filter].
    destruct (dropped iu ih (py_or v (VDict []))); reflexivity.
Qed.

Lemma dropped_both (iu1 ih1 iu2 ih2 : bool) (r : value) :
  dropped (iu1 && iu2) (ih1 && ih2) r = (dropped iu1 ih1 r || dropped iu2 ih2 r)%bool.
Proof.
  unfold dropped.
  destruct iu1, iu2, ih1, ih2,
    (str_in (availability_text r) ["disabled"; "unavailable"; "no"; "false"; "0"]),
    (truthy (visibility r)); reflexivity.
Qed.

(** X2.  Filtering twice is filtering once with the flags combined: when a
    first pass with flags [(iu1, ih1)] returns [out], a second pass over
    [out] with flags [(iu2, ih2)] gives what one pass over the input gives
    with [include_unavailable = iu1 and iu2] and
    [include_hidden = ih1 and ih2]. *)
Theorem filter_products_compose (products : list value) (iu1 ih1 iu2 ih2 : bool) :
  forall out,
    filter_products products iu1 ih1 = Ok out ->
    filter_products out iu2 ih2 =
    filter_products products (iu1 && iu2) (ih1 && ih2).
Proof.
  induction products as [|v rest IH]; intros out.
  - rewrite filter_products_nil. intros [= <-]. reflexivity.
  - rewrite !filter_products_cons. cbv zeta.
    destruct (is_dict (py_or v (VDict []))) eqn:Hd; [|discriminate].
    destruct (filter_products rest iu1 ih1) as [kept|e]; cbn [bind]; [|discriminate].
    specialize (IH kept eq_refl). rewrite <- IH, dropped_both.
    destruct (dropped iu1 ih1 (py_or v (VDict []))); intros [= <-]; cbn [orb].
    + now rewrite bind_ok.
    + rewrite filter_products_cons. cbv zeta.
      now rewrite (py_or_idem v (VDict []) eq_refl), Hd.
Qed.

(** X3.  With both flags on nothing is dropped: on product records the
    output is the input, null records replaced by the empty record, so it
    has as many elements as the input. *)
Theorem filter_products_include_all (products : list value) :
  Forall (fun r => is_record r = true) products ->
  filter_products products true true = Ok (map or_empty products) /\
  (forall out, filter_products products true true = Ok out ->
               List.length out = List.length products).
Proof.
  intros H.
  assert (Hall : filter_products products true true = Ok (map or_empty products)).
  { rewrite (filter_products_records products true true H). f_equal.
    induction (map or_empty products) as [|r l IHl]; [reflexivity|].
    cbn [filter]. unfold dropped at 1. cbn [negb andb orb]. now rewrite IHl. }
  split; [exact Hall|].
  intros out. rewrite Hall. intros [= <-]. apply length_map.
Qed.

(** ** The effective configuration *)

Lemma dict_set_nonempty (key v : string) (d : list (string * string)) :
  v <> "" ->
  Forall (fun kv => snd kv <> "") d ->
  Forall (fun kv => snd kv <> "") (dict_set key v d).
Proof.
  intros Hv. induction 1 as [|[k w] rest Hk Hrest IH]; cbn [dict_set].
  - now repeat constructor.
  - destruct (String.eqb k key); constructor; assumption.
Qed.

(** The three required keys stay in front, in their order, and whatever
    else the overrides add has a non-empty value. *)
Lemma apply_overrides_shape (items : list (string * string)) :
  forall a b c extras,
    Forall (fun kv => snd kv <> "") extras ->
    exists a' b' c' extras',
      apply_overrides items
        (("store_hash", a) :: ("client_id", b) :: ("access_token", c) :: extras)
      = ("store_hash", a') :: ("client_id", b') :: ("access_token", c') :: extras' /\
      Forall (fun kv => snd kv <> "") extras'.
Proof.
  unfold apply_overrides.
  induction items as [|[k v] rest IH]; intros a b c extras Hex.
  - now exists a, b, c, extras.
  - cbn [fold_left]. destruct (String.eqb v "") eqn:Hv; cbn [negb]; [now apply IH|].
    apply String.eqb_neq in Hv. cbn [dict_set].
    destruct (String.eqb "store_hash" k); [now apply IH|].
    destruct (String.eqb "client_id" k); [now apply IH|].
    destruct (String.eqb "access_token" k); [now apply IH|].
    apply IH. now apply dict_set_nonempty.
Qed.

Lemma missing_keys_nonempty_values (d : list (string * string)) :
  Forall (fun kv => snd kv <> "") d -> missing_keys d = [].
Proof.
  unfold missing_keys. induction 1 as [|[k v] rest Hv _ IH]; [reflexivity|].
  cbn [filter snd] in *. apply String.eqb_neq in Hv. now rewrite Hv.
Qed.

(** X4.  Whatever the overrides hold, extra keys and repeated keys
    included, the keys reported missing are exactly the required keys whose
    effective value is empty, in the order store_hash, client_id,
    access_token: a key the overrides add is never reported. *)
Theorem missing_keys_exact (overrides : option (list (string * string))) :
  let config := get_bigcommerce_config environ overrides in
  missing_keys config =
  filter (fun key => match lookup key config with
                     | Some v => String.eqb v ""
                     | None => false
                     end)
    ["store_hash"; "client_id"; "access_token"].
Proof.
  cbv zeta. rewrite get_bigcommerce_config_unfold.
  destruct (apply_overrides_shape
              (match overrides with Some items => items | None => [] end)
              (getenv environ "BIGCOMMERCE_STORE_HASH" "")
              (getenv environ "BIGCOMMERCE_CLIENT_ID" "")
              (getenv environ "BIGCOMMERCE_ACCESS_TOKEN" "")
              [] (Forall_nil _)) as [a [b [c [extras [-> Hex]]]]].
  pose proof (missing_keys_nonempty_values extras Hex) as Hnone.
  unfold missing_keys in *. cbn [filter snd lookup String.eqb Ascii.eqb Bool.eqb andb].
  rewrite ?String.eqb_refl.
  destruct (String.eqb a ""), (String.eqb b ""), (String.eqb c "");
    cbn [map fst]; now rewrite Hnone.
Qed.

(** X5.  [fetch_brand_map] makes the same configuration check as
    [fetch_products]: with a key missing it raises the error that lists the
    missing keys and leaves the request log as it was, for any number of
    rounds. *)
Theorem fetch_brand_map_configuration_error (fuel : nat)
    (overrides : option (list (string * string))) (log : list request) :
  missing_keys (get_bigcommerce_config environ overrides) <> [] ->
  fetch_brand_map environ served fuel overrides log =
  (Some (Raise (RuntimeError
     ("Missing BigCommerce configuration: "
      ++ String.concat ", " (missing_keys (get_bigcommerce_config environ overrides))
      ++ ". "
      ++ "Set BIGCOMMERCE_STORE_HASH, BIGCOMMERCE_CLIENT_ID, and BIGCOMMERCE_ACCESS_TOKEN.")%string)),
   log).
Proof.
  intros H. unfold fetch_brand_map. cbv zeta.
  destruct (missing_keys _); [contradiction|reflexivity].
Qed.

(** ** Requests of [fetch_products] *)

Lemma paging_requests {A : Type} (guard : A -> bool) (rnd : response -> A -> round A)
    (req : Z -> request) (fuel : nat) :
  forall page acc log,
  exists n,
    (n <= fuel)%nat /\
    snd (paging served guard rnd req fuel page acc log) =
    log ++ map (fun j => req (page + Z.of_nat j)) (seq 0 n).
Proof.
  induction fuel as [|fuel IH]; intros page acc log; cbn [paging].
  - exists 0%nat. split; [lia|]. destruct (guard acc); cbn; now rewrite app_nil_r.
  - cbv zeta. destruct (guard acc).
    2:{ exists 0%nat. split; [lia|]. cbn. now rewrite app_nil_r. }
    destruct (rnd (served (List.length log)) acc) as [r|acc'].
    + exists 1%nat. split; [lia|]. cbn. now rewrite Z.add_0_r.
    + destruct (IH (page + 1) acc' (log ++ [req page])) as [n [Hn Hlog]].
      exists (S n). split; [lia|]. rewrite Hlog, <- app_assoc. f_equal.
      cbn [seq map app]. rewrite Z.add_0_r. f_equal.
      rewrite <- seq_shift, map_map. apply map_ext. intros j. f_equal. lia.
Qed.

Lemma sliced_log (max_items : Z) (run : option (result (list value)) * list request) :
  snd (sliced max_items run) = snd run.
Proof. destruct run as [[[a|e]|] l]; reflexivity. Qed.

Lemma sliced_none (max_items : Z) (run : option (result (list value)) * list request) :
  fst (sliced max_items run) = None -> fst run = None.
Proof. destruct run as [[[a|e]|] l]; cbn; congruence. Qed.

(** X6.  Whatever the endpoint answers, [fetch_products] comes back, with
    a list or with an exception, after at most [max_items] requests; with
    [max_items <= 0] it issues none. *)
Theorem fetch_products_request_bound (max_items page_size : Z)
    (include_variants : bool) (overrides : option (list (string * string)))
    (log : list request) :
  exists res ext,
    fetch_products environ served max_items page_size include_variants overrides log
    = (Some res, log ++ ext) /\
    Z.of_nat (List.length ext) <= Z.max 0 max_items.
Proof.
  destruct (missing_keys (get_bigcommerce_config environ overrides)) eqn:Hmissing.
  - destruct (fetch_products_complete_config environ served max_items page_size
                include_variants overrides Hmissing) as [endpoint [hdrs [inc Heq]]].
    rewrite Heq.
    pose proof (products_paging_fuel served max_items page_size
                  (products_request endpoint hdrs inc page_size)
                  (Z.to_nat max_items) 1 [] log) as Hfuel.
    destruct (paging_requests (fun acc => Z.of_nat (List.length acc) <? max_items)
                (products_round page_size)
                (products_request endpoint hdrs inc page_size)
                (Z.to_nat max_items) 1 [] log) as [n [Hn Hlog]].
    rewrite <- (sliced_log max_items) in Hlog.
    destruct (sliced max_items _) as [[res|] log'] eqn:Hrun.
    + cbn [snd] in Hlog. subst log'. eexists res, _. split; [reflexivity|].
      rewrite length_map, length_seq. lia.
    + exfalso. apply Hfuel; [cbn; lia|].
      apply (sliced_none max_items). now rewrite Hrun.
  - destruct (fetch_products_missing_config environ served max_items page_size
                include_variants overrides log) as [msg Hmsg]; [now rewrite Hmissing|].
    rewrite Hmsg. exists (Raise (RuntimeError msg)), [].
    rewrite app_nil_r. split; [reflexivity|cbn; lia].
Qed.

Lemma append_assoc (a b c : string) : ((a ++ b) ++ c = a ++ (b ++ c))%string.
Proof. induction a as [|x a IH]; [reflexivity|]. cbn. now rewrite IH. Qed.

(** X7.  Every request [fetch_products] issues goes to the products listing
    of the configured store, carries the configured client id and access
    token in its headers, asks for [page_size] records, and asks for the
    same sub-resources: images, primary image and custom fields, with
    variants, options and modifiers when [include_variants] is set, never
    the categories.  The pages asked for are 1, 2, 3, ... in order. *)
Theorem fetch_products_requests (max_items page_size : Z) (include_variants : bool)
    (overrides : option (list (string * string))) (log : list request) :
  let config := get_bigcommerce_config environ overrides in
  exists store_hash client_id access_token n,
    lookup "store_hash" config = Some store_hash /\
    lookup "client_id" config = Some client_id /\
    lookup "access_token" config = Some access_token /\
    snd (fetch_products environ served max_items page_size include_variants
           overrides log)
    = log ++
      map (fun j =>
             {| url := ("https://api.bigcommerce.com/stores/" ++ store_hash
                        ++ "/v3/catalog/products")%string;
                headers := [ ("X-Auth-Client", client_id);
                             ("X-Auth-Token", access_token);
                             ("Accept", "application/json");
                             ("Content-Type", "application/json") ];
                params := [ ("limit", VInt page_size);
                            ("page", VInt (1 + Z.of_nat j));
                            ("include",
                             VStr (if include_variants
                                   then "images,primary_image,custom_fields,variants,options,modifiers"
                                   else "images,primary_image,custom_fields")) ] |})
        (seq 0 n).
Proof.
  cbv zeta.
  destruct (config_has_key environ overrides "store_hash") as [sh Hsh]; [cbn; tauto|].
  destruct (config_has_key environ overrides "client_id") as [ci Hci]; [cbn; tauto|].
  destruct (config_has_key environ overrides "access_token") as [tok Htok]; [cbn; tauto|].
  exists sh, ci, tok.
  destruct (missing_keys (get_bigcommerce_config environ overrides)) eqn:Hmissing.
  - set (req := fun page =>
                  products_request
                    (("https://api.bigcommerce.com/stores/" ++ sh ++ "/v3")
                     ++ "/catalog/products")%string
                    [ ("X-Auth-Client", ci); ("X-Auth-Token", tok);
                      ("Accept", "application/json");
                      ("Content-Type", "application/json") ]
                    (["images"; "primary_image"; "custom_fields"]
                     ++ (if include_variants
                         then ["variants"; "options"; "modifiers"] else []))
                    page_size page).
    destruct (paging_requests (fun acc => Z.of_nat (List.length acc) <? max_items)
                (products_round page_size) req
                (Z.to_nat max_items) 1 [] log) as [n [_ Hlog]].
    exists n. split; [exact Hsh|]. split; [exact Hci|]. split; [exact Htok|].
    assert (Hrun : fetch_products environ served max_items page_size include_variants
                     overrides log =
                   sliced max_items
                     (paging served (fun acc => Z.of_nat (List.length acc) <? max_items)
                        (products_round page_size) req (Z.to_nat max_items) 1 [] log)).
    { unfold fetch_products. cbv zeta. rewrite Hmissing.
      unfold api_headers, subscript. rewrite Hsh, Hci, Htok. cbn [bind].
      unfold req. rewrite <- products_loop_paging.
      unfold http_bind, http_lift, http_ret, sliced.
      destruct (products_loop _ _ _ _ _ _ _ _ _ _) as [[[a|e]|] l]; reflexivity. }
    rewrite Hrun, sliced_log, Hlog. f_equal. apply map_ext. intros j.
    unfold req, products_request. rewrite !append_assoc.
    destruct include_variants; reflexivity.
  - exists 0%nat. split; [exact Hsh|]. split; [exact Hci|]. split; [exact Htok|].
    destruct (fetch_products_missing_config environ served max_items page_size
                include_variants overrides log) as [msg Hmsg]; [now rewrite Hmissing|].
    rewrite Hmsg. cbn. now rewrite app_nil_r.
Qed.

(** A response that ends every round with the same exception ends the run
    with it, when its request is issued. *)
Lemma paging_stop_at {A : Type} (guard : A -> bool) (rnd : response -> A -> round A)
    (req : Z -> request) (k : nat) (e : exn) :
  (forall acc, rnd (served k) acc = Stop (Raise e)) ->
  forall fuel page acc log res log',
    paging served guard rnd req fuel page acc log = (res, log') ->
    (List.length log <= k < List.length log')%nat ->
    res = Some (Raise e) /\ List.length log' = S k.
Proof.
  intros Hstop. induction fuel as [|fuel IH]; intros page acc log res log';
    cbn [paging].
  - destruct (guard acc); intros [= <- <-] Hk; lia.
  - cbv zeta. destruct (guard acc); [|intros [= <- <-] Hk; lia].
    destruct (rnd (served (List.length log)) acc) as [r|acc'] eqn:Hrnd.
    + intros [= <- <-] Hk. rewrite length_app in Hk |- *. cbn in Hk |- *.
      assert (k = List.length log) by lia. subst k.
      rewrite Hstop in Hrnd. injection Hrnd as <-. split; [reflexivity|lia].
    + intros Hrun Hk.
      destruct (Nat.eq_dec k (List.length log)) as [->|Hne].
      * rewrite Hstop in Hrnd. discriminate.
      * apply (IH _ _ _ _ _ Hrun).
        pose proof (paging_requests guard rnd req fuel (page + 1) acc'
                      (log ++ [req page])) as [n [_ Hn]].
        rewrite Hrun in Hn. cbn [snd] in Hn.
        rewrite length_app. cbn [List.length]. lia.
Qed.

(** X8.  A response with status 200 that is not what the loop expects ends
    [fetch_products] with a Python exception, not with the API error: a
    body that is not JSON raises JSONDecodeError, a JSON body that is not an
    object raises AttributeError, and a [data] that is a non-zero number or
    [true] raises TypeError.  In each case its request is the last one
    issued. *)
Theorem fetch_products_malformed_response (max_items page_size : Z)
    (include_variants : bool) (overrides : option (list (string * string)))
    (k : nat) (res : option (result (list value))) (log : list request) :
  status_code (served k) = 200 ->
  fetch_products environ served max_items page_size include_variants overrides []
  = (res, log) ->
  (k < List.length log)%nat ->
  (json (served k) = None ->
   res = Some (Raise JSONDecodeError) /\ List.length log = S k) /\
  (forall v, json (served k) = Some v -> is_dict v = false ->
             res = Some (Raise AttributeError) /\ List.length log = S k) /\
  (forall d x, json (served k) = Some (VDict d) -> lookup "data" d = Some x ->
               truthy x = true -> py_iter x = Raise TypeError ->
               res = Some (Raise TypeError) /\ List.length log = S k).
Proof.
  intros Hstatus Hrun Hk.
  destruct (missing_keys (get_bigcommerce_config environ overrides)) eqn:Hmissing.
  2:{ destruct (fetch_products_missing_config environ served max_items page_size
                  include_variants overrides []) as [msg Hmsg];
        [now rewrite Hmissing|].
      rewrite Hmsg in Hrun. injection Hrun as <- <-. cbn in Hk. lia. }
  destruct (fetch_products_complete_config environ served max_items page_size
              include_variants overrides Hmissing) as [endpoint [hdrs [inc Heq]]].
  rewrite Heq in Hrun.
  destruct (paging _ _ _ _ _ _ _ _) as [res0 log0] eqn:Hpaging.
  assert (log = log0) as ->.
  { unfold sliced in Hrun. destruct res0 as [[a|e]|]; now injection Hrun. }
  assert (Hend : forall e,
             (forall acc, products_round page_size (served k) acc = Stop (Raise e)) ->
             res = Some (Raise e) /\ List.length log0 = S k).
  { intros e He.
    destruct (paging_stop_at _ _ _ k e He _ _ _ _ _ _ Hpaging
                (conj (Nat.le_0_l k) Hk)) as [-> Hlen].
    unfold sliced in Hrun. injection Hrun as <-. now split. }
  split; [|split].
  - intros Hjson. apply Hend. intros acc. unfold products_round, response_json.
    rewrite Hstatus, Hjson. reflexivity.
  - intros v Hjson Hv. apply Hend. intros acc. unfold products_round, response_json.
    rewrite Hstatus, Hjson. cbn [negb Z.eqb]. destruct v; try discriminate; reflexivity.
  - intros d x Hjson Hdata Hx Hiter. apply Hend. intros acc.
    unfold products_round, response_json.
    rewrite Hstatus, Hjson. cbn [negb Z.eqb py_get]. rewrite Hdata, Hx, Hiter.
    reflexivity.
Qed.

Lemma received_full_length (pages : nat -> list value) (page_size : Z) :
  (forall j, Z.of_nat (List.length (pages j)) = page_size) ->
  forall k, Z.of_nat (List.length (received pages k)) = Z.of_nat k * page_size.
Proof.
  intros Hfull. induction k as [|k IH]; [reflexivity|].
  rewrite received_succ, length_app, Nat2Z.inj_add, IH, Hfull. lia.
Qed.

Lemma full_pages_never_short (pages : nat -> list value) (page_size : Z) :
  0 < page_size ->
  (forall j, Z.of_nat (List.length (pages j)) = page_size) ->
  forall k, last_page_short pages page_size k = false.
Proof.
  intros Hps Hfull [|j]; [reflexivity|]. cbn [last_page_short].
  pose proof (Hfull j) as Hj. destruct (pages j); [cbn in Hj; lia|].
  apply Z.ltb_ge. lia.
Qed.

(** X9.  When the endpoint keeps serving pages of exactly [page_size]
    records, [fetch_products] issues [max_items / page_size] requests,
    rounded up, and returns exactly [max_items] records: the records of the
    last page beyond [max_items] are cut off. *)
Theorem fetch_products_full_pages (pages : nat -> list value)
    (max_items page_size : Z) (include_variants : bool)
    (overrides : option (list (string * string))) :
  0 <= max_items ->
  0 < page_size ->
  missing_keys (get_bigcommerce_config environ overrides) = [] ->
  (forall j, page_of (served j) = Some (pages j)) ->
  (forall j, Z.of_nat (List.length (pages j)) = page_size) ->
  exists result log,
    fetch_products environ served max_items page_size include_variants overrides []
    = (Some (Ok result), log) /\
    Z.of_nat (List.length log) = (max_items + page_size - 1) / page_size /\
    Z.of_nat (List.length result) = max_items /\
    result = firstn (Z.to_nat max_items) (received pages (List.length log)).
Proof.
  intros Hmax Hps Hmissing Hpages Hfull.
  destruct (fetch_products_complete_config environ served max_items page_size
              include_variants overrides Hmissing) as [endpoint [hdrs [inc Heq]]].
  destruct (paging_stops served pages max_items page_size
              (products_request endpoint hdrs inc page_size) Hpages
              (Z.to_nat max_items) 0 [] eq_refl eq_refl)
    as [n [log [Hrun [Hlen [_ [Hstop Hbefore]]]]]]; [lia|].
  change (Z.of_nat 0 + 1) with 1 in Hrun.
  change (received pages 0) with (@nil value) in Hrun.
  exists (firstn (Z.to_nat max_items) (received pages n)), log.
  assert (Hreach : max_items <= Z.of_nat n * page_size).
  { unfold stops in Hstop.
    rewrite (full_pages_never_short pages page_size Hps Hfull), orb_false_r in Hstop.
    apply Z.leb_le in Hstop.
    now rewrite (received_full_length pages page_size Hfull) in Hstop. }
  assert (Hleast : n = 0%nat \/ (Z.of_nat n - 1) * page_size < max_items).
  { destruct n as [|m]; [now left|right].
    assert (Hm : stops pages max_items page_size m = false) by (apply Hbefore; lia).
    unfold stops in Hm. apply orb_false_iff in Hm as [Hm _].
    apply Z.leb_gt in Hm.
    rewrite (received_full_length pages page_size Hfull) in Hm. lia. }
  split.
  { rewrite Heq, Hrun. unfold sliced, slice_to.
    destruct (0 <=? max_items) eqn:E; [reflexivity|].
    apply Z.leb_gt in E. lia. }
  split.
  { rewrite Hlen.
    apply (Z.div_unique _ _ _ (max_items + page_size - 1 - page_size * Z.of_nat n));
      [left|]; nia. }
  split.
  { rewrite length_firstn.
    pose proof (received_full_length pages page_size Hfull n). lia. }
  now rewrite Hlen.
Qed.

(** ** [fetch_brand_map] *)

Lemma key_lookup_insert_int (i z : Z) (v : value) (bm : list (value * value)) :
  int_keyed bm = true ->
  int_keyed (key_insert (VInt i) v bm) = true /\
  key_lookup (VInt z) (key_insert (VInt i) v bm) =
  if i =? z then Some v else key_lookup (VInt z) bm.
Proof.
  induction bm as [|[k w] rest IH]; cbn [key_insert int_keyed forallb fst].
  - intros _. split; [reflexivity|]. cbn [key_lookup key_eqb]. reflexivity.
  - intros H. apply andb_prop in H as [Hk Hrest].
    destruct k as [| |j| | | |]; try discriminate.
    destruct (IH Hrest) as [IHk IHl]. cbn [key_eqb].
    destruct (j =? i) eqn:Hji.
    + apply Z.eqb_eq in Hji. subst j. cbn [int_keyed forallb fst key_lookup key_eqb].
      unfold int_keyed in Hrest. rewrite Hrest. split; [reflexivity|].
      destruct (i =? z); reflexivity.
    + cbn [int_keyed forallb fst key_lookup key_eqb].
      unfold int_keyed in IHk. rewrite IHk. split; [reflexivity|].
      destruct (j =? z) eqn:Hjz; [|exact IHl].
      apply Z.eqb_eq in Hjz. subst j. now rewrite Z.eqb_sym, Hji.
Qed.

Lemma find_snoc {A : Type} (f : A -> bool) (l : list A) (x : A) :
  find f (l ++ [x]) =
  match find f l with
  | Some y => Some y
  | None => if f x then Some x else None
  end.
Proof.
  induction l as [|y l IH]; [reflexivity|].
  cbn [app find]. destruct (f y); [reflexivity|exact IH].
Qed.

Lemma record_brands_lookup (data : list value) :
  Forall (fun b => exists i, attr b "id" = Some (VInt i)) data ->
  forall brand_map,
    int_keyed brand_map = true ->
    exists brand_map',
      record_brands data brand_map = Ok brand_map' /\
      int_keyed brand_map' = true /\
      forall z,
        key_lookup (VInt z) brand_map' =
        match find (fun b => match attr b "id" with
                             | Some (VInt i) => i =? z
                             | _ => false
                             end) (rev data) with
        | Some b => Some (match attr b "name" with
                          | Some name => name
                          | None => VStr ""
                          end)
        | None => key_lookup (VInt z) brand_map
        end.
Proof.
  induction 1 as [|b rest [i Hi] _ IH]; intros brand_map Hkeys.
  - exists brand_map. now repeat split.
  - cbn [record_brands].
    destruct b as [| | | | | |d]; try discriminate. cbn [attr] in Hi.
    cbn [py_get]. rewrite Hi.
    set (name := match lookup "name" d with Some v => v | None => VStr "" end).
    assert (Hname : (match lookup "name" d with Some v => Ok v | None => Ok (VStr "") end)
                    = Ok name) by (unfold name; destruct (lookup "name" d); reflexivity).
    rewrite Hname. cbn [bind]. unfold key_set. cbn [hashable bind].
    destruct (key_lookup_insert_int i 0 name brand_map Hkeys) as [Hkeys' _].
    destruct (IH _ Hkeys') as [bm' [Hrun [Hk Hlook]]].
    exists bm'. split; [exact Hrun|]. split; [exact Hk|].
    intros z. rewrite Hlook. cbn [rev]. rewrite find_snoc.
    destruct (find _ (rev rest)); [reflexivity|].
    cbn [attr]. rewrite Hi.
    destruct (key_lookup_insert_int i z name brand_map Hkeys) as [_ ->].
    destruct (i =? z); reflexivity.
Qed.

(** X10.  Last write wins in the brand map: when every brand of a page has
    an integer id, [record_brands] succeeds, and looking an id up in the
    new map gives the name (empty when absent) of the last brand of the
    page with that id, or what the map held before when the page has no
    such brand. *)
Theorem record_brands_last_wins (data : list value) :
  Forall (fun b => exists i, attr b "id" = Some (VInt i)) data ->
  forall brand_map,
    int_keyed brand_map = true ->
    exists brand_map',
      record_brands data brand_map = Ok brand_map' /\
      int_keyed brand_map' = true /\
      forall z,
        key_lookup (VInt z) brand_map' =
        match find (fun b => match attr b "id" with
                             | Some (VInt i) => i =? z
                             | _ => false
                             end) (rev data) with
        | Some b => Some (match attr b "name" with
                          | Some name => name
                          | None => VStr ""
                          end)
        | None => key_lookup (VInt z) brand_map
        end.
Proof. exact (record_brands_lookup data). Qed.

Lemma key_lookup_insert_none (k v : value) (bm : list (value * value)) :
  key_lookup VNone (key_insert k v bm) =
  if is_none k then Some v else key_lookup VNone bm.
Proof.
  induction bm as [|[k' w] rest IH]; cbn [key_insert].
  - cbn [key_lookup]. destruct k; reflexivity.
  - destruct (key_eqb k' k) eqn:Hkk; cbn [key_lookup].
    + destruct k', k; cbn in Hkk |- *; try discriminate; reflexivity.
    + rewrite IH. destruct k', k; cbn in Hkk |- *; try discriminate; reflexivity.
Qed.

(** X11.  A brand without an id (absent or null) is recorded under the key
    None, the last such brand winning; and a product without a brand id is
    looked up under that same key, so [build_csv_rows] gives it the name of
    that brand instead of an empty cell. *)
Theorem brand_without_id (data : list value) :
  forall brand_map brand_map',
    record_brands data brand_map = Ok brand_map' ->
    key_lookup VNone brand_map' =
    match find (fun b => match attr b "id" with
                         | None | Some VNone => true
                         | _ => false
                         end) (rev data) with
    | Some b => Some (match attr b "name" with
                      | Some name => name
                      | None => VStr ""
                      end)
    | None => key_lookup VNone brand_map
    end /\
    forall custom_domain product name,
      is_record product = true ->
      attr (or_empty product) "brand_id" = None ->
      key_lookup VNone brand_map' = Some (VStr name) ->
      cell brand_map' custom_domain (py_or product (VDict [])) "brand_name"
      = Ok (VStr name).
Proof.
  assert (Hcell : forall bm custom_domain product name,
             is_record product = true ->
             attr (or_empty product) "brand_id" = None ->
             key_lookup VNone bm = Some (VStr name) ->
             cell bm custom_domain (py_or product (VDict [])) "brand_name"
             = Ok (VStr name)).
  { intros bm custom_domain product name Hrec Hattr Hkey.
    destruct (record_cases product Hrec) as [d [-> Hd]].
    rewrite Hd in Hattr. cbn [attr] in Hattr.
    unfold cell. cbn [py_get].
    destruct (lookup "primary_image" d); cbn [bind];
      unfold extract; cbn [String.eqb Ascii.eqb Bool.eqb andb py_get];
      rewrite Hattr; cbn [bind]; unfold key_get; cbn [hashable];
      rewrite Hkey; reflexivity. }
  induction data as [|b rest IH]; intros brand_map brand_map'.
  - cbn [record_brands]. intros [= <-]. split; [reflexivity|]. apply Hcell.
  - cbn [record_brands].
    destruct (py_get b "name" (VStr "")) as [name|e] eqn:Hname; cbn [bind];
      [|discriminate].
    destruct (py_get b "id" VNone) as [id|e] eqn:Hid; cbn [bind]; [|discriminate].
    unfold key_set. destruct (hashable id) eqn:Hh; cbn [bind]; [|discriminate].
    intros Hrun. destruct (IH _ _ Hrun) as [Hlook _].
    split; [|apply Hcell].
    rewrite Hlook. cbn [rev]. rewrite find_snoc.
    destruct (find _ (rev rest)); [reflexivity|].
    rewrite key_lookup_insert_none.
    destruct b as [| | | | | |d]; try discriminate.
    cbn [py_get] in Hname, Hid. cbn [attr].
    destruct (lookup "id" d) as [i|] eqn:Hi; injection Hid as <-;
      destruct (lookup "name" d) as [n|] eqn:Hn; injection Hname as <-;
      try (destruct i); cbn [is_none attr]; rewrite ?Hn; reflexivity.
Qed.

Lemma brands_round_page (r : response) (brand_map : list (value * value))
    (p : list value) :
  page_of r = Some p ->
  brands_round r brand_map =
  match p with
  | [] => Stop (Ok brand_map)
  | _ :: _ =>
      match record_brands p brand_map with
      | Raise e => Stop (Raise e)
      | Ok brand_map' =>
          if Z.of_nat (List.length p) <? 250 then Stop (Ok brand_map')
          else Again brand_map'
      end
  end.
Proof.
  unfold page_of, brands_round, response_json.
  destruct (status_code r =? 200); [|discriminate]. cbn [negb].
  destruct (json r) as [[| | | | | |d]|]; try discriminate.
  cbn [py_get].
  destruct (lookup "data" d) as [[| | | | |l|]|]; try discriminate;
    intros [= <-].
  - destruct l; reflexivity.
  - reflexivity.
Qed.

Lemma record_brands_app (a b : list value) :
  forall brand_map,
    record_brands (a ++ b) brand_map =
    (m <- record_brands a brand_map ;; record_brands b m).
Proof.
  induction a as [|x a IH]; intros brand_map; [reflexivity|].
  cbn [app record_brands].
  destruct (py_get x "name" (VStr "")); cbn [bind]; [|reflexivity].
  destruct (py_get x "id" VNone); cbn [bind]; [|reflexivity].
  destruct (key_set brand_map a1 a0); cbn [bind]; [apply IH|reflexivity].
Qed.

Lemma received_prefix (pages : nat -> list value) (k n : nat) :
  (k <= n)%nat -> exists more, received pages n = received pages k ++ more.
Proof.
  induction 1 as [|n _ [more IH]].
  - exists []. now rewrite app_nil_r.
  - exists (more ++ pages n). now rewrite received_succ, IH, app_assoc.
Qed.

Section BrandPages.

Variable pages : nat -> list value.
Variable n : nat.
Variable req : Z -> request.

Hypothesis served_pages : forall j, page_of (served j) = Some (pages j).
Hypothesis short_at_n : last_page_short pages 250 n = true.
Hypothesis full_before :
  forall j, (0 < j < n)%nat -> last_page_short pages 250 j = false.

Lemma brands_paging_pages (fuel : nat) :
  forall k log brand_map,
    List.length log = k ->
    record_brands (received pages k) [] = Ok brand_map ->
    (k < n)%nat ->
    (n - k <= fuel)%nat ->
    exists log',
      paging served (fun _ => true) brands_round req fuel (Z.of_nat k + 1) brand_map log
      = (Some (record_brands (received pages n) []), log') /\
      (List.length log' <= n)%nat /\
      (forall m, record_brands (received pages n) [] = Ok m -> List.length log' = n).
Proof.
  induction fuel as [|fuel IH]; intros k log brand_map Hlen Hmap Hk Hfuel; [lia|].
  cbn [paging]. cbv zeta. rewrite Hlen.
  rewrite (brands_round_page (served k) brand_map (pages k) (served_pages k)).
  assert (Hnext : received pages (S k) = received pages k ++ pages k)
    by apply received_succ.
  assert (Hlen' : List.length (log ++ [req (Z.of_nat k + 1)]) = S k)
    by (rewrite length_app; cbn; lia).
  assert (Hlast : last_page_short pages 250 (S k) = true -> S k = n).
  { intros Hs. destruct (Nat.eq_dec (S k) n) as [E|E]; [exact E|].
    rewrite full_before in Hs; [discriminate|lia]. }
  destruct (pages k) as [|x p] eqn:Hp.
  - assert (S k = n) as <- by (apply Hlast; cbn [last_page_short]; now rewrite Hp).
    exists (log ++ [req (Z.of_nat k + 1)]).
    rewrite Hnext, app_nil_r, Hmap. split; [reflexivity|]. split; [lia|].
    intros _ _. exact Hlen'.
  - assert (Hstep : record_brands (received pages (S k)) [] =
                    record_brands (x :: p) brand_map).
    { rewrite Hnext, record_brands_app, Hmap. reflexivity. }
    destruct (record_brands (x :: p) brand_map) as [bm'|e] eqn:Hrec.
    + destruct (Z.of_nat (List.length (x :: p)) <? 250) eqn:Hshort.
      * assert (S k = n) as <-
          by (apply Hlast; cbn [last_page_short]; now rewrite Hp).
        exists (log ++ [req (Z.of_nat k + 1)]).
        rewrite Hstep. split; [reflexivity|]. split; [lia|].
        intros _ _. exact Hlen'.
      * assert (Hlt : (S k < n)%nat).
        { destruct (Nat.eq_dec (S k) n) as [E|E]; [|lia].
          rewrite <- E in short_at_n. cbn [last_page_short] in short_at_n.
          rewrite Hp, Hshort in short_at_n. discriminate. }
        destruct (IH (S k) (log ++ [req (Z.of_nat k + 1)]) bm' Hlen' Hstep Hlt)
          as [log' H]; [lia|].
        exists log'.
        replace (Z.of_nat (S k) + 1) with (Z.of_nat k + 1 + 1) in H by lia.
        exact H.
    + exists (log ++ [req (Z.of_nat k + 1)]).
      destruct (received_prefix pages (S k) n) as [more Hmore]; [lia|].
      rewrite Hmore, record_brands_app, Hstep. cbn [bind].
      split; [reflexivity|]. split; [lia|]. discriminate.
Qed.

End BrandPages.

(** X12.  Paging is invisible in the brand map: when the endpoint serves
    pages of brands and page [n] is the first with fewer than 250 brands
    (an empty page included), [fetch_brand_map], given at least [n] rounds,
    returns what recording the brands of pages 1 to [n] in one go gives,
    after requests for pages 1, 2, ... and no more than [n] of them,
    exactly [n] when a map is returned. *)
Theorem fetch_brand_map_pages (pages : nat -> list value) (n fuel : nat)
    (overrides : option (list (string * string))) :
  missing_keys (get_bigcommerce_config environ overrides) = [] ->
  (forall j, page_of (served j) = Some (pages j)) ->
  last_page_short pages 250 n = true ->
  (forall j, (0 < j < n)%nat -> last_page_short pages 250 j = false) ->
  (n <= fuel)%nat ->
  exists log,
    fetch_brand_map environ served fuel overrides []
    = (Some (record_brands (received pages n) []), log) /\
    (List.length log <= n)%nat /\
    requested_pages log = page_numbers (List.length log) /\
    (forall m, record_brands (received pages n) [] = Ok m -> List.length log = n).
Proof.
  intros Hmissing Hpages Hshort Hfull Hfuel.
  destruct (fetch_brand_map_complete_config environ served fuel overrides Hmissing)
    as [endpoint [hdrs Heq]].
  assert (Hn : (0 < n)%nat) by (destruct n; [discriminate|lia]).
  destruct (brands_paging_pages pages n (brands_request endpoint hdrs)
              Hpages Hshort Hfull fuel 0 [] [] eq_refl eq_refl Hn)
    as [log [Hrun [Hle Hexact]]]; [lia|].
  change (Z.of_nat 0 + 1) with 1 in Hrun.
  exists log. rewrite Heq. split; [exact Hrun|]. split; [exact Hle|].
  split; [|exact Hexact].
  destruct (paging_log served _ _ brands_round (brands_request endpoint hdrs)
              brand_error_message (fun page => eq_refl)
              (fun r acc => brands_round_failure r acc)
              _ _ _ _ _ _ Hrun) as [ext [Hlog [Hreq _]]].
  cbn [app] in Hlog. subst ext. now rewrite Hreq, page_numbers_from.
Qed.

Lemma record_brands_valid (data : list value) :
  Forall (fun b => exists d, b = VDict d /\
                             hashable (match lookup "id" d with
                                       | Some i => i
                                       | None => VNone
                                       end) = true) data ->
  forall brand_map, exists brand_map', record_brands data brand_map = Ok brand_map'.
Proof.
  induction 1 as [|b rest [d [-> Hh]] _ IH]; intros brand_map.
  - now exists brand_map.
  - cbn [record_brands py_get].
    destruct (lookup "name" d); destruct (lookup "id" d); cbn [bind];
      unfold key_set; rewrite Hh; cbn [bind]; apply IH.
Qed.

(** X13.  The loop of [fetch_brand_map] has no bound of its own: against an
    endpoint that serves nothing but pages of at least 250 well-formed
    brands it never returns, it issues one request per round for as many
    rounds as it is run. *)
Theorem fetch_brand_map_unbounded (pages : nat -> list value)
    (overrides : option (list (string * string))) :
  missing_keys (get_bigcommerce_config environ overrides) = [] ->
  (forall j, page_of (served j) = Some (pages j)) ->
  (forall j, 250 <= Z.of_nat (List.length (pages j))) ->
  (forall j, Forall (fun b => exists d, b = VDict d /\
                                        hashable (match lookup "id" d with
                                                  | Some i => i
                                                  | None => VNone
                                                  end) = true) (pages j)) ->
  forall fuel,
  exists log,
    fetch_brand_map environ served fuel overrides [] = (None, log) /\
    List.length log = fuel.
Proof.
  intros Hmissing Hpages Hfull Hvalid fuel.
  destruct (fetch_brand_map_complete_config environ served fuel overrides Hmissing)
    as [endpoint [hdrs Heq]].
  rewrite Heq.
  assert (Hloop : forall fuel page bm log,
             exists log',
               paging served (fun _ => true) brands_round
                 (brands_request endpoint hdrs) fuel page bm log = (None, log') /\
               List.length log' = (List.length log + fuel)%nat).
  { clear fuel Heq. induction fuel as [|fuel IH]; intros page bm log.
    - exists log. split; [reflexivity|lia].
    - cbn [paging]. cbv zeta.
      rewrite (brands_round_page _ bm _ (Hpages (List.length log))).
      pose proof (Hfull (List.length log)) as Hlen.
      destruct (record_brands_valid _ (Hvalid (List.length log)) bm) as [bm' Hbm].
      destruct (pages (List.length log)) as [|x p] eqn:Hp; [cbn in Hlen; lia|].
      rewrite Hbm.
      destruct (Z.of_nat (List.length (x :: p)) <? 250) eqn:E;
        [apply Z.ltb_lt in E; lia|].
      destruct (IH (page + 1) bm' (log ++ [brands_request endpoint hdrs page]))
        as [log' [Hrun Hl]].
      exists log'. split; [exact Hrun|].
      rewrite Hl, length_app. cbn. lia. }
  destruct (Hloop fuel 1 [] []) as [log [Hrun Hl]].
  exists log. split; [exact Hrun|exact Hl].
Qed.

(** ** Rows and cells of [build_csv_rows] *)

Lemma for_each_length {A B : Type} (f : A -> result B) (xs : list A) :
  forall ys, for_each f xs = Ok ys -> List.length ys = List.length xs.
Proof.
  induction xs as [|x rest IH]; intros ys; cbn [for_each].
  - intros [= <-]. reflexivity.
  - destruct (f x); cbn [bind]; [|discriminate].
    destruct (for_each f rest) as [l|]; cbn [bind]; [|discriminate].
    intros [= <-]. cbn. now rewrite (IH l eq_refl).
Qed.

Lemma for_each_forall {A B : Type} (f : A -> result B) (P : B -> Prop) (xs : list A) :
  (forall x y, f x = Ok y -> P y) ->
  forall ys, for_each f xs = Ok ys -> Forall P ys.
Proof.
  intros HP. induction xs as [|x rest IH]; intros ys; cbn [for_each].
  - intros [= <-]. constructor.
  - destruct (f x) as [y|] eqn:Hy; cbn [bind]; [|discriminate].
    destruct (for_each f rest) as [l|]; cbn [bind]; [|discriminate].
    intros [= <-]. constructor; [now apply (HP x)|now apply IH].
Qed.

(** X14.  When [build_csv_rows] has its rows, there is the header and one
    row per product, null products included, and every row has exactly one
    cell per requested field. *)
Theorem csv_rows_shape (products : list value) (fields : list string)
    (brand_map : list (value * value)) (custom_domain : string)
    (rows : list (list value)) :
  csv_rows products fields brand_map custom_domain = Ok rows ->
  List.length rows = S (List.length products) /\
  Forall (fun row => List.length row = List.length fields) rows.
Proof.
  unfold csv_rows.
  destruct (for_each (product_row brand_map custom_domain fields) products)
    as [body|e] eqn:Hbody; cbn [bind]; [|discriminate].
  intros [= <-]. split.
  - cbn. now rewrite (for_each_length _ _ _ Hbody).
  - constructor; [apply header_row_length|].
    apply (for_each_forall _ _ _ (fun p row H => for_each_length _ _ row H) _ Hbody).
Qed.

Lemma py_join_strs (sep : string) (items : list string) :
  py_join sep (map VStr items) = Ok (VStr (String.concat sep items)).
Proof.
  unfold py_join.
  assert (H : for_each (fun v => match v with VStr s => Ok s | _ => Raise TypeError end)
                (map VStr items) = Ok items).
  { induction items as [|x l IH]; [reflexivity|].
    cbn [map for_each bind]. now rewrite IH. }
  now rewrite H.
Qed.

Lemma join_strs_ok (sep : string) (items : list value) :
  join_strs sep items = Ok (VStr (String.concat sep (map py_str items))).
Proof. unfold join_strs. now rewrite <- map_map, py_join_strs. Qed.

(** X15.  Outside the custom_url column a cell is never a list or a
    mapping: whatever the product holds under the field, the value handed
    to the CSV writer has been flattened to a scalar. *)
Theorem cell_is_scalar (brand_map : list (value * value)) (custom_domain : string)
    (product : value) (field : string) (v : value) :
  field <> "custom_url" ->
  cell brand_map custom_domain product field = Ok v ->
  match v with
  | VList _ | VDict _ => False
  | _ => True
  end.
Proof.
  intros Hfield. apply String.eqb_neq in Hfield. unfold cell.
  destruct (py_get product "primary_image" VNone); cbn [bind]; [|discriminate].
  destruct (extract brand_map custom_domain product _ field) as [x|];
    cbn [bind]; [|discriminate].
  rewrite Hfield.
  destruct x; try (intros [= <-]; exact I).
  intros H. rewrite join_strs_ok in H. injection H as <-. exact I.
Qed.

Lemma cell_dict (brand_map : list (value * value)) (custom_domain : string)
    (d : list (string * value)) (field : string) :
  cell brand_map custom_domain (VDict d) field =
  (v <- extract brand_map custom_domain (VDict d)
          (py_or (match lookup "primary_image" d with Some v => v | None => VNone end)
             (VDict [])) field ;;
   match v with
   | VList items => join_strs ", " items
   | VDict _ =>
       if String.eqb field "custom_url" then py_get v "url" (VStr "")
       else Ok (VStr (py_str v))
   | _ => Ok v
   end).
Proof. unfold cell. cbn [py_get]. destruct (lookup "primary_image" d); reflexivity. Qed.

(** X16.  From the brand listing to the CSV: when the brands have integer
    ids and string names, a product whose brand id is the integer [z] gets,
    in the brand_name column, the name of the last listed brand with id
    [z], and the empty string when no listed brand has that id. *)
Theorem brand_name_cell (data : list value) (product : value)
    (custom_domain : string) (z : Z) :
  Forall (fun b => exists i, attr b "id" = Some (VInt i)) data ->
  Forall (fun b => exists s, match attr b "name" with
                             | Some name => name
                             | None => VStr ""
                             end = VStr s) data ->
  is_record product = true ->
  attr (or_empty product) "brand_id" = Some (VInt z) ->
  exists brand_map,
    record_brands data [] = Ok brand_map /\
    cell brand_map custom_domain (py_or product (VDict [])) "brand_name" =
    Ok (match find (fun b => match attr b "id" with
                             | Some (VInt i) => i =? z
                             | _ => false
                             end) (rev data) with
        | Some b => match attr b "name" with
                    | Some name => name
                    | None => VStr ""
                    end
        | None => VStr ""
        end).
Proof.
  intros Hids Hnames Hrec Hbrand.
  destruct (record_brands_lookup data Hids [] eq_refl) as [bm [Hrun [_ Hlook]]].
  exists bm. split; [exact Hrun|].
  destruct (record_cases product Hrec) as [d [-> Hd]].
  rewrite Hd in Hbrand. cbn [attr] in Hbrand.
  rewrite cell_dict. unfold extract. cbn [String.eqb Ascii.eqb Bool.eqb andb py_get].
  rewrite Hbrand. cbn [bind]. unfold key_get. cbn [hashable].
  rewrite Hlook.
  destruct (find _ (rev data)) as [b|] eqn:Hfind; cbn [key_lookup bind];
    [|reflexivity].
  apply find_some in Hfind as [Hin _]. apply in_rev in Hin.
  rewrite Forall_forall in Hnames. destruct (Hnames b Hin) as [name ->].
  reflexivity.
Qed.

(** X17.  The columns categories and category_ids agree on a product whose
    categories are a list: both cells hold the string forms of the
    categories joined by a comma and a space. *)
Theorem categories_columns_agree (brand_map : list (value * value))
    (custom_domain : string) (d : list (string * value)) (l : list value) :
  lookup "categories" d = Some (VList l) ->
  cell brand_map custom_domain (VDict d) "category_ids" =
  Ok (VStr (String.concat ", " (map py_str l))) /\
  cell brand_map custom_domain (VDict d) "categories" =
  Ok (VStr (String.concat ", " (map py_str l))).
Proof.
  intros Hc. split; rewrite cell_dict; unfold extract;
    cbn [String.eqb Ascii.eqb Bool.eqb andb py_get]; rewrite Hc; cbn [bind].
  - assert (Hiter : py_iter (py_or (VList l) (VList [])) = Ok l)
      by (destruct l; reflexivity).
    rewrite Hiter. cbn [bind]. now rewrite join_strs_ok.
  - apply join_strs_ok.
Qed.

Lemma for_each_ok {A B : Type} (f : A -> result B) (g : A -> B) (xs : list A) :
  Forall (fun x => f x = Ok (g x)) xs -> for_each f xs = Ok (map g xs).
Proof.
  intros H. apply for_each_map. now rewrite Forall_forall in H.
Qed.

Lemma Forall_filter {A : Type} (P : A -> Prop) (f : A -> bool) (l : list A) :
  Forall P l -> Forall P (filter f l).
Proof.
  induction 1 as [|x l Hx _ IH]; [constructor|].
  cbn [filter]. destruct (f x); [constructor|]; assumption.
Qed.

(** X18.  The image_urls cell lists the standard URL of every image that is
    not null, in order, joined by a comma and a space; a null entry of the
    images list leaves no trace, an image without a URL leaves an empty
    item. *)
Theorem image_urls_skip_null (brand_map : list (value * value))
    (custom_domain : string) (d : list (string * value)) (l : list value) :
  lookup "images" d = Some (VList l) ->
  Forall (fun img => img = VNone \/
                     exists m s, img = VDict m /\ entry m "url_standard" = VStr s) l ->
  cell brand_map custom_domain (VDict d) "image_urls" =
  Ok (VStr (String.concat ", "
              (map (fun img => match img with
                               | VDict m => py_str (entry m "url_standard")
                               | _ => ""
                               end)
                 (filter (fun img => negb (is_none img)) l)))).
Proof.
  intros Hi Himgs. rewrite cell_dict. unfold extract.
  cbn [String.eqb Ascii.eqb Bool.eqb andb py_get]. rewrite Hi. cbn [bind].
  assert (Hiter : py_iter (py_or (VList l) (VList [])) = Ok l)
    by (destruct l; reflexivity).
  rewrite Hiter. cbn [bind].
  rewrite (for_each_ok _ (fun img => VStr (match img with
                                           | VDict m => py_str (entry m "url_standard")
                                           | _ => ""
                                           end))).
  - cbn [bind]. rewrite <- map_map, py_join_strs. reflexivity.
  - apply Forall_filter. eapply Forall_impl; [|exact Himgs].
    intros img [->|[m [s [-> Hs]]]]; [reflexivity|].
    unfold entry in Hs |- *. unfold py_or.
    destruct m as [|kv m]; [reflexivity|]. cbn [truthy py_get].
    destruct (lookup "url_standard" (kv :: m)); now rewrite Hs.
Qed.

Lemma for_each_attribute_error {A B : Type} (f : A -> result B) (xs : list A) :
  (forall x, (exists y, f x = Ok y) \/ f x = Raise AttributeError) ->
  Exists (fun x => f x = Raise AttributeError) xs ->
  for_each f xs = Raise AttributeError.
Proof.
  intros Hf. induction 1 as [x rest Hx|x rest _ IH]; cbn [for_each].
  - now rewrite Hx.
  - destruct (Hf x) as [[y ->]| ->]; cbn [bind]; [|reflexivity].
    now rewrite IH.
Qed.

(** X19.  The custom_fields cell joins the entries with a semicolon and a
    space, each written name, colon, space, value, or the value alone when
    the name is empty.  Unlike the images list, a null or otherwise
    non-mapping entry is not skipped: it makes the cell, and with it
    [build_csv_rows], raise AttributeError. *)
Theorem custom_fields_cell (brand_map : list (value * value))
    (custom_domain : string) (d : list (string * value)) (l : list value) :
  lookup "custom_fields" d = Some (VList l) ->
  (Exists (fun cf => is_dict cf = false) l ->
   cell brand_map custom_domain (VDict d) "custom_fields" = Raise AttributeError /\
   forall fields,
     In "custom_fields" fields ->
     exists e,
       build_csv_rows [VDict d] fields brand_map custom_domain = Raise e) /\
  (Forall (fun cf => exists m name v,
                       cf = VDict m /\ entry m "name" = VStr name /\
                       entry m "value" = VStr v) l ->
   cell brand_map custom_domain (VDict d) "custom_fields" =
   Ok (VStr (String.concat "; "
               (map (fun cf =>
                       match cf with
                       | VDict m =>
                           if String.eqb (py_str (entry m "name")) ""
                           then py_str (entry m "value")
                           else (py_str (entry m "name") ++ ": "
                                 ++ py_str (entry m "value"))%string
                       | _ => ""
                       end) l)))).
Proof.
  intros Hc.
  assert (Hiter : py_iter (py_or (VList l) (VList [])) = Ok l)
    by (destruct l; reflexivity).
  split.
  - intros Hbad.
    assert (Hcell : cell brand_map custom_domain (VDict d) "custom_fields"
                    = Raise AttributeError).
    { rewrite cell_dict. unfold extract.
      cbn [String.eqb Ascii.eqb Bool.eqb andb py_get]. rewrite Hc. cbn [bind].
      rewrite Hiter. cbn [bind].
      rewrite for_each_attribute_error; [reflexivity| |].
      - intros cf. destruct cf as [| | | | | |m]; try (right; reflexivity).
        left. cbn [py_get].
        destruct (lookup "name" m); destruct (lookup "value" m); cbn [bind];
          eexists; reflexivity.
      - eapply Exists_impl; [|exact Hbad].
        intros cf Hcf. destruct cf; try discriminate; reflexivity. }
    split; [exact Hcell|].
    intros fields Hin. unfold build_csv_rows, csv_rows. cbn [for_each].
    unfold product_row at 1.
    assert (Hd : py_or (VDict d) (VDict []) = VDict d).
    { unfold py_or. cbn [truthy]. destruct d; [discriminate Hc|reflexivity]. }
    rewrite Hd.
    assert (Hrow : exists e, for_each (cell brand_map custom_domain (VDict d)) fields
                             = Raise e).
    { induction fields as [|f rest IH]; [contradiction|].
      cbn [for_each]. destruct Hin as [->|Hin].
      - rewrite Hcell. now eexists.
      - destruct (cell brand_map custom_domain (VDict d) f); cbn [bind];
          [|now eexists].
        destruct (IH Hin) as [e ->]. now eexists. }
    destruct Hrow as [e ->]. now eexists.
  - intros Hok. rewrite cell_dict. unfold extract.
    cbn [String.eqb Ascii.eqb Bool.eqb andb py_get]. rewrite Hc. cbn [bind].
    rewrite Hiter. cbn [bind].
    rewrite (for_each_ok _
               (fun cf => VStr match cf with
                               | VDict m =>
                                   if String.eqb (py_str (entry m "name")) ""
                                   then py_str (entry m "value")
                                   else (py_str (entry m "name") ++ ": "
                                         ++ py_str (entry m "value"))%string
                               | _ => ""
                               end)).
    + cbn [bind]. rewrite <- map_map, py_join_strs. reflexivity.
    + eapply Forall_impl; [|exact Hok].
      intros cf [m [name [v [-> [Hn Hv]]]]]. cbn [py_get].
      unfold entry in Hn, Hv |- *.
      destruct (lookup "name" m) as [a|]; destruct (lookup "value" m) as [b|];
        try subst a; try subst b;
        try (injection Hn as <-); try (injection Hv as <-);
        cbn [bind truthy py_str];
        try (destruct (String.eqb name "")); reflexivity.
Qed.

(** ** [apply_domain] *)

Lemma rstrip_idempotent (c : ascii) (s : string) :
  rstrip c (rstrip c s) = rstrip c s.
Proof.
  induction s as [|a rest IH]; [reflexivity|].
  cbn [rstrip]. destruct (rstrip c rest) as [|b kept] eqn:Hr.
  - destruct (Ascii.eqb a c) eqn:Ha; [reflexivity|].
    cbn [rstrip]. now rewrite Ha.
  - cbn [rstrip] in *. now rewrite IH.
Qed.

Lemma startswith_append (a b p : string) :
  startswith a p = true -> startswith (a ++ b)%string p = true.
Proof.
  unfold startswith. revert a. induction p as [|c p IH]; intros a H.
  { destruct (a ++ b)%string; reflexivity. }
  destruct a as [|x a]; [discriminate|]. cbn in H |- *.
  destruct (ascii_dec c x); [now apply IH|discriminate].
Qed.

(** X20.  Trailing slashes of the domain do not count: whenever something
    is left of the domain once they are stripped, [apply_domain] gives the
    same result for the domain and for the stripped domain, on every
    value. *)
Theorem apply_domain_trailing_slashes (domain : string) (url_value : value) :
  rstrip "/" domain <> "" ->
  apply_domain domain url_value = apply_domain (rstrip "/" domain) url_value.
Proof.
  intros Hclean.
  assert (Hdomain : domain <> "") by (intros ->; now apply Hclean).
  unfold apply_domain. apply String.eqb_neq in Hclean, Hdomain.
  now rewrite Hclean, Hdomain, rstrip_idempotent.
Qed.

(** X21.  When the domain carries its scheme, so that without its trailing
    slashes it still starts with http:// or https://, [apply_domain] is
    idempotent: applying it to its own result changes nothing, so a URL is
    never prefixed twice. *)
Theorem apply_domain_idempotent (domain s t : string) :
  startswith (rstrip "/" domain) "http://" = true \/
  startswith (rstrip "/" domain) "https://" = true ->
  apply_domain domain (VStr s) = Ok (VStr t) ->
  apply_domain domain (VStr t) = Ok (VStr t).
Proof.
  intros Hscheme. rewrite !apply_domain_prefixed. intros [= <-]. f_equal. f_equal.
  unfold prefixed at 2 3.
  destruct (String.eqb domain "") eqn:Hd.
  { apply String.eqb_eq in Hd. subst domain. destruct Hscheme; discriminate. }
  destruct (String.eqb s "") eqn:Hs.
  { unfold prefixed. now rewrite Hd. }
  destruct (startswith s "http://" || startswith s "https://")%bool eqn:Habs.
  { apply prefixed_absolute. now apply orb_prop in Habs. }
  apply prefixed_absolute.
  destruct Hscheme as [H|H]; [left|right]; now apply startswith_append.
Qed.

End Further.

(** * Properties of the handlers *)

Section HandlerProperties.

Context {RT : Runtime}.
Variable environ : string -> option string.
Variable served : nat -> response.
Variable strip : string -> string.
Variable csv_reader : string -> list (list string).

(** ** The field list *)

Lemma split_nonempty (sep : ascii) (s : string) : split sep s <> [].
Proof.
  destruct s as [|c rest]; cbn [split]; [discriminate|].
  destruct (Ascii.eqb c sep); [discriminate|].
  destruct (split sep rest); discriminate.
Qed.

Lemma split_words (sep : ascii) (s : string) :
  Forall (fun word => contains sep word = false) (split sep s).
Proof.
  induction s as [|c rest IH]; cbn [split].
  - now repeat constructor.
  - destruct (Ascii.eqb c sep) eqn:Hc; [now constructor|].
    destruct (split sep rest) as [|word words].
    + repeat constructor. cbn. now rewrite Hc.
    + inversion IH; subst. constructor; [|assumption]. cbn. now rewrite Hc.
Qed.

Lemma split_app (sep : ascii) (word rest : string) :
  contains sep word = false ->
  split sep (word ++ rest)%string =
  match split sep rest with
  | [] => [word]
  | head :: tail => (word ++ head)%string :: tail
  end.
Proof.
  induction word as [|c word IH]; intros Hw.
  - cbn [String.append]. destruct (split sep rest) eqn:E; [|reflexivity].
    now destruct (split_nonempty sep rest).
  - cbn [contains] in Hw. apply orb_false_iff in Hw as [Hc Hw].
    cbn [String.append split]. rewrite Hc, (IH Hw).
    destruct (split sep rest); reflexivity.
Qed.

Lemma append_empty (s : string) : (s ++ "")%string = s.
Proof. induction s as [|c s IH]; [reflexivity|]. cbn. now rewrite IH. Qed.

Lemma concat_two (sep word next : string) (words : list string) :
  String.concat sep (word :: next :: words) =
  (word ++ sep ++ String.concat sep (next :: words))%string.
Proof. reflexivity. Qed.

Lemma split_join (sep : ascii) (word : string) (words : list string) :
  Forall (fun w => contains sep w = false) (word :: words) ->
  split sep (String.concat (String sep EmptyString) (word :: words)) = word :: words.
Proof.
  revert word. induction words as [|next words IH]; intros word Hall.
  - inversion Hall; subst. cbn [String.concat].
    rewrite <- (append_empty word) at 1. rewrite split_app by assumption.
    cbn [split]. now rewrite append_empty.
  - inversion Hall as [|? ? Hw Hrest]; subst.
    rewrite concat_two, split_app by assumption.
    change (String sep "" ++ String.concat (String sep "") (next :: words))%string
      with (String sep (String.concat (String sep "") (next :: words))).
    cbn [split]. rewrite Ascii.eqb_refl, (IH next Hrest). now rewrite append_empty.
Qed.

(** X22.  The field list parsed from a request has no empty name, and no
    name holds a comma; joined by commas, as [export] hands it to its
    template, it parses back to the same list, so a download made from the
    preview exports the same columns in the same order. *)
Theorem parse_fields_round_trip (raw : string) :
  Forall (fun field => field <> "" /\ contains "," field = false) (parse_fields raw) /\
  parse_fields (String.concat "," (parse_fields raw)) = parse_fields raw.
Proof.
  assert (Hwords : Forall (fun field => field <> "" /\ contains "," field = false)
                     (parse_fields raw)).
  { unfold parse_fields. pose proof (split_words "," raw) as H.
    induction H as [|w ws Hw _ IH]; [constructor|].
    cbn [filter]. destruct (String.eqb w "") eqn:E; cbn [negb]; [exact IH|].
    constructor; [|exact IH]. split; [now apply String.eqb_neq|exact Hw]. }
  split; [exact Hwords|].
  destruct (parse_fields raw) as [|field fields] eqn:Hparsed; [reflexivity|].
  unfold parse_fields at 1.
  rewrite (split_join "," field fields).
  - clear Hparsed. induction Hwords as [|w ws [Hw _] _ IH]; [reflexivity|].
    cbn [filter]. apply String.eqb_neq in Hw. rewrite Hw. cbn [negb]. now rewrite IH.
  - eapply Forall_impl; [|exact Hwords]. now intros w [_ Hw].
Qed.

(** ** Credentials of a request *)

Lemma request_credentials_facts (a b c : string) :
  lookup "store_hash" (request_credentials a b c)
  = (if String.eqb a "" then None else Some a) /\
  lookup "client_id" (request_credentials a b c)
  = (if String.eqb b "" then None else Some b) /\
  lookup "access_token" (request_credentials a b c)
  = (if String.eqb c "" then None else Some c) /\
  NoDup (map fst (request_credentials a b c)) /\
  (request_credentials a b c = [] <->
   (String.eqb a "" && String.eqb b "" && String.eqb c "")%bool = true).
Proof.
  unfold request_credentials.
  destruct (String.eqb a ""), (String.eqb b ""), (String.eqb c "");
    cbn [negb dict_set lookup String.eqb Ascii.eqb Bool.eqb andb map fst];
    (split; [reflexivity|]); (split; [reflexivity|]); (split; [reflexivity|]);
    (split; [repeat constructor; cbn; intuition discriminate|]);
    split; intros H; try reflexivity; discriminate.
Qed.

Lemma paging_issues {A : Type} (P : request -> Prop) (guard : A -> bool)
    (rnd : response -> A -> round A) (req : Z -> request) :
  (forall page, P (req page)) ->
  forall fuel page acc log,
  exists ext,
    snd (paging served guard rnd req fuel page acc log) = log ++ ext /\ Forall P ext.
Proof.
  intros HP fuel page acc log.
  destruct (paging_requests served guard rnd req fuel page acc log) as [n [_ Hn]].
  eexists. split; [exact Hn|].
  apply Forall_forall. intros r Hr. apply in_map_iff in Hr as [j [<- _]]. apply HP.
Qed.

Lemma fetch_products_issues (P : request -> Prop) (max_items page_size : Z)
    (include_variants : bool) (overrides : option (list (string * string)))
    (sh ci tok : string) :
  lookup "store_hash" (get_bigcommerce_config environ overrides) = Some sh ->
  lookup "client_id" (get_bigcommerce_config environ overrides) = Some ci ->
  lookup "access_token" (get_bigcommerce_config environ overrides) = Some tok ->
  (forall inc page,
      P (products_request
           (("https://api.bigcommerce.com/stores/" ++ sh ++ "/v3")
            ++ "/catalog/products")%string
           [ ("X-Auth-Client", ci); ("X-Auth-Token", tok);
             ("Accept", "application/json"); ("Content-Type", "application/json") ]
           inc page_size page)) ->
  forall log,
  exists ext,
    snd (fetch_products environ served max_items page_size include_variants
           overrides log) = log ++ ext /\
    Forall P ext.
Proof.
  intros Hsh Hci Htok HP log.
  unfold fetch_products. cbv zeta.
  destruct (missing_keys (get_bigcommerce_config environ overrides)).
  - unfold api_headers, subscript. rewrite Hsh, Hci, Htok. cbn [bind].
    unfold http_bind at 1. unfold http_lift at 1.
    unfold http_bind at 1. unfold http_lift at 1.
    unfold http_bind, http_ret. rewrite products_loop_paging.
    match goal with
    | |- context [paging served ?g ?r ?q ?f ?pg ?a log] =>
        destruct (paging_issues P g r q (HP _) f pg a log) as [ext [Hext HPext]];
        destruct (paging served g r q f pg a log) as [[[x|e]|] l]
    end; cbn [snd] in *; exists ext; now split.
  - exists []. rewrite app_nil_r. now split.
Qed.

Lemma fetch_brand_map_issues (P : request -> Prop) (fuel : nat)
    (overrides : option (list (string * string))) (sh ci tok : string) :
  lookup "store_hash" (get_bigcommerce_config environ overrides) = Some sh ->
  lookup "client_id" (get_bigcommerce_config environ overrides) = Some ci ->
  lookup "access_token" (get_bigcommerce_config environ overrides) = Some tok ->
  (forall page,
      P (brands_request
           (("https://api.bigcommerce.com/stores/" ++ sh ++ "/v3")
            ++ "/catalog/brands")%string
           [ ("X-Auth-Client", ci); ("X-Auth-Token", tok);
             ("Accept", "application/json"); ("Content-Type", "application/json") ]
           page)) ->
  forall log,
  exists ext,
    snd (fetch_brand_map environ served fuel overrides log) = log ++ ext /\
    Forall P ext.
Proof.
  intros Hsh Hci Htok HP log.
  unfold fetch_brand_map. cbv zeta.
  destruct (missing_keys (get_bigcommerce_config environ overrides)).
  - unfold api_headers, subscript. rewrite Hsh, Hci, Htok. cbn [bind].
    unfold http_bind, http_lift. rewrite brands_loop_paging.
    apply paging_issues. exact HP.
  - exists []. rewrite app_nil_r. now split.
Qed.

Lemma http_bind_issues {A B : Type} (P : request -> Prop) (m : Http A)
    (k : A -> Http B) :
  (forall log, exists ext, snd (m log) = log ++ ext /\ Forall P ext) ->
  (forall a log, exists ext, snd (k a log) = log ++ ext /\ Forall P ext) ->
  forall log, exists ext, snd (http_bind m k log) = log ++ ext /\ Forall P ext.
Proof.
  intros Hm Hk log. unfold http_bind.
  destruct (Hm log) as [e1 [H1 P1]].
  destruct (m log) as [[[a|e]|] l]; cbn [snd] in H1; subst l.
  - destruct (Hk a (log ++ e1)) as [e2 [H2 P2]].
    exists (e1 ++ e2). rewrite H2, app_assoc. split; [reflexivity|].
    apply Forall_app. now split.
  - now exists e1.
  - now exists e1.
Qed.

Lemma http_lift_issues {A : Type} (P : request -> Prop) (r : result A) :
  forall log, exists ext, snd (http_lift r log) = log ++ ext /\ Forall P ext.
Proof. intros log. exists []. rewrite app_nil_r. now split. Qed.

Lemma http_ret_issues {A : Type} (P : request -> Prop) (a : A) :
  forall log, exists ext, snd (http_ret a log) = log ++ ext /\ Forall P ext.
Proof. intros log. exists []. rewrite app_nil_r. now split. Qed.

(** X23.  Which credentials an export uses.  For each of the store hash,
    the client id and the access token: the value typed in the form
    (stripped) when it is not empty; otherwise, if the form gives none of
    the three at all, the value saved in the session when it is not empty;
    otherwise the environment's.  Credentials typed in the form replace
    the whole session entry, so a form that gives only some of them falls
    back on the environment, not on the session, for the rest.  Every
    request of the export, to the products and to the brands listing,
    carries exactly these values. *)
Theorem export_credentials (fuel : nat) (form : list (string * string))
    (session : option (list (string * string))) (log : list request) :
  parse_fields (form_get form "ordered_fields" "") <> [] ->
  match session with Some saved => NoDup (map fst saved) | None => True end ->
  let given := fun key => strip (form_get form key "") in
  let any_given :=
    negb (String.eqb (given "store_hash") "" && String.eqb (given "client_id") ""
          && String.eqb (given "access_token") "") in
  let effective := fun key =>
    if negb (String.eqb (given key) "") then given key
    else
      match (if any_given then None else session) with
      | Some saved =>
          match lookup key saved with
          | Some v => if String.eqb v "" then getenv environ (env_var key) "" else v
          | None => getenv environ (env_var key) ""
          end
      | None => getenv environ (env_var key) ""
      end in
  fst (export environ served strip csv_reader fuel form session) =
  (if any_given
   then Some (request_credentials (given "store_hash") (given "client_id")
                (given "access_token"))
   else session) /\
  exists ext,
    snd (snd (export environ served strip csv_reader fuel form session) log)
    = log ++ ext /\
    Forall (fun r =>
              headers r = [ ("X-Auth-Client", effective "client_id");
                            ("X-Auth-Token", effective "access_token");
                            ("Accept", "application/json");
                            ("Content-Type", "application/json") ] /\
              (url r = ("https://api.bigcommerce.com/stores/"
                        ++ effective "store_hash" ++ "/v3/catalog/products")%string \/
               url r = ("https://api.bigcommerce.com/stores/"
                        ++ effective "store_hash" ++ "/v3/catalog/brands")%string))
      ext.
Proof.
  intros Hfields Hsess given any_given effective.
  destruct (request_credentials_facts (given "store_hash") (given "client_id")
              (given "access_token")) as [Ls [Lc [La [Hnd Hempty]]]].
  set (supplied := request_credentials (given "store_hash") (given "client_id")
                     (given "access_token")) in *.
  set (creds := match supplied with
                | _ :: _ => supplied
                | [] => match session with
                        | Some ((_ :: _) as saved) => saved
                        | _ => []
                        end
                end).
  assert (Hany : any_given = match supplied with [] => false | _ :: _ => true end).
  { unfold any_given. destruct supplied as [|kv l].
    - destruct Hempty as [Hempty _]. now rewrite (Hempty eq_refl).
    - destruct (_ && _)%bool; [|reflexivity].
      destruct Hempty as [_ Hempty]. discriminate (Hempty eq_refl). }
  assert (Hnd' : NoDup (map fst creds)).
  { unfold creds. destruct supplied; [|exact Hnd].
    destruct session as [[|kv saved]|]; try exact Hsess; cbn; constructor. }
  assert (Heff : forall key,
             In key required_keys ->
             lookup key (get_bigcommerce_config environ (Some creds))
             = Some (effective key)).
  { intros key Hkey. rewrite (effective_config environ (Some creds) key Hnd' Hkey).
    f_equal. unfold override_value, effective. rewrite Hany. unfold creds.
    destruct supplied as [|kv l] eqn:Hsup.
    - destruct Hempty as [Hempty _]. specialize (Hempty eq_refl).
      apply andb_prop in Hempty as [Hempty E3].
      apply andb_prop in Hempty as [E1 E2].
      assert (Hgiven : String.eqb (given key) "" = true).
      { cbn [required_keys In] in Hkey.
        destruct Hkey as [<-|[<-|[<-|[]]]]; assumption. }
      rewrite Hgiven. cbn [negb].
      destruct session as [[|kv saved]|]; reflexivity.
    - cbn [required_keys In] in Hkey.
      destruct Hkey as [<-|[<-|[<-|[]]]];
        [rewrite Ls|rewrite Lc|rewrite La];
        match goal with
        | |- context [String.eqb (given ?k) ""] =>
            destruct (String.eqb (given k) "") eqn:E
        end; cbn [negb]; try reflexivity;
        rewrite E; reflexivity. }
  assert (Hexport : export environ served strip csv_reader fuel form session
                    = (if any_given then Some supplied else session,
                       snd (export environ served strip csv_reader fuel form session))
                    /\ (forall lg, exists ext,
                           snd (snd (export environ served strip csv_reader fuel
                                       form session) lg) = lg ++ ext /\
                           Forall (fun r =>
                                     headers r =
                                     [ ("X-Auth-Client", effective "client_id");
                                       ("X-Auth-Token", effective "access_token");
                                       ("Accept", "application/json");
                                       ("Content-Type", "application/json") ] /\
                                     (url r = ("https://api.bigcommerce.com/stores/"
                                               ++ effective "store_hash"
                                               ++ "/v3/catalog/products")%string \/
                                      url r = ("https://api.bigcommerce.com/stores/"
                                               ++ effective "store_hash"
                                               ++ "/v3/catalog/brands")%string))
                             ext)).
  { rewrite Hany. unfold export. cbv zeta.
    destruct (parse_fields (form_get form "ordered_fields" "")) as [|f fs];
      [contradiction|].
    fold (given "store_hash") (given "client_id") (given "access_token").
    fold supplied.
    assert (Hpair :
              (match supplied with
               | [] => match session with
                       | Some ((_ :: _) as saved) => (session, saved)
                       | _ => (session, supplied)
                       end
               | _ :: _ => (Some supplied, supplied)
               end)
              = (match supplied with [] => session | _ :: _ => Some supplied end,
                 creds)).
    { unfold creds. destruct supplied; [|reflexivity].
      destruct session as [[|kv saved]|]; reflexivity. }
    rewrite Hpair. cbn [fst snd].
    split; [destruct supplied; reflexivity|].
    assert (Hsh := Heff "store_hash" (or_introl eq_refl)).
    assert (Hci := Heff "client_id" (or_intror (or_introl eq_refl))).
    assert (Htok := Heff "access_token" (or_intror (or_intror (or_introl eq_refl)))).
    apply http_bind_issues.
    { apply (fetch_products_issues _ 2000 250 _ (Some creds) _ _ _ Hsh Hci Htok).
      intros inc page. split; [reflexivity|left].
      cbn [url products_request]. now rewrite !append_assoc. }
    intros products. apply http_bind_issues; [apply http_lift_issues|].
    intros kept. apply http_bind_issues.
    { apply (fetch_brand_map_issues _ fuel (Some creds) _ _ _ Hsh Hci Htok).
      intros page. split; [reflexivity|right].
      cbn [url brands_request]. now rewrite !append_assoc. }
    intros brand_map. apply http_bind_issues; [apply http_lift_issues|].
    intros content. apply http_ret_issues. }
  destruct Hexport as [Hfst Hreqs].
  split; [now rewrite Hfst|apply Hreqs].
Qed.

(** ** Preview and download *)


(** ** Saved credentials *)

Variable collection : Type.
Variable doc_set : collection -> value -> list (string * value) -> collection.
Variable doc_get : collection -> value -> option (list (string * value)).
Variable verify_id_token : value -> string + list (string * value).

Lemma truthy_py_and (a b : value) :
  truthy (py_and a b) = (truthy a && truthy b)%bool.
Proof. unfold py_and. destruct (truthy a) eqn:Ha; [reflexivity|exact Ha]. Qed.

Lemma save_creds_fields (payload : value) (db : option collection) :
  is_record payload = true ->
  save_creds collection doc_set verify_id_token payload db =
  let field := fun key => match attr (or_empty payload) key with
                          | Some v => v
                          | None => VStr ""
                          end in
  if (truthy (field "id_token") && truthy (field "store_hash")
      && truthy (field "client_id") && truthy (field "access_token"))%bool
  then
    match db with
    | None => Ok (json_error "Firestore not available" 503, db)
    | Some users =>
        match verified_uid verify_id_token (field "id_token") with
        | inl message => Ok (json_error ("Invalid ID token: " ++ message) 401, db)
        | inr uid =>
            Ok ({| reply_body := [ ("status", VStr "saved") ]; reply_status := 200 |},
                Some (doc_set users uid
                        [ ("store_hash", field "store_hash");
                          ("client_id", field "client_id");
                          ("access_token", field "access_token") ]))
        end
    end
  else Ok (json_error "Missing token or credentials" 400, db).
Proof.
  intros Hrec. destruct (record_cases payload Hrec) as [d [Hd Hor]].
  unfold save_creds. cbv zeta. rewrite Hd, Hor.
  rewrite !(py_get_attr (VDict d)) by reflexivity. cbn [bind].
  rewrite !truthy_py_and.
  destruct (truthy _), (truthy _), (truthy _), (truthy _); reflexivity.
Qed.

(** X25.  [save_creds] writes to the store only when it answers 200: that
    takes a token and three credentials that are all present and not empty,
    a store, and a token the verifier accepts.  When the token or one of
    the credentials is absent or empty the answer is 400, whatever the
    store and the verifier; and every answer other than 200 leaves the
    store as it was. *)
Theorem save_creds_guards (payload : value) (db : option collection) :
  is_record payload = true ->
  let field := fun key => match attr (or_empty payload) key with
                          | Some v => v
                          | None => VStr ""
                          end in
  let complete := (truthy (field "id_token") && truthy (field "store_hash")
                   && truthy (field "client_id") && truthy (field "access_token"))%bool in
  exists answer db',
    save_creds collection doc_set verify_id_token payload db = Ok (answer, db') /\
    (complete = false -> reply_status answer = 400) /\
    (reply_status answer <> 200 -> db' = db) /\
    (reply_status answer = 200 ->
     complete = true /\
     exists users uid,
       db = Some users /\
       verified_uid verify_id_token (field "id_token") = inr uid /\
       db' = Some (doc_set users uid
                     [ ("store_hash", field "store_hash");
                       ("client_id", field "client_id");
                       ("access_token", field "access_token") ])).
Proof.
  intros Hrec field complete. rewrite (save_creds_fields payload db Hrec). cbv zeta.
  fold field. fold complete.
  destruct complete eqn:Hcomplete.
  - destruct db as [users|].
    + destruct (verified_uid verify_id_token (field "id_token")) as [message|uid] eqn:Hv.
      * eexists _, _. split; [reflexivity|]. cbn [reply_status json_error].
        split; [discriminate|]. split; [reflexivity|]. lia.
      * eexists _, _. split; [reflexivity|]. cbn [reply_status].
        split; [discriminate|]. split; [lia|]. intros _.
        split; [reflexivity|]. now exists users, uid.
    + eexists _, _. split; [reflexivity|]. cbn [reply_status json_error].
      split; [discriminate|]. split; [reflexivity|]. lia.
  - eexists _, _. split; [reflexivity|]. cbn [reply_status json_error].
    split; [reflexivity|]. split; [reflexivity|]. lia.
Qed.

(** X26.  Saving then loading gives the credentials back.  Provided the
    store returns under an id the document last set under it: after a
    [save_creds] answered 200, a [load_creds] whose token the verifier maps
    to the same user answers found, with the store hash, client id and
    access token that were saved. *)
Theorem save_then_load (saved_payload load_payload : value) (users : collection)
    (answer : json_reply value) (db' : option collection) :
  (forall c uid document, doc_get (doc_set c uid document) uid = Some document) ->
  is_record saved_payload = true ->
  is_record load_payload = true ->
  let field := fun payload key => match attr (or_empty payload) key with
                                  | Some v => v
                                  | None => VStr ""
                                  end in
  save_creds collection doc_set verify_id_token saved_payload (Some users)
  = Ok (answer, db') ->
  reply_status answer = 200 ->
  truthy (field load_payload "id_token") = true ->
  verified_uid verify_id_token (field load_payload "id_token")
  = verified_uid verify_id_token (field saved_payload "id_token") ->
  load_creds collection doc_get verify_id_token load_payload db' =
  Ok {| reply_body := [ ("status", VStr "found");
                        ("store_hash", field saved_payload "store_hash");
                        ("client_id", field saved_payload "client_id");
                        ("access_token", field saved_payload "access_token") ];
        reply_status := 200 |}.
Proof.
  intros Hstore Hsaved Hload field Hsave Hstatus Htoken Hsame.
  rewrite (save_creds_fields saved_payload (Some users) Hsaved) in Hsave.
  cbv zeta in Hsave. unfold field in *. clear field.
  destruct (_ && _)%bool in Hsave.
  2:{ injection Hsave as <- <-. cbn in Hstatus. lia. }
  match type of Hsave with
  | context [verified_uid ?v ?t] =>
      destruct (verified_uid v t) as [message|uid] eqn:Hv
  end.
  { injection Hsave as <- <-. cbn in Hstatus. lia. }
  injection Hsave as <- <-.
  destruct (record_cases load_payload Hload) as [d [Hd Hor]].
  unfold load_creds. cbv zeta. rewrite Hd.
  rewrite Hor in Htoken, Hsame. cbn [attr] in Htoken, Hsame.
  cbn [py_get].
  assert (Hget : (match lookup "id_token" d with
                  | Some v => Ok v
                  | None => Ok (VStr "")
                  end)
                 = Ok (match lookup "id_token" d with
                       | Some v => v
                       | None => VStr ""
                       end)) by (destruct (lookup "id_token" d); reflexivity).
  rewrite Hget. cbn [bind]. rewrite Htoken. cbn [negb].
  rewrite Hsame, Hstore. reflexivity.
Qed.

End HandlerProperties.

(** * The further properties at concrete inputs *)

Section FurtherWitnesses.

#[local] Existing Instance plain_runtime.

Lemma filter_products_attribute_error_witness :
  Exists (fun v => truthy v = true /\ is_dict v = false) [normal_product; VStr "x"] /\
  filter_products [normal_product; VStr "x"] true true = Raise AttributeError /\
  filter_products [VInt 0; hidden_product; VStr ""] true false
  = Ok [VDict []; VDict []].
Proof.
  assert (H : Exists (fun v => truthy v = true /\ is_dict v = false)
                [normal_product; VStr "x"]).
  { right. left. now split. }
  split; [exact H|].
  split.
  - exact (proj1 (filter_products_attribute_error [normal_product; VStr "x"] true true) H).
  - apply (proj2 (filter_products_attribute_error [VInt 0; hidden_product; VStr ""]
                    true false)).
    repeat constructor; (now left) || (now right).
Defined.

Lemma filter_products_compose_witness :
  filter_products [hidden_product; disabled_product; normal_product] true false
  = Ok [disabled_product; normal_product] /\
  filter_products [disabled_product; normal_product] false true
  = filter_products [hidden_product; disabled_product; normal_product] false false.
Proof.
  assert (H : filter_products [hidden_product; disabled_product; normal_product]
                true false = Ok [disabled_product; normal_product]) by reflexivity.
  split; [exact H|].
  exact (filter_products_compose [hidden_product; disabled_product; normal_product]
           true false false true _ H).
Defined.

Lemma filter_products_include_all_witness :
  Forall (fun r => is_record r = true) [hidden_product; VNone; disabled_product] /\
  filter_products [hidden_product; VNone; disabled_product] true true
  = Ok [hidden_product; VDict []; disabled_product].
Proof.
  assert (H : Forall (fun r => is_record r = true)
                [hidden_product; VNone; disabled_product]) by (repeat constructor).
  split; [exact H|].
  exact (proj1 (filter_products_include_all _ H)).
Defined.

Lemma fetch_brand_map_configuration_error_witness :
  missing_keys (get_bigcommerce_config partial_environ None) <> [] /\
  fetch_brand_map partial_environ paged_endpoint 5 None [] =
  (Some (Raise (RuntimeError
     "Missing BigCommerce configuration: store_hash, access_token. Set BIGCOMMERCE_STORE_HASH, BIGCOMMERCE_CLIENT_ID, and BIGCOMMERCE_ACCESS_TOKEN.")),
   []).
Proof.
  assert (H : missing_keys (get_bigcommerce_config partial_environ None) <> [])
    by discriminate.
  split; [exact H|].
  exact (fetch_brand_map_configuration_error partial_environ paged_endpoint 5 None [] H).
Defined.

Lemma fetch_products_malformed_response_witness :
  status_code (garbled_endpoint 0) = 200 /\
  fst (fetch_products full_environ garbled_endpoint 10 2 false None [])
  = Some (Raise JSONDecodeError).
Proof.
  assert (H : status_code (garbled_endpoint 0) = 200) by reflexivity.
  split; [exact H|].
  destruct (fetch_products_malformed_response full_environ garbled_endpoint 10 2 false
              None 0 _ _ H (surjective_pairing _) (le_n 1)) as [Hjson _].
  exact (proj1 (Hjson eq_refl)).
Defined.

Lemma fetch_products_full_pages_witness :
  0 <= 5 /\ 0 < 2 /\
  missing_keys (get_bigcommerce_config full_environ None) = [] /\
  (forall j, page_of (full_endpoint j) = Some (full_pages j)) /\
  (forall j, Z.of_nat (List.length (full_pages j)) = 2) /\
  exists result log,
    fetch_products full_environ full_endpoint 5 2 false None []
    = (Some (Ok result), log) /\
    Z.of_nat (List.length log) = (5 + 2 - 1) / 2 /\
    Z.of_nat (List.length result) = 5 /\
    result = firstn (Z.to_nat 5) (received full_pages (List.length log)).
Proof.
  assert (H1 : 0 <= 5) by lia.
  assert (H2 : 0 < 2) by lia.
  assert (H3 : missing_keys (get_bigcommerce_config full_environ None) = [])
    by reflexivity.
  assert (H4 : forall j, page_of (full_endpoint j) = Some (full_pages j))
    by (intros j; reflexivity).
  assert (H5 : forall j, Z.of_nat (List.length (full_pages j)) = 2)
    by (intros j; reflexivity).
  split; [exact H1|]. split; [exact H2|]. split; [exact H3|].
  split; [exact H4|]. split; [exact H5|].
  exact (fetch_products_full_pages full_environ full_endpoint full_pages 5 2 false
           None H1 H2 H3 H4 H5).
Defined.

Lemma record_brands_last_wins_witness :
  Forall (fun b => exists i, attr b "id" = Some (VInt i)) acme_listing /\
  exists brand_map,
    record_brands acme_listing [] = Ok brand_map /\
    key_lookup (VInt 7) brand_map = Some (VStr "Acme Corp") /\
    key_lookup (VInt 8) brand_map = None.
Proof.
  assert (H : Forall (fun b => exists i, attr b "id" = Some (VInt i)) acme_listing).
  { repeat constructor; eexists; reflexivity. }
  split; [exact H|].
  destruct (record_brands_last_wins acme_listing H [] eq_refl)
    as [brand_map [Hrun [_ Hlook]]].
  exists brand_map. split; [exact Hrun|].
  split; [exact (Hlook 7)|exact (Hlook 8)].
Defined.

Lemma brand_without_id_witness :
  record_brands orphan_listing [] = Ok [(VNone, VStr "Orphan")] /\
  key_lookup VNone [(VNone, VStr "Orphan")] = Some (VStr "Orphan") /\
  cell [(VNone, VStr "Orphan")] "" (py_or hidden_product (VDict [])) "brand_name"
  = Ok (VStr "Orphan").
Proof.
  assert (H : record_brands orphan_listing [] = Ok [(VNone, VStr "Orphan")])
    by reflexivity.
  split; [exact H|].
  destruct (brand_without_id orphan_listing [] _ H) as [Hlook Hcell].
  split; [exact Hlook|].
  exact (Hcell "" hidden_product "Orphan" eq_refl eq_refl Hlook).
Defined.

Lemma fetch_brand_map_pages_witness :
  missing_keys (get_bigcommerce_config full_environ None) = [] /\
  (forall j, page_of (brand_endpoint j) = Some (brand_pages j)) /\
  last_page_short brand_pages 250 1 = true /\
  exists log,
    fetch_brand_map full_environ brand_endpoint 4 None []
    = (Some (Ok [(VInt 7, VStr "Acme Corp"); (VInt 9, VStr "Bolt")]), log) /\
    (List.length log <= 1)%nat /\
    requested_pages log = page_numbers (List.length log).
Proof.
  assert (H1 : missing_keys (get_bigcommerce_config full_environ None) = [])
    by reflexivity.
  assert (H2 : forall j, page_of (brand_endpoint j) = Some (brand_pages j))
    by (intros j; reflexivity).
  assert (H3 : last_page_short brand_pages 250 1 = true) by reflexivity.
  split; [exact H1|]. split; [exact H2|]. split; [exact H3|].
  destruct (fetch_brand_map_pages full_environ brand_endpoint brand_pages 1 4 None
              H1 H2 H3) as [log [Hrun [Hle [Hpages _]]]].
  - intros j Hj. lia.
  - lia.
  - exists log. split; [exact Hrun|]. split; [exact Hle|exact Hpages].
Defined.

Lemma fetch_brand_map_unbounded_witness :
  missing_keys (get_bigcommerce_config full_environ None) = [] /\
  (forall j, 250 <= Z.of_nat (List.length (endless_pages j))) /\
  exists log,
    fetch_brand_map full_environ endless_endpoint 3 None [] = (None, log) /\
    List.length log = 3%nat.
Proof.
  assert (H1 : missing_keys (get_bigcommerce_config full_environ None) = [])
    by reflexivity.
  assert (H2 : forall j, 250 <= Z.of_nat (List.length (endless_pages j))).
  { intros j. unfold endless_pages. rewrite repeat_length. lia. }
  split; [exact H1|]. split; [exact H2|].
  apply (fetch_brand_map_unbounded full_environ endless_endpoint endless_pages None
           H1 (fun j => eq_refl) H2).
  intros j. unfold endless_pages. apply Forall_forall. intros b Hb.
  apply repeat_spec in Hb. subst b. eexists. split; reflexivity.
Defined.

Lemma csv_rows_shape_witness :
  csv_rows [rich_product; VNone] ["id"; "category_ids"] [] ""
  = Ok [ [VStr "Product ID"; VStr "Category IDs"];
         [VInt 3; VStr "18, 23"];
         [VStr ""; VStr ""] ] /\
  List.length [ [VStr "Product ID"; VStr "Category IDs"];
                [VInt 3; VStr "18, 23"];
                [VStr ""; VStr ""] ] = 3%nat /\
  Forall (fun row : list value => List.length row = 2%nat)
    [ [VStr "Product ID"; VStr "Category IDs"];
      [VInt 3; VStr "18, 23"];
      [VStr ""; VStr ""] ].
Proof.
  assert (H : csv_rows [rich_product; VNone] ["id"; "category_ids"] [] ""
              = Ok [ [VStr "Product ID"; VStr "Category IDs"];
                     [VInt 3; VStr "18, 23"];
                     [VStr ""; VStr ""] ]) by reflexivity.
  split; [exact H|].
  exact (csv_rows_shape [rich_product; VNone] ["id"; "category_ids"] [] "" _ H).
Defined.

Lemma cell_is_scalar_witness :
  "images" <> "custom_url" /\
  cell [] "" rich_product "images"
  = Ok (VStr "{'url_standard': 'a.png'}, None, {'id': 2}") /\
  True.
Proof.
  assert (H1 : "images" <> "custom_url") by discriminate.
  assert (H2 : cell [] "" rich_product "images"
               = Ok (VStr "{'url_standard': 'a.png'}, None, {'id': 2}"))
    by reflexivity.
  split; [exact H1|]. split; [exact H2|].
  exact (cell_is_scalar [] "" rich_product "images" _ H1 H2).
Defined.

Lemma brand_name_cell_witness :
  Forall (fun b => exists i, attr b "id" = Some (VInt i)) acme_listing /\
  is_record rich_product = true /\
  attr (or_empty rich_product) "brand_id" = Some (VInt 7) /\
  exists brand_map,
    record_brands acme_listing [] = Ok brand_map /\
    cell brand_map "" (py_or rich_product (VDict [])) "brand_name"
    = Ok (VStr "Acme Corp").
Proof.
  assert (H1 : Forall (fun b => exists i, attr b "id" = Some (VInt i)) acme_listing).
  { repeat constructor; eexists; reflexivity. }
  assert (H2 : Forall (fun b => exists s, match attr b "name" with
                                          | Some name => name
                                          | None => VStr ""
                                          end = VStr s) acme_listing).
  { repeat constructor; eexists; reflexivity. }
  split; [exact H1|]. split; [reflexivity|]. split; [reflexivity|].
  exact (brand_name_cell acme_listing rich_product "" 7 H1 H2 eq_refl eq_refl).
Defined.

Lemma categories_columns_agree_witness :
  lookup "categories" [ ("categories", VList [VInt 18; VInt 23]) ]
  = Some (VList [VInt 18; VInt 23]) /\
  cell [] "" (VDict [ ("categories", VList [VInt 18; VInt 23]) ]) "category_ids"
  = Ok (VStr "18, 23") /\
  cell [] "" (VDict [ ("categories", VList [VInt 18; VInt 23]) ]) "categories"
  = Ok (VStr "18, 23").
Proof.
  split; [reflexivity|].
  exact (categories_columns_agree [] "" [ ("categories", VList [VInt 18; VInt 23]) ]
           [VInt 18; VInt 23] eq_refl).
Defined.

Lemma image_urls_skip_null_witness :
  cell [] ""
    (VDict [ ("images", VList [ VDict [ ("url_standard", VStr "a.png") ]; VNone;
                                VDict [ ("id", VInt 2) ] ]) ])
    "image_urls"
  = Ok (VStr "a.png, ").
Proof.
  apply (image_urls_skip_null [] ""
           [ ("images", VList [ VDict [ ("url_standard", VStr "a.png") ]; VNone;
                                VDict [ ("id", VInt 2) ] ]) ]
           [ VDict [ ("url_standard", VStr "a.png") ]; VNone; VDict [ ("id", VInt 2) ] ]
           eq_refl).
  apply Forall_cons; [right; now eexists _, _|].
  apply Forall_cons; [now left|].
  apply Forall_cons; [right; now eexists _, _|apply Forall_nil].
Defined.

Lemma custom_fields_cell_witness :
  cell [] "" rich_product "custom_fields" = Ok (VStr "Color: Red; loose") /\
  cell [] "" broken_product "custom_fields" = Raise AttributeError /\
  exists e, build_csv_rows [broken_product] ["id"; "custom_fields"] [] "" = Raise e.
Proof.
  destruct (custom_fields_cell [] ""
              [ ("id", VInt 3); ("brand_id", VInt 7);
                ("categories", VList [VInt 18; VInt 23]);
                ("images", VList [ VDict [ ("url_standard", VStr "a.png") ]; VNone;
                                   VDict [ ("id", VInt 2) ] ]);
                ("custom_fields",
                 VList [ VDict [ ("name", VStr "Color"); ("value", VStr "Red") ];
                         VDict [ ("value", VStr "loose") ] ]) ]
              _ eq_refl) as [_ Hgood].
  destruct (custom_fields_cell [] ""
              [ ("custom_fields", VList [ VDict [ ("name", VStr "Color") ]; VNone ]) ]
              _ eq_refl) as [Hbad _].
  split.
  - apply Hgood.
    apply Forall_cons; [eexists _, _, _; repeat split; reflexivity|].
    apply Forall_cons; [eexists _, _, _; repeat split; reflexivity|apply Forall_nil].
  - assert (Hex : Exists (fun cf : value => is_dict cf = false)
                    [ VDict [ ("name", VStr "Color") ]; VNone ])
      by (right; left; reflexivity).
    destruct (Hbad Hex) as [Hcell Hrows].
    split; [exact Hcell|].
    apply Hrows. right. now left.
Defined.

Lemma apply_domain_trailing_slashes_witness :
  rstrip "/" "https://shop.example.com//" <> "" /\
  apply_domain "https://shop.example.com//" (VStr "widgets/1")
  = apply_domain "https://shop.example.com" (VStr "widgets/1").
Proof.
  assert (H : rstrip "/" "https://shop.example.com//" <> "") by discriminate.
  split; [exact H|].
  exact (apply_domain_trailing_slashes "https://shop.example.com//"
           (VStr "widgets/1") H).
Defined.

Lemma apply_domain_idempotent_witness :
  startswith (rstrip "/" "https://shop.example.com/") "https://" = true /\
  apply_domain "https://shop.example.com/" (VStr "widgets/1")
  = Ok (VStr "https://shop.example.com/widgets/1") /\
  apply_domain "https://shop.example.com/" (VStr "https://shop.example.com/widgets/1")
  = Ok (VStr "https://shop.example.com/widgets/1").
Proof.
  assert (H1 : startswith (rstrip "/" "https://shop.example.com/") "https://" = true)
    by reflexivity.
  assert (H2 : apply_domain "https://shop.example.com/" (VStr "widgets/1")
               = Ok (VStr "https://shop.example.com/widgets/1")) by reflexivity.
  split; [exact H1|]. split; [exact H2|].
  exact (apply_domain_idempotent "https://shop.example.com/" "widgets/1" _
           (or_intror H1) H2).
Defined.

Lemma export_credentials_witness :
  parse_fields (form_get export_form "ordered_fields" "") <> [] /\
  NoDup (map fst [ ("store_hash", "old"); ("client_id", "oldclient");
                   ("access_token", "oldtoken") ]) /\
  fst (export full_environ paged_endpoint strip_spaces plain_csv_reader 3
         export_form saved_session)
  = Some [ ("store_hash", "s1") ] /\
  exists ext,
    snd (snd (export full_environ paged_endpoint strip_spaces plain_csv_reader 3
                export_form saved_session) [])
    = [] ++ ext /\
    Forall (fun r =>
              headers r = [ ("X-Auth-Client", "client"); ("X-Auth-Token", "token");
                            ("Accept", "application/json");
                            ("Content-Type", "application/json") ] /\
              (url r = "https://api.bigcommerce.com/stores/s1/v3/catalog/products" \/
               url r = "https://api.bigcommerce.com/stores/s1/v3/catalog/brands"))
      ext.
Proof.
  assert (H1 : parse_fields (form_get export_form "ordered_fields" "") <> [])
    by discriminate.
  assert (H2 : NoDup (map fst [ ("store_hash", "old"); ("client_id", "oldclient");
                                ("access_token", "oldtoken") ])).
  { repeat constructor; cbn; intuition discriminate. }
  split; [exact H1|]. split; [exact H2|].
  exact (export_credentials full_environ paged_endpoint strip_spaces plain_csv_reader 3
           export_form saved_session [] H1 H2).
Defined.


Lemma save_creds_guards_witness :
  is_record save_payload = true /\
  exists answer db',
    save_creds (option (list (string * value))) slot_set one_token save_payload
      (Some None) = Ok (answer, db') /\
    (reply_status answer <> 200 -> db' = Some None) /\
    (reply_status answer = 200 ->
     db' = Some (slot_set None (VStr "u1")
                   [ ("store_hash", VStr "abc123"); ("client_id", VStr "client");
                     ("access_token", VStr "token") ])).
Proof.
  assert (H : is_record save_payload = true) by reflexivity.
  split; [exact H|].
  destruct (save_creds_guards (option (list (string * value))) slot_set one_token
              save_payload (Some None) H)
    as [answer [db' [Hrun [_ [Hkeep Hsaved]]]]].
  exists answer, db'. split; [exact Hrun|]. split; [exact Hkeep|].
  intros Hstatus.
  destruct (Hsaved Hstatus) as [_ [users [uid [Hdb [Huid Hdb']]]]].
  injection Hdb as <-. injection Huid as <-. exact Hdb'.
Defined.

Lemma save_then_load_witness :
  (forall c uid document, slot_get (slot_set c uid document) uid = Some document) /\
  save_creds (option (list (string * value))) slot_set one_token save_payload (Some None)
  = Ok ({| reply_body := [ ("status", VStr "saved") ]; reply_status := 200 |},
        Some (Some [ ("store_hash", VStr "abc123"); ("client_id", VStr "client");
                     ("access_token", VStr "token") ])) /\
  load_creds (option (list (string * value))) slot_get one_token load_payload_example
    (Some (Some [ ("store_hash", VStr "abc123"); ("client_id", VStr "client");
                  ("access_token", VStr "token") ]))
  = Ok {| reply_body := [ ("status", VStr "found");
                          ("store_hash", VStr "abc123");
                          ("client_id", VStr "client");
                          ("access_token", VStr "token") ];
          reply_status := 200 |}.
Proof.
  assert (H1 : forall (c : option (list (string * value))) uid document,
             slot_get (slot_set c uid document) uid = Some document)
    by reflexivity.
  assert (H2 : save_creds (option (list (string * value))) slot_set one_token
                 save_payload (Some None)
               = Ok ({| reply_body := [ ("status", VStr "saved") ];
                        reply_status := 200 |},
                     Some (Some [ ("store_hash", VStr "abc123");
                                  ("client_id", VStr "client");
                                  ("access_token", VStr "token") ])))
    by reflexivity.
  split; [exact H1|]. split; [exact H2|].
  exact (save_then_load (option (list (string * value))) slot_set slot_get one_token
           save_payload load_payload_example None _ _ H1 eq_refl eq_refl H2
           eq_refl eq_refl eq_refl).
Defined.

End FurtherWitnesses.
